(** * Trade-sign classification (ITCH) and short/long lag responses (TAQ)

    A shallow embedding of two modules of the econophysics repository:

    - [taq_data_analysis.py] (lag responses split into a short and a long
      regime, day level and year level), and
    - [itch_trade_sign_classification_test.py] (attribution of trades to
      resting limit orders, tick rule, per-second aggregation, accuracy).

    Conventions of the embedding.

    - A [float64] array holding prices, returns or responses is a
      [list Qc]: exact rationals, so rounding is not modelled.  Division
      by zero, which NumPy reports as [inf] or [nan], is [Qcdiv]'s [0].
    - Python integers are [Z]; the [uint16] share counts are [Z] with the
      wrap-around modulo [2^16] written out where the source subtracts.
    - A Python exception is an [exn] carried by [result]; [try/except] is
      [try_except].  Printing, opening files and saving are recorded as a
      trace of [event]s in the [io] monad.
    - Slices, boolean masks and broadcasting follow NumPy for
      one-dimensional arrays, including the shape errors. *)

From Stdlib Require Import QArith Qcanon Qround Ascii String.
From stdpp Require Import base numbers list strings pretty.

Local Open Scope Z_scope.

(** ** Python and NumPy primitives *)

Module Py.

Inductive exn : Type :=
  | IndexError
  | AssertionError
  | ValueError
  | TypeError
  | NameError
  | FileNotFoundError.

#[global] Instance exn_eq_dec : EqDecision exn.
Proof. solve_decision. Defined.

Inductive result (A : Type) : Type :=
  | Ok (a : A)
  | Raise (e : exn).
Arguments Ok {A} a.
Arguments Raise {A} e.

#[global] Instance result_ret : MRet result := @Ok.
#[global] Instance result_bind : MBind result := fun A B f m =>
  match m with
  | Ok a => f a
  | Raise e => Raise e
  end.

(** [assert c] *)
Definition py_assert (c : bool) : result unit :=
  if c then Ok tt else Raise AssertionError.

(** Monadic left fold: the body of a [for] loop run over [l]. *)
Fixpoint for_each {A S : Type} (body : S -> A -> result S) (l : list A) (s : S)
  : result S :=
  match l with
  | [] => Ok s
  | x :: l' => s' ← body s x; for_each body l' s'
  end.

(** [range(start, stop)] and [range(n)] *)
Fixpoint count_from (start : Z) (n : nat) : list Z :=
  match n with
  | O => []
  | S n' => start :: count_from (start + 1) n'
  end.

Definition range2 (start stop : Z) : list Z :=
  count_from start (Z.to_nat (stop - start)).

Definition range (n : Z) : list Z := range2 0 n.

(** A slice bound [i] clipped against a sequence of length [n]. *)
Definition clip (n : nat) (i : Z) : nat :=
  Z.to_nat (if bool_decide (i < 0) then Z.max (i + Z.of_nat n) 0 else Z.min i (Z.of_nat n)).

(** [l[start:stop]] with step 1; [None] is an omitted bound. *)
Definition slice {A : Type} (start stop : option Z) (l : list A) : list A :=
  let n := length l in
  let lo := from_option (clip n) 0%nat start in
  let hi := from_option (clip n) n stop in
  take (hi - lo) (drop lo l).

(** [l[i]] for an integer [i]: negative indices count from the end. *)
Definition getitem {A : Type} (l : list A) (i : Z) : result A :=
  let j := if bool_decide (i < 0) then i + Z.of_nat (length l) else i in
  if bool_decide (0 <= j) then
    match l !! Z.to_nat j with
    | Some x => Ok x
    | None => Raise IndexError
    end
  else Raise IndexError.

(** [l[i] = v] for an integer [i]. *)
Definition setitem {A : Type} (l : list A) (i : Z) (v : A) : result (list A) :=
  let j := if bool_decide (i < 0) then i + Z.of_nat (length l) else i in
  if bool_decide (0 <= j < Z.of_nat (length l)) then Ok (<[Z.to_nat j := v]> l)
  else Raise IndexError.

(** [l[mask]] for a boolean array [mask] of the length of [l]. *)
Fixpoint select {A : Type} (mask : list bool) (l : list A) : list A :=
  match mask, l with
  | b :: mask', x :: l' => if b then x :: select mask' l' else select mask' l'
  | _, _ => []
  end.

(** [l[mask]] for any boolean array: a mask of another length is an
    [IndexError]. *)
Definition mask_index {A : Type} (mask : list bool) (l : list A)
  : result (list A) :=
  if bool_decide (length mask = length l) then Ok (select mask l)
  else Raise IndexError.

(** [l[mask] = src[mask]] for [mask], [l] and [src] of one length. *)
Fixpoint assign_where {A : Type} (mask : list bool) (src l : list A) : list A :=
  match mask, src, l with
  | b :: mask', s :: src', x :: l' =>
      (if b then s else x) :: assign_where mask' src' l'
  | _, _, _ => l
  end.

(** A result that is not the [FileNotFoundError] the day-level functions
    catch. *)
Definition found {A : Type} (r : result A) : Prop :=
  r ≠ Raise FileNotFoundError.

End Py.

Module Np.
Import Py.

Local Open Scope Qc_scope.

(** [np.zeros(n)] and [np.ones(n)]: a negative dimension is a [ValueError]. *)
Definition zeros (n : Z) : result (list Qc) :=
  if bool_decide (n < 0)%Z then Raise ValueError
  else Ok (replicate (Z.to_nat n) 0).

Definition ones (n : Z) : result (list Qc) :=
  if bool_decide (n < 0)%Z then Raise ValueError
  else Ok (replicate (Z.to_nat n) 1).

(** [np.sum(a)] *)
Definition sum (a : list Qc) : Qc := foldr Qcplus 0 a.

(** [c * a] for a scalar [c] *)
Definition scale (c : Qc) (a : list Qc) : list Qc := map (Qcmult c) a.

(** [a != 0] *)
Definition ne0 (a : list Qc) : list bool :=
  map (fun x => negb (bool_decide (x = 0))) a.

(** [len(a[a != 0])] *)
Definition count_nonzero (a : list Qc) : Z :=
  Z.of_nat (length (select (ne0 a) a)).

(** Element-wise binary operator on one-dimensional arrays: equal lengths,
    or one operand of length 1 stretched over the other, else the shapes
    cannot be broadcast together. *)
Definition broadcast2 (f : Qc -> Qc -> Qc) (a b : list Qc) : result (list Qc) :=
  if bool_decide (length a = length b) then Ok (zip_with f a b)
  else match a, b with
       | [x], _ => Ok (map (f x) b)
       | _, [y] => Ok (map (fun x => f x y) a)
       | _, _ => Raise ValueError
       end.

Definition sub := broadcast2 Qcminus.
Definition mul := broadcast2 Qcmult.
Definition div := broadcast2 Qcdiv.

(** [a[:stop] = v] *)
Definition assign_prefix (stop : Z) (v a : list Qc) : result (list Qc) :=
  let m := clip (length a) stop in
  if bool_decide (length v = m) then Ok (v ++ drop m a)
  else match v with
       | [x] => Ok (replicate m x ++ drop m a)
       | _ => Raise ValueError
       end.

End Np.

(** ** Input and output as a trace *)

Module IO.
Import Py.

(** What a call does to the outside world, in order. *)
Inductive event : Type :=
  | HeaderPrint (function_name ticker_i ticker_j year month day : string)
  | Print (line : string)
  | Open (path : string)
  | Save (function_name : string) (data : list Qc)
         (ticker_i ticker_j year month day : string).

Record io (A : Type) : Type := Io { trace : list event; outcome : result A }.
Arguments Io {A} trace outcome.
Arguments trace {A} i.
Arguments outcome {A} i.

#[global] Instance io_ret : MRet io := fun A a => Io [] (Ok a).
#[global] Instance io_bind : MBind io := fun A B f m =>
  match outcome m with
  | Ok a => Io (trace m ++ trace (f a)) (outcome (f a))
  | Raise e => Io (trace m) (Raise e)
  end.

Definition emit (e : event) : io unit := Io [e] (Ok tt).
Definition lift {A : Type} (r : result A) : io A := Io [] r.
Definition raise {A : Type} (e : exn) : io A := Io [] (Raise e).

(** [try: body except e: handler] *)
Definition try_except {A : Type} (body : io A) (e : exn) (handler : io A) : io A :=
  match outcome body with
  | Ok a => body
  | Raise e' =>
      if decide (e' = e) then Io (trace body ++ trace handler) (outcome handler)
      else body
  end.

(** The loop body threads the accumulator; an exception leaves the loop. *)
Fixpoint for_each_io {A S : Type} (body : S -> A -> io S) (l : list A) (s : S)
  : io S :=
  match l with
  | [] => mret s
  | x :: l' => s' ← body s x; for_each_io body l' s'
  end.

End IO.

(** ** Strings: [str.split(sep)] *)

Module Str.

(** [s.split(sep)] for a one-character separator: the fields between the
    separators, always at least one. *)
Fixpoint split (sep : ascii) (s : string) : list string :=
  match s with
  | EmptyString => [EmptyString]
  | String c s' =>
      if decide (c = sep) then EmptyString :: split sep s'
      else match split sep s' with
           | [] => [String c EmptyString]
           | f :: fs => String c f :: fs
           end
  end.

End Str.

(** ** [taq_data_analysis.py]: responses at short and long lags *)

Module Taq.
Import Py IO.

Local Open Scope Qc_scope.

(** The array part shared, line for line up to the names of the variables,
    by [taq_self_response_day_time_short_long_tau_data] (from its [assert]
    to its [return]) and [taq_cross_response_day_time_short_long_tau_data]:
    first the body of the [else] branch of the loop over [tau_idx], *)
Definition long_response (midpoint trade_sign : list Qc) (tau_p : Z)
    (trade_sign_no_0_len_short : Z) (product_short : option (list Qc))
    (st : list Qc * list Qc) (tau_idx : Z) : result (list Qc * list Qc) :=
  let '(self_response, num) := st in
  if bool_decide (tau_idx <= tau_p)%Z then Ok (self_response, num)
  else
    let trade_sign_tau_long :=
      slice (Some tau_p) (Some (- tau_idx - 1)%Z) trade_sign in
    let trade_sign_no_0_len_long := Np.count_nonzero trade_sign_tau_long in
    num ← setitem num tau_idx
            (Qc_of_Z (trade_sign_no_0_len_long + trade_sign_no_0_len_short));
    d ← Np.sub (slice (Some (tau_idx + 1)%Z) (Some (- tau_p)%Z) midpoint)
               (slice (Some tau_p) (Some (- tau_idx - 1)%Z) midpoint);
    log_return_sec_long ←
      Np.div d (slice (Some tau_p) (Some (- tau_idx - 1)%Z) midpoint);
    if bool_decide (trade_sign_no_0_len_long ≠ 0%Z) then
      product_long ← Np.mul log_return_sec_long trade_sign_tau_long;
      product_short ← match product_short with
                      | Some p => Ok p
                      | None => Raise NameError
                      end;
      self_response ← setitem self_response tau_idx
                        (Np.sum product_long + Np.sum product_short);
      Ok (self_response, num)
    else Ok (self_response, num).

(** then the whole computation of the pair [(self_response, num)]. *)
Definition day_time_short_long_tau (midpoint trade_sign : list Qc)
    (tau tau_p : Z) : result (list Qc * list Qc) :=
  py_assert (bool_decide (length midpoint = length trade_sign));;
  self_response ← Np.zeros tau;
  num ← Np.zeros tau;
  let trade_sign_tau_short := slice None (Some (- tau_p)%Z) trade_sign in
  let trade_sign_no_0_len_short := Np.count_nonzero trade_sign_tau_short in
  ones ← Np.ones (tau_p + 1);
  num ← Np.assign_prefix (tau_p + 1)
          (Np.scale (Qc_of_Z trade_sign_no_0_len_short) ones) num;
  d ← Np.sub (slice (Some tau_p) None midpoint)
             (slice None (Some (- tau_p)%Z) midpoint);
  log_return_sec_short ← Np.div d (slice None (Some (- tau_p)%Z) midpoint);
  '(product_short, self_response) ←
    (if bool_decide (trade_sign_no_0_len_short ≠ 0%Z) then
       product_short ← Np.mul log_return_sec_short trade_sign_tau_short;
       ones ← Np.ones (tau_p + 1);
       self_response ← Np.assign_prefix (tau_p + 1)
                         (Np.scale (Np.sum product_short) ones) self_response;
       Ok (Some product_short, self_response)
     else Ok (None, self_response));
  for_each
    (long_response midpoint trade_sign tau_p trade_sign_no_0_len_short
                   product_short)
    (range tau) (self_response, num).

(** [np.sum(np.asarray(num), axis=0)]: the element-wise sum of the rows,
    and the scalar [0.0] when there is no row. *)
Inductive scalar_or_array : Type :=
  | Scalar (x : Qc)
  | Array (a : list Qc).

Definition sum_axis0 (num : list (list Qc)) : scalar_or_array :=
  match num with
  | [] => Scalar 0
  | a :: rest => Array (foldl (zip_with Qcplus) a rest)
  end.

(** [a / num_t] *)
Definition divide (a : list Qc) (num_t : scalar_or_array) : result (list Qc) :=
  match num_t with
  | Scalar x => Ok (map (fun y => y / x) a)
  | Array b => Np.div a b
  end.

(** [a += data] keeps the shape of [a]. *)
Definition iadd (a data : list Qc) : result (list Qc) :=
  if bool_decide (length a = length data) then Ok (zip_with Qcplus a data)
  else match data with
       | [y] => Ok (map (fun x => x + y) a)
       | _ => Raise ValueError
       end.

(** [data, avg_num = r]: unpacking [None] is a [TypeError]. *)
Definition unpack {A B : Type} (r : option (A * B)) : io (A * B) :=
  match r with
  | Some p => mret p
  | None => raise TypeError
  end.

Section taq_data_analysis.

(** The pickled arrays on disk, by path: the midpoint prices, and the
    third component of the trade-sign tuples. *)
Variable midpoint_file : string -> option (list Qc).
Variable trade_signs_file : string -> option (list Qc).

(** [taq_data_tools.taq_bussiness_days] *)
Variable taq_bussiness_days : string -> list string.

(** [pickle.load(open(path, 'rb'))] *)
Definition pickle_load (file : string -> option (list Qc)) (path : string)
  : io (list Qc) :=
  emit (Open path);;
  match file path with
  | Some a => mret a
  | None => raise FileNotFoundError
  end.

Definition midpoint_path (ticker year month day : string) : string :=
  "../../taq_data/article_reproduction_data_" +:+ year
  +:+ "/taq_midpoint_full_time_data/taq_midpoint_full_time_data_midpoint_"
  +:+ year +:+ month +:+ day +:+ "_" +:+ ticker +:+ ".pickle".

(** [dir_year] is the year in the directory name. *)
Definition trade_signs_path (dir_year ticker year month day : string)
  : string :=
  "../../taq_data/article_reproduction_data_" +:+ dir_year
  +:+ "/taq_trade_signs_full_time_data/taq_trade_signs_full_time_data_"
  +:+ year +:+ month +:+ day +:+ "_" +:+ ticker +:+ ".pickle".

Definition save_name (function_name : string) (tau tau_p : Z) : string :=
  function_name +:+ "_tau_" +:+ pretty tau +:+ "_tau_p_" +:+ pretty tau_p.

Definition no_data {A : Type} : io (option A) :=
  emit (Print "No data");; emit (Print "");; mret None.

Definition taq_self_response_day_time_short_long_tau_data
    (ticker date : string) (tau tau_p : Z) : io (option (list Qc * list Qc)) :=
  let date_sep := Str.split "-" date in
  year ← lift (getitem date_sep 0);
  month ← lift (getitem date_sep 1);
  day ← lift (getitem date_sep 2);
  let function_name := "taq_self_response_day_time_short_long_tau_data" in
  emit (HeaderPrint function_name ticker ticker year month day);;
  try_except
    (midpoint ← pickle_load midpoint_file
                  (midpoint_path ticker year month day);
     trade_sign ← pickle_load trade_signs_file
                    (trade_signs_path year ticker year month day);
     r ← lift (day_time_short_long_tau midpoint trade_sign tau tau_p);
     mret (Some r))
    FileNotFoundError
    no_data.

Definition taq_cross_response_day_time_short_long_tau_data
    (ticker_i ticker_j date : string) (tau tau_p : Z)
  : io (option (list Qc * list Qc)) :=
  let date_sep := Str.split "-" date in
  year ← lift (getitem date_sep 0);
  month ← lift (getitem date_sep 1);
  day ← lift (getitem date_sep 2);
  if bool_decide (ticker_i = ticker_j) then mret None
  else
    try_except
      (let function_name :=
         "taq_cross_response_day_time_short_long_tau_data" in
       emit (HeaderPrint function_name ticker_i ticker_j year month day);;
       midpoint_i ← pickle_load midpoint_file
                      (midpoint_path ticker_i year month day);
       trade_sign_j ← pickle_load trade_signs_file
                        (trade_signs_path "2008" ticker_j year month day);
       r ← lift (day_time_short_long_tau midpoint_i trade_sign_j tau tau_p);
       mret (Some r))
      FileNotFoundError
      no_data.

(** The body of the loop over [dates] of the two year-level functions,
    given the day-level call. *)
Definition year_step (day_data : string -> io (option (list Qc * list Qc)))
    (st : list Qc * list (list Qc)) (date : string)
  : io (list Qc * list (list Qc)) :=
  let '(response, num) := st in
  try_except
    (r ← day_data date;
     '(data, avg_num) ← unpack r;
     response ← lift (iadd response data);
     mret (response, num ++ [avg_num]))
    TypeError
    (mret (response, num)).

Definition taq_self_response_year_time_short_long_tau_data
    (ticker year : string) (tau tau_p : Z) : io (list Qc) :=
  let function_name := "taq_self_response_year_time_short_long_tau_data" in
  emit (HeaderPrint function_name ticker ticker year "" "");;
  let dates := taq_bussiness_days year in
  self_response ← lift (Np.zeros tau);
  '(self_response, num) ←
    for_each_io
      (year_step (fun date =>
         taq_self_response_day_time_short_long_tau_data ticker date tau tau_p))
      dates (self_response, []);
  let num_t := sum_axis0 num in
  saved ← lift (divide self_response num_t);
  emit (Save (save_name function_name tau tau_p) saved ticker ticker year "" "");;
  lift (divide self_response num_t).

Definition taq_cross_response_year_time_short_long_tau_data
    (ticker_i ticker_j year : string) (tau tau_p : Z) : io (option (list Qc)) :=
  if bool_decide (ticker_i = ticker_j) then mret None
  else
    let function_name := "taq_cross_response_year_time_short_long_tau_data" in
    emit (HeaderPrint function_name ticker_i ticker_j year "" "");;
    let dates := taq_bussiness_days year in
    cross_response ← lift (Np.zeros tau);
    '(cross_response, num) ←
      for_each_io
        (year_step (fun date =>
           taq_cross_response_day_time_short_long_tau_data
             ticker_i ticker_j date tau tau_p))
        dates (cross_response, []);
    let num_t := sum_axis0 num in
    saved ← lift (divide cross_response num_t);
    emit (Save (save_name function_name tau tau_p) saved
               ticker_i ticker_j year "" "");;
    r ← lift (divide cross_response num_t);
    mret (Some r).

End taq_data_analysis.

End Taq.

(** ** The response estimator in the words of the specification (§4.4) *)

Module TaqSpec.

Local Open Scope Qc_scope.

(** [P[t]] and [S[t]]; positions outside the series are never summed. *)
Definition at_ (a : list Qc) (t : nat) : Qc := default 0 (a !! t).

(** Short regime: log-return[t] = (P[t+τp] − P[t]) / P[t] for t in
    [0, L−τp), summed with the sign over the t whose sign is non-zero. *)
Definition short_window (S : list Qc) (tau_p : nat) : list nat :=
  filter (fun t => at_ S t ≠ 0) (seq 0 (length S - tau_p)).

Definition short_product (P S : list Qc) (tau_p : nat) : Qc :=
  Np.sum (map (fun t => (at_ P (t + tau_p) - at_ P t) / at_ P t * at_ S t)
              (short_window S tau_p)).

Definition short_count (S : list Qc) (tau_p : nat) : Z :=
  Z.of_nat (length (short_window S tau_p)).

(** Long regime at lag τ: the signs of the slice [τp : L−τ−1), the prices
    shifted by τ+1 against τp. *)
Definition long_slice (S : list Qc) (tau_p tau : nat) : list nat :=
  seq tau_p (length S - tau - 1 - tau_p).

Definition long_sum (P S : list Qc) (tau_p tau : nat) : Qc :=
  Np.sum (map (fun t => (at_ P (t + (tau + 1 - tau_p)) - at_ P t) / at_ P t
                        * at_ S t)
              (long_slice S tau_p tau)).

Definition long_count (S : list Qc) (tau_p tau : nat) : Z :=
  Z.of_nat (length (filter (fun t => at_ S t ≠ 0) (long_slice S tau_p tau))).

(** The terms of the two sums before the zero signs are left out, and what
    one turn of the loop over the lags leaves in the pair (R, N). *)
Definition short_products (P S : list Qc) (tau_p : nat) : list Qc :=
  map (fun t => (at_ P (t + tau_p) - at_ P t) / at_ P t * at_ S t)
      (seq 0 (length S - tau_p)).

Definition long_products (P S : list Qc) (tau_p tau : nat) : list Qc :=
  map (fun t => (at_ P (t + (tau + 1 - tau_p)) - at_ P t) / at_ P t * at_ S t)
      (long_slice S tau_p tau).

Definition long_update (P S : list Qc) (tau_p : nat)
    (st : list Qc * list Qc) (tau : nat) : list Qc * list Qc :=
  if decide (tau <= tau_p)%nat then st
  else
    (if decide (long_count S tau_p tau = 0%Z) then st.1
     else <[tau := long_sum P S tau_p tau + Np.sum (short_products P S tau_p)]> st.1,
     <[tau := Qc_of_Z (long_count S tau_p tau + short_count S tau_p)]> st.2).

(** The pair (R, N) when the loop starts: the short regime written into
    the slots 0..τp. *)
Definition short_fill (P S : list Qc) (tau tau_p : nat) : list Qc * list Qc :=
  (if decide (short_count S tau_p = 0%Z) then replicate tau 0
   else replicate (tau_p + 1) (Np.sum (short_products P S tau_p))
        ++ replicate (tau - (tau_p + 1)) 0,
   replicate (tau_p + 1) (Qc_of_Z (short_count S tau_p))
   ++ replicate (tau - (tau_p + 1)) 0).

(** Year level: element-wise sums over the days, and their ratio. *)
Definition sum_arrays (tau : nat) (days : list (list Qc)) : list Qc :=
  foldr (zip_with Qcplus) (replicate tau 0) days.

Definition ratio (R_total N_total : list Qc) : list Qc :=
  zip_with Qcdiv R_total N_total.

(** The days with valid data are those whose day-level call returns a pair
    (R, N); a day without backing data returns nothing. *)
Definition valid_days
    (day_data : string -> IO.io (option (list Qc * list Qc)))
    (dates : list string) : list (list Qc * list Qc) :=
  omap (fun date => match IO.outcome (day_data date) with
                    | Py.Ok (Some rn) => Some rn
                    | _ => None
                    end) dates.

Definition year_average (tau : nat)
    (day_data : string -> IO.io (option (list Qc * list Qc)))
    (dates : list string) : list Qc :=
  ratio (sum_arrays tau (map fst (valid_days day_data dates)))
        (sum_arrays tau (map snd (valid_days day_data dates))).

(** A call that returns, with a result or with [None]. *)
Definition returns {A : Type} (call : IO.io A) : bool :=
  match IO.outcome call with
  | Py.Ok _ => true
  | Py.Raise _ => false
  end.

End TaqSpec.

(** ** [itch_trade_sign_classification_test.py] *)

Module Itch.
Import Py.

(** One row of the day's file, in the columns the module reads: [Time] is
    [uint32], [Order] is [uint64], [T] is the message type, [Shares] is
    [uint16], [Price] is [float64]. *)
Record row : Type := Row {
  Time : Z;
  Order : Z;
  T : string;
  Shares : Z;
  Price : Qc;
}.

(** The arrays the matching loop writes: the two it changes in the limit
    orders, and the three it fills for the trades. *)
Record arrays : Type := Arrays {
  limit_data_order : list Z;
  limit_data_volume : list Z;
  trade_signs : list Z;
  trade_volumes : list Z;
  trade_price : list Qc;
}.

Definition is_type (t : string) (r : row) : bool := bool_decide (T r = t).

(** [np.where(a == x)[0][0]]: the first position holding [x]. *)
Definition where_first (a : list Z) (x : Z) : result nat :=
  match list_find (fun y => y = x) a with
  | Some (i, _) => Ok i
  | None => Raise IndexError
  end.

(** [try: body except IndexError: pass], the state being the arrays. *)
Definition except_IndexError_pass {S : Type} (body : result S) (s : S) : result S :=
  match body with
  | Raise IndexError => Ok s
  | r => r
  end.

(** Subtraction of two [uint16] scalars. *)
Definition uint16_sub (a b : Z) : Z := (a - b) mod 2 ^ 16.

Section matching.

Variables (trade_data_order trade_data_types trade_data_volume : list Z).
Variables (limit_data_types : list Z) (limit_data_price : list Qc).

(** The statements inside [try]. *)
Definition match_trade (st : arrays) (t_idx : Z) : result arrays :=
  order ← getitem trade_data_order t_idx;
  l_idx ← where_first (limit_data_order st) order;
  let l_idx := Z.of_nat l_idx in
  price ← getitem limit_data_price l_idx;
  trade_price ← setitem (trade_price st) t_idx price;
  trade ← getitem limit_data_types l_idx;
  trade_signs ← setitem (trade_signs st) t_idx
                  (if bool_decide (trade = 1) then 1 else -1);
  volume_type ← getitem trade_data_types t_idx;
  if bool_decide (volume_type = 4) then
    volume ← getitem (limit_data_volume st) l_idx;
    trade_volumes ← setitem (trade_volumes st) t_idx volume;
    limit_data_order ← setitem (limit_data_order st) l_idx 0;
    Ok (Arrays limit_data_order (limit_data_volume st)
               trade_signs trade_volumes trade_price)
  else
    volume ← getitem trade_data_volume t_idx;
    trade_volumes ← setitem (trade_volumes st) t_idx volume;
    limit_volume ← getitem (limit_data_volume st) l_idx;
    let diff_volumes := uint16_sub limit_volume volume in
    py_assert (bool_decide (diff_volumes > 0));;
    limit_data_volume ← setitem (limit_data_volume st) l_idx diff_volumes;
    Ok (Arrays (limit_data_order st) limit_data_volume
               trade_signs trade_volumes trade_price).

(** One turn of the loop over [t_idx]. *)
Definition match_step (st : arrays) (t_idx : Z) : result arrays :=
  except_IndexError_pass (match_trade st t_idx) st.

End matching.

(** [trade_times / 3600 / 1000 >= 9.666666] and [... < 15.833333] *)
Definition market_time (t : Z) : bool :=
  let h := (inject_Z t / inject_Z 3600 / inject_Z 1000)%Q in
  Qle_bool (9666666 # 1000000) h
  && negb (Qle_bool (15833333 # 1000000) h).

(** The columns of the trades, the limit orders kept, and the arrays before
    the loop. *)
Definition trade_rows (data : list row) : list row :=
  select (map (fun r => is_type "E" r || is_type "F" r || is_type "T" r) data)
         data.

Definition type_tags (trade_data : list row) : list Z :=
  map (fun r => 3 * Z.b2z (is_type "E" r) + 4 * Z.b2z (is_type "F" r)
                + 5 * Z.b2z (is_type "T" r)) trade_data.

Definition limit_rows (data trade_data : list row) : list row :=
  let limit_data :=
    select (map (fun r => is_type "B" r || is_type "S" r) data) data in
  select (map (fun r => bool_decide (Order r ∈ map Order trade_data)) limit_data)
         limit_data.

Definition side_tags (limit_data : list row) : list Z :=
  map (fun r => 1 * Z.b2z (is_type "S" r) - 1 * Z.b2z (is_type "B" r))
      limit_data.

Definition initial_arrays (trade_data limit_data : list row) : arrays :=
  let length_trades := length trade_data in
  Arrays (map Order limit_data) (map Shares limit_data)
         (replicate length_trades 0) (replicate length_trades 0)
         (replicate length_trades 0%Qc).

(** The state after the loop has run over the first [n] trades. *)
Definition matched_upto (data : list row) (n : Z) : result arrays :=
  let trade_data := trade_rows data in
  let limit_data := limit_rows data trade_data in
  for_each
    (match_step (map Order trade_data) (type_tags trade_data)
                (map Shares trade_data) (side_tags limit_data)
                (map Price limit_data))
    (range n) (initial_arrays trade_data limit_data).

(** The state after the whole loop and the [assert] that follows it. *)
Definition match_pass (data : list row) : result arrays :=
  let trade_data := trade_rows data in
  st ← matched_upto data (Z.of_nat (length trade_data));
  py_assert
    (bool_decide
       (length (map (fun s => negb (bool_decide (s = 0))) (trade_signs st))
        = length (map (fun t => negb (bool_decide (t = 5)))
                      (type_tags trade_data))));;
  Ok st.

(** The lengths the loop keeps: [m] limit orders, [n] trades. *)
Definition shaped (m n : nat) (st : arrays) : Prop :=
  length (limit_data_order st) = m ∧ length (limit_data_volume st) = m
  ∧ length (trade_signs st) = n ∧ length (trade_volumes st) = n
  ∧ length (trade_price st) = n.

(** The limit order the trade [t_idx] is matched to at its turn: the first
    position of its order number in [limit_data_order] as the trades before
    it left that array. *)
Definition matched_entry (data : list row) (t_idx : nat) : result nat :=
  st ← matched_upto data (Z.of_nat t_idx);
  order ← getitem (map Order (trade_rows data)) (Z.of_nat t_idx);
  where_first (limit_data_order st) order.

(** [data['Price'] = data['Price'] / 10000] *)
Definition scale_prices (data : list row) : list row :=
  map (fun r => Row (Time r) (Order r) (T r) (Shares r)
                    (Price r / Qc_of_Z 10000)%Qc) data.

(** [data] is the frame as read from the file, prices still scaled. *)
Definition itch_trade_classification_data (data : list row)
  : result (list Z * list Z * list Z * list Qc) :=
  let data := scale_prices data in
  let trade_data := trade_rows data in
  let trade_data_types := type_tags trade_data in
  let trade_times := map (fun t => 1 * t) (map Time trade_data) in
  st ← match_pass data;
  let hidden_pos := map (fun t => bool_decide (t = 5)) trade_data_types in
  let trade_volumes :=
    assign_where hidden_pos (map Shares trade_data) (trade_volumes st) in
  let trade_price :=
    assign_where hidden_pos (map Price trade_data) (trade_price st) in
  let market_time := map market_time trade_times in
  Ok (select market_time trade_times, select market_time (trade_signs st),
      select market_time trade_volumes, select market_time trade_price).

(** Where the trade [t_idx] lands in the returned arrays when its time is
    in the session: after the trades before it that are. *)
Definition session_index (trade_times : list Z) (t_idx : nat) : nat :=
  length (filter (fun t => market_time t = true) (take t_idx trade_times)).

(** [np.sign] of a price difference, and of a sum of signs. *)
Definition sign_Qc (q : Qc) : Z := Z.sgn (Qnum q).

(** The body of the loop of Eq. 1. *)
Definition tick_rule_step (price_signs : list Qc) (identified_trades : list Z)
    (t_idx : Z) : result (list Z) :=
  p ← getitem price_signs t_idx;
  p_prev ← getitem price_signs (t_idx - 1);
  let diff := (p - p_prev)%Qc in
  if negb (bool_decide (diff = 0%Qc)) then
    setitem identified_trades t_idx (sign_Qc diff)
  else
    previous ← getitem identified_trades (t_idx - 1);
    setitem identified_trades t_idx previous.

Definition nonzero (a : list Z) : list bool :=
  map (fun s => negb (bool_decide (s = 0))) a.

Definition itch_trade_classification_eq1_data (trade_signs : list Z)
    (price_signs : list Qc) : result (list Z) :=
  let identified_trades := replicate (length trade_signs) 0 in
  identified_trades ←
    for_each (tick_rule_step price_signs)
             (range (Z.of_nat (length trade_signs))) identified_trades;
  let trades_pos := nonzero trade_signs in
  Ok (select trades_pos identified_trades).

(** [np.array(range(34800, 57000))] *)
Definition full_time : list Z := range2 34800 57000.

(** [(times_signs / 1000 >= t_val) * (times_signs / 1000 < t_val + 1)] *)
Definition condition (times_signs : list Z) (t_val : Z) : list bool :=
  map (fun t =>
         let s := (inject_Z t / inject_Z 1000)%Q in
         Qle_bool (inject_Z t_val) s
         && negb (Qle_bool (inject_Z (t_val + 1)) s))
      times_signs.

(** [np.sum] of an integer-valued array. *)
Definition sumZ (a : list Z) : Z := foldr Z.add 0 a.

(** Eq. 2 and Eq. 3 fill [trades_emp_s] and [trades_exp_s] slot by slot
    along [full_time]; each slot depends on its second only. *)
Definition itch_trade_classification_eq2_data
    (times_signs trade_signs identified_trades : list Z)
  : result (list Z * list Z) :=
  let trade_signs_no_0 := nonzero trade_signs in
  let trade_signs := select trade_signs_no_0 trade_signs in
  times_signs ← mask_index trade_signs_no_0 times_signs;
  py_assert (bool_decide (length trade_signs = length identified_trades));;
  let trades_exp_s :=
    map (fun t_val =>
           Z.sgn (sumZ (select (condition times_signs t_val) identified_trades)))
        full_time in
  let trades_emp_s :=
    map (fun t_val =>
           Z.sgn (sumZ (select (condition times_signs t_val) trade_signs)))
        full_time in
  Ok (trades_emp_s, trades_exp_s).

Definition itch_trade_classification_eq3_data
    (times_signs trade_signs volume_signs identified_trades : list Z)
  : result (list Z * list Z) :=
  let trade_signs_no_0 := nonzero trade_signs in
  let trade_signs := select trade_signs_no_0 trade_signs in
  times_signs ← mask_index trade_signs_no_0 times_signs;
  volume_signs ← mask_index trade_signs_no_0 volume_signs;
  py_assert (bool_decide (length trade_signs = length identified_trades));;
  let trades_exp_s :=
    map (fun t_val =>
           let c := condition times_signs t_val in
           Z.sgn (sumZ (zip_with Z.mul (select c identified_trades)
                                       (select c volume_signs))))
        full_time in
  let trades_emp_s :=
    map (fun t_val =>
           Z.sgn (sumZ (select (condition times_signs t_val) trade_signs)))
        full_time in
  Ok (trades_emp_s, trades_exp_s).

(** [round(x, 4)]: to the nearest multiple of 10^-4, ties to even. *)
Definition round_half_even (q : Qc) : Z :=
  let f := Qfloor q in
  let r := (q - Qc_of_Z f)%Qc in
  let half := Q2Qc (1 # 2) in
  if bool_decide (r < half)%Qc then f
  else if bool_decide (half < r)%Qc then f + 1
  else if Z.even f then f else f + 1.

Definition round4 (q : Qc) : Qc :=
  (Qc_of_Z (round_half_even (q * Qc_of_Z 10000)) / Qc_of_Z 10000)%Qc.

(** [np.sum(a == b)] for arrays of one length. *)
Definition matches {A : Type} `{EqDecision A} (a b : list A) : Z :=
  sumZ (zip_with (fun x y => Z.b2z (bool_decide (x = y))) a b).

(** The numbers [main] writes for one day. *)
Record stats : Type := Stats {
  id_trades_trades_num : Z;
  trade_matches : Z;
  accuracy_trades : Qc;
  id_trades_physical_num : Z;
  physical_matches_eq2 : Z;
  accuracy_physical_eq2 : Qc;
  physical_matches_eq3 : Z;
  accuracy_physical_eq3 : Qc;
  zeros_eq2 : Z;
  zeros_eq3 : Z;
}.

(** The loop of [main] that overwrites with [nan] the seconds where the
    three series are zero: [None] is [nan]. *)
Fixpoint mark_nan (emp_eq2_s exp_eq2_s exp_eq3_s : list Z)
  : list (option Z) * list (option Z) * list (option Z) * Z :=
  match emp_eq2_s, exp_eq2_s, exp_eq3_s with
  | a :: emp, b :: exp2, c :: exp3 =>
      let '(emp', exp2', exp3', count) := mark_nan emp exp2 exp3 in
      if bool_decide (a = 0) && bool_decide (b = 0) && bool_decide (c = 0)
      then (None :: emp', None :: exp2', None :: exp3', count + 1)
      else (Some a :: emp', Some b :: exp2', Some c :: exp3', count)
  | _, _, _ => ([], [], [], 0)
  end.

(** [a[~np.isnan(a)]] *)
Definition drop_nan (a : list (option Z)) : list Z := omap id a.

(** The numbers of one day, from the signs of the trades, the signs
    Eq. 1 inferred, and the three per-second series: [main] from the loop
    that sets the [nan]s to the line it writes. *)
Definition main_scores (trade_signs identified_trades : list Z)
    (emp_eq2_s exp_eq2_s exp_eq3_s : list Z) : result stats :=
  let '(emp_eq2_s, exp_eq2_s, exp_eq3_s, count) :=
    mark_nan emp_eq2_s exp_eq2_s exp_eq3_s in
  let emp_eq2_s := drop_nan emp_eq2_s in
  let exp_eq2_s := drop_nan exp_eq2_s in
  let exp_eq3_s := drop_nan exp_eq3_s in
  py_assert (bool_decide (length emp_eq2_s = length exp_eq2_s));;
  py_assert (bool_decide (length emp_eq2_s = length exp_eq3_s));;
  let id_trades_trades_num :=
    Z.of_nat (length (select (nonzero trade_signs) trade_signs)) in
  let trade_matches :=
    matches (select (nonzero trade_signs) trade_signs) identified_trades in
  let accuracy_trades :=
    round4 (Qc_of_Z trade_matches / Qc_of_Z id_trades_trades_num)%Qc in
  let id_trades_physical_num := Z.of_nat (length emp_eq2_s) in
  let physical_matches_eq2 := matches emp_eq2_s exp_eq2_s in
  let accuracy_physical_eq2 :=
    round4 (Qc_of_Z physical_matches_eq2 / Qc_of_Z id_trades_physical_num)%Qc in
  let physical_matches_eq3 := matches emp_eq2_s exp_eq3_s in
  let accuracy_physical_eq3 :=
    round4 (Qc_of_Z physical_matches_eq3 / Qc_of_Z id_trades_physical_num)%Qc in
  let zeros_eq2 := matches exp_eq2_s (replicate (length exp_eq2_s) 0) + count in
  let zeros_eq3 := matches exp_eq3_s (replicate (length exp_eq3_s) 0) + count in
  Ok (Stats id_trades_trades_num trade_matches accuracy_trades
            id_trades_physical_num physical_matches_eq2 accuracy_physical_eq2
            physical_matches_eq3 accuracy_physical_eq3 zeros_eq2 zeros_eq3).

(** The body of the loop of [main] over the days, from the arrays
    [itch_trade_classification_data] returned to the numbers written. *)
Definition main_day (times_signs trade_signs volume_signs : list Z)
    (price_signs : list Qc) : result stats :=
  identified_trades ←
    itch_trade_classification_eq1_data trade_signs price_signs;
  '(emp_eq2_s, exp_eq2_s) ←
    itch_trade_classification_eq2_data times_signs trade_signs
                                       identified_trades;
  '(emp_eq3_s, exp_eq3_s) ←
    itch_trade_classification_eq3_data times_signs trade_signs volume_signs
                                       identified_trades;
  main_scores trade_signs identified_trades emp_eq2_s exp_eq2_s exp_eq3_s.

End Itch.

(** ** Sample days *)

Module Sample.
Import Itch.

(** Two resting orders; a visible trade against the first, a trade that
    takes the whole of the second, a hidden trade and a visible trade whose
    order numbers are in no limit order. *)
Definition day : list row :=
  [ Row 36000000 7 "S" 100 (Qc_of_Z 1000000);
    Row 36000000 8 "B" 200 (Qc_of_Z 999900);
    Row 36000001 7 "E" 40 0%Qc;
    Row 36000002 8 "F" 0 0%Qc;
    Row 36000003 5 "T" 50 (Qc_of_Z 1001000);
    Row 36000004 9 "E" 10 0%Qc ].

(** One visible trade against no limit order, at 10:00 and at midnight. *)
Definition lone_visible : list row := [Row 36000000 7 "E" 100 (Qc_of_Z 1000000)].
Definition lone_visible_midnight : list row :=
  [Row 0 7 "E" 100 (Qc_of_Z 1000000)].

(** One hidden trade, alone and after a sell order with its order number. *)
Definition hidden_trade : row := Row 36000000 7 "T" 50 (Qc_of_Z 1000000).
Definition lone_hidden : list row := [hidden_trade].
Definition hidden_after_sell : list row :=
  [Row 36000000 7 "S" 100 (Qc_of_Z 1000000); hidden_trade].

(** A sell order of 100 shares and a visible trade of 150 against it. *)
Definition oversold : list row :=
  [ Row 36000000 7 "S" 100 (Qc_of_Z 1000000);
    Row 36000001 7 "E" 150 (Qc_of_Z 1000000) ].

(** A sell order of 100 shares and a visible trade that takes the 100. *)
Definition exact_fill : list row :=
  [ Row 36000000 7 "S" 100 (Qc_of_Z 1000000);
    Row 36000001 7 "E" 100 (Qc_of_Z 1000000) ].

(** The pickles of two tickers for 2 January 2008, none for 3 January,
    and a year of these two days. *)
Definition midpoint_file (path : string) : option (list Qc) :=
  if decide (path = Taq.midpoint_path "AAPL" "2008" "01" "02")
  then Some (map Qc_of_Z [1; 2; 4; 5]) else None.

Definition trade_signs_file (path : string) : option (list Qc) :=
  if decide (path = Taq.trade_signs_path "2008" "AAPL" "2008" "01" "02")
  then Some (map Qc_of_Z [1; 0; 1; 0])
  else if decide (path = Taq.trade_signs_path "2008" "MSFT" "2008" "01" "02")
  then Some (map Qc_of_Z [0; -1; 1; 1]) else None.

Definition bussiness_days (year : string) : list string :=
  ["2008-01-02"; "2008-01-03"].

(** Files in which the sign series of 3 January is shorter than its
    midpoint series. *)
Definition ragged_midpoint_file (path : string) : option (list Qc) :=
  if decide (path = Taq.midpoint_path "AAPL" "2008" "01" "02")
  then Some (map Qc_of_Z [1; 2; 4; 5])
  else if decide (path = Taq.midpoint_path "AAPL" "2008" "01" "03")
  then Some (map Qc_of_Z [1; 2; 4; 5]) else None.

Definition ragged_trade_signs_file (path : string) : option (list Qc) :=
  if decide (path = Taq.trade_signs_path "2008" "AAPL" "2008" "01" "02")
  then Some (map Qc_of_Z [1; 0; 1; 0])
  else if decide (path = Taq.trade_signs_path "2008" "AAPL" "2008" "01" "03")
  then Some (map Qc_of_Z [1; 0; 1])
  else if decide (path = Taq.trade_signs_path "2008" "MSFT" "2008" "01" "02")
  then Some (map Qc_of_Z [0; -1; 1; 1])
  else if decide (path = Taq.trade_signs_path "2008" "MSFT" "2008" "01" "03")
  then Some (map Qc_of_Z [0; -1; 1]) else None.

(** Three trades in the first second of the session. *)
Definition times_signs : list Z := [34800000; 34800001; 34800002].
Definition trade_signs : list Z := [1; -1; -1].
Definition volume_signs : list Z := [100; 10; 10].
Definition price_signs : list Qc := map Qc_of_Z [10; 9; 9].

End Sample.

(** ** The tick rule and the accuracy in the words of the specification *)

Module ItchSpec.

(** §4.2: Δ = price[i] − price[i−1]; the sign of Δ when Δ ≠ 0, the sign
    inferred for i−1 when Δ = 0. *)
Definition tick (previous_price : Qc) (previous_sign : Z) (p : Qc) : Z :=
  let delta := (p - previous_price)%Qc in
  if decide (delta = 0%Qc) then previous_sign else Itch.sign_Qc delta.

Fixpoint tick_rule_from (previous_price : Qc) (previous_sign : Z)
    (prices : list Qc) : list Z :=
  match prices with
  | [] => []
  | p :: rest =>
      let s := tick previous_price previous_sign p in
      s :: tick_rule_from p s rest
  end.

(** For i = 0 the previous price is the last element of the sequence, and
    the previous sign is the initial 0 of the result array. *)
Definition tick_rule (prices : list Qc) : list Z :=
  tick_rule_from (List.last prices 0%Qc) 0 prices.

(** §4.3: (# positions where empirical = inferred) / (# scored positions),
    as written to four decimals. *)
Definition accuracy (empirical inferred : list Z) : Qc :=
  Itch.round4
    (Qc_of_Z (Z.of_nat (length (filter (fun p => p.1 = p.2)
                                       (zip empirical inferred))))
     / Qc_of_Z (Z.of_nat (length empirical)))%Qc.

End ItchSpec.

(** * Properties *)

Module PyFacts.
Import Py.

Lemma clip_nat (n i : nat) : clip n (Z.of_nat i) = (i `min` n)%nat.
Proof. unfold clip. case_bool_decide; lia. Qed.

Lemma clip_neg (n i : nat) : (0 < i)%nat -> clip n (- Z.of_nat i) = (n - i)%nat.
Proof. intros Hi. unfold clip. case_bool_decide; lia. Qed.

Lemma clip_le (n : nat) (i : Z) : (clip n i <= n)%nat.
Proof. unfold clip. case_bool_decide; lia. Qed.

(** [l[:-i]], [l[i:]] and [l[i:-j]] for non-negative [i] and positive [j]. *)
Lemma slice_until_neg {A} (l : list A) (i : nat) :
  (0 < i)%nat -> slice None (Some (- Z.of_nat i)) l = take (length l - i) l.
Proof.
  intros Hi. unfold slice. simpl. rewrite clip_neg by done.
  by rewrite Nat.sub_0_r.
Qed.

Lemma slice_from {A} (l : list A) (i : nat) :
  slice (Some (Z.of_nat i)) None l = drop i l.
Proof.
  unfold slice. simpl. rewrite clip_nat.
  destruct (decide (i <= length l)%nat).
  - rewrite Nat.min_l by done. apply take_ge. rewrite length_drop. lia.
  - rewrite Nat.min_r by lia. rewrite !drop_ge by lia. by rewrite take_nil.
Qed.

Lemma slice_between {A} (l : list A) (i j : nat) :
  (0 < j)%nat ->
  slice (Some (Z.of_nat i)) (Some (- Z.of_nat j)) l
  = take (length l - j - i) (drop i l).
Proof.
  intros Hj. unfold slice. simpl. rewrite clip_nat, clip_neg by done.
  destruct (decide (i <= length l)%nat).
  - rewrite Nat.min_l by done. done.
  - rewrite Nat.min_r by lia. rewrite !drop_ge by lia. by rewrite !take_nil.
Qed.

Lemma select_filter {A} (P : A -> Prop) `{!forall x, Decision (P x)} (l : list A) :
  select (map (fun x => bool_decide (P x)) l) l = filter P l.
Proof.
  induction l as [|x l IH]; [done|]. simpl. rewrite IH.
  rewrite filter_cons. by destruct (decide (P x)); [rewrite bool_decide_true|rewrite bool_decide_false].
Qed.

Lemma count_from_seq (start : Z) (n : nat) :
  count_from start n = map (fun i => start + Z.of_nat i) (seq 0 n).
Proof.
  revert start. induction n as [|n IH]; intros start; [done|].
  simpl. f_equal; [lia|]. rewrite IH, <- seq_shift, map_map.
  apply map_ext. intros; lia.
Qed.

Lemma range_nat (n : nat) : range (Z.of_nat n) = map Z.of_nat (seq 0 n).
Proof.
  unfold range, range2. rewrite count_from_seq.
  rewrite Z.sub_0_r, Nat2Z.id. done.
Qed.

Lemma getitem_nat {A} (l : list A) (i : nat) x :
  l !! i = Some x -> getitem l (Z.of_nat i) = Ok x.
Proof.
  intros H. unfold getitem.
  rewrite (bool_decide_false (Z.of_nat i < 0)) by lia.
  rewrite bool_decide_true by lia. by rewrite Nat2Z.id, H.
Qed.

Lemma setitem_nat {A} (l : list A) (i : nat) v :
  (i < length l)%nat -> setitem l (Z.of_nat i) v = Ok (<[i := v]> l).
Proof.
  intros H. unfold setitem.
  rewrite (bool_decide_false (Z.of_nat i < 0)) by lia.
  rewrite bool_decide_true by lia. by rewrite Nat2Z.id.
Qed.

Lemma bind_Ok {A B} (m : result A) (f : A -> result B) b :
  m ≫= f = Ok b -> exists a, m = Ok a ∧ f a = Ok b.
Proof. destruct m as [a|e]; [|done]. intros H. by exists a. Qed.

End PyFacts.

Module NpFacts.
Import Py PyFacts.
Local Open Scope Qc_scope.

Lemma broadcast2_same f (a b : list Qc) :
  length a = length b -> Np.broadcast2 f a b = Ok (zip_with f a b).
Proof. intros H. unfold Np.broadcast2. by rewrite bool_decide_true. Qed.

Lemma assign_prefix_fits (k : nat) (v a : list Qc) :
  length v = k -> (k <= length a)%nat ->
  Np.assign_prefix (Z.of_nat k) v a = Ok (v ++ drop k a).
Proof.
  intros Hv Hk. unfold Np.assign_prefix. rewrite clip_nat.
  rewrite Nat.min_l by done. by rewrite bool_decide_true.
Qed.

Lemma zeros_nat (n : nat) : Np.zeros (Z.of_nat n) = Ok (replicate n 0).
Proof. unfold Np.zeros. rewrite bool_decide_false by lia. by rewrite Nat2Z.id. Qed.

Lemma ones_nat (n : nat) : Np.ones (Z.of_nat n) = Ok (replicate n 1).
Proof. unfold Np.ones. rewrite bool_decide_false by lia. by rewrite Nat2Z.id. Qed.

Lemma scale_replicate c n x : Np.scale c (replicate n x) = replicate n (c * x).
Proof. unfold Np.scale. induction n; simpl; congruence. Qed.

Lemma select_ne0 (a : list Qc) :
  select (Np.ne0 a) a = filter (fun x => x ≠ 0) a.
Proof.
  induction a as [|x a IH]; [done|]. simpl. rewrite IH, filter_cons.
  destruct (decide (x ≠ 0)) as [H|H].
  - by rewrite bool_decide_false.
  - rewrite bool_decide_true; [done|]. by destruct (decide (x = 0)).
Qed.

Lemma count_nonzero_filter (a : list Qc) :
  Np.count_nonzero a = Z.of_nat (length (filter (fun x => x ≠ 0) a)).
Proof. unfold Np.count_nonzero. by rewrite select_ne0. Qed.

Lemma count_nonzero_0 (a : list Qc) :
  Np.count_nonzero a = 0%Z <-> Forall (fun x => x = 0) a.
Proof.
  rewrite count_nonzero_filter. split.
  - intros H. assert (Hn : filter (fun x => x ≠ 0) a = []).
    { apply length_zero_iff_nil. lia. }
    apply Forall_forall. intros x Hx.
    destruct (decide (x = 0)) as [|Hne]; [done|].
    assert (x ∈ filter (fun x => x ≠ 0) a) as Hin by (apply list_elem_of_filter; done).
    rewrite Hn in Hin. by apply elem_of_nil in Hin.
  - intros H. induction H as [|x l Hx Hl IH]; [done|].
    rewrite filter_cons. destruct (decide (x ≠ 0)); [done|]. done.
Qed.

Lemma sum_app a b : Np.sum (a ++ b) = Np.sum a + Np.sum b.
Proof.
  unfold Np.sum. induction a as [|x a IH]; simpl.
  - by rewrite Qcplus_0_l.
  - rewrite IH. by rewrite Qcplus_assoc.
Qed.

(** Terms that vanish can be left out of a sum. *)
Lemma sum_filter {A} (f : A -> Qc) (Q : A -> Prop) `{!forall x, Decision (Q x)}
    (l : list A) :
  (forall x, ¬ Q x -> f x = 0) ->
  Np.sum (map f l) = Np.sum (map f (filter Q l)).
Proof.
  intros Hf. induction l as [|x l IH]; [done|].
  rewrite filter_cons. destruct (decide (Q x)) as [|Hn]; simpl; rewrite IH; [done|].
  rewrite (Hf x Hn). apply Qcplus_0_l.
Qed.

End NpFacts.

Module TaqFacts.
Import Py PyFacts NpFacts Taq TaqSpec.
Local Open Scope Qc_scope.

(** A window of a series, read position by position. *)
Lemma window_at (a : list Qc) (k d n : nat) :
  (n ≠ 0 -> k + d + n <= length a)%nat ->
  take n (drop (k + d) a) = map (fun t => at_ a (t + d)) (seq k n).
Proof.
  intros H. apply list_eq. intros i.
  rewrite list_lookup_fmap.
  destruct (decide (i < n)%nat) as [Hi|Hi].
  - rewrite lookup_take_lt, lookup_drop by done.
    rewrite lookup_seq_lt by done. simpl. unfold at_.
    destruct (lookup_lt_is_Some_2 a (k + d + i)) as [x Hx]; [lia|].
    replace (k + i + d)%nat with (k + d + i)%nat by lia.
    by rewrite Hx.
  - rewrite lookup_take_ge by lia. by rewrite lookup_seq_ge by lia.
Qed.

Lemma window_at_0 (a : list Qc) (k n : nat) :
  (n ≠ 0 -> k + n <= length a)%nat ->
  take n (drop k a) = map (at_ a) (seq k n).
Proof.
  intros H. rewrite <- (Nat.add_0_r k) at 1. rewrite window_at by lia.
  apply map_ext. intros t. by rewrite Nat.add_0_r.
Qed.

Lemma zip_with_map {A} (f : Qc -> Qc -> Qc) (g h : A -> Qc) (l : list A) :
  zip_with f (map g l) (map h l) = map (fun x => f (g x) (h x)) l.
Proof. induction l; simpl; congruence. Qed.

Lemma filter_map_length {A B} (Q : B -> Prop) `{!forall x, Decision (Q x)}
    (f : A -> B) (l : list A) :
  length (filter Q (map f l)) = length (filter (fun x => Q (f x)) l).
Proof.
  induction l as [|x l IH]; [done|]. simpl. rewrite !filter_cons.
  destruct (decide (Q (f x))); simpl; congruence.
Qed.

Section day.

Variables (P S : list Qc) (tau tau_p : nat).
Hypothesis Hlen : length P = length S.
Hypothesis Htau_p : (0 < tau_p)%nat.

Lemma short_sign_slice :
  slice None (Some (- Z.of_nat tau_p)%Z) S = map (at_ S) (seq 0 (length S - tau_p)).
Proof.
  rewrite slice_until_neg by lia. rewrite <- (window_at_0 S 0) by lia. done.
Qed.

Lemma short_count_code :
  Np.count_nonzero (slice None (Some (- Z.of_nat tau_p)%Z) S) = short_count S tau_p.
Proof.
  rewrite short_sign_slice, count_nonzero_filter, filter_map_length. done.
Qed.

Lemma short_return_code :
  (d ← Np.sub (slice (Some (Z.of_nat tau_p)) None P)
              (slice None (Some (- Z.of_nat tau_p)%Z) P);
   Np.div d (slice None (Some (- Z.of_nat tau_p)%Z) P))
  = Ok (map (fun t => (at_ P (t + tau_p) - at_ P t) / at_ P t)
            (seq 0 (length S - tau_p))).
Proof.
  rewrite slice_from, slice_until_neg by lia. rewrite <- Hlen.
  assert (drop tau_p P
          = map (fun t => at_ P (t + tau_p)) (seq 0 (length P - tau_p))) as ->.
  { rewrite <- (window_at P 0 tau_p) by lia. simpl.
    symmetry. apply take_ge. rewrite length_drop. lia. }
  assert (take (length P - tau_p) P
          = map (at_ P) (seq 0 (length P - tau_p))) as ->.
  { by rewrite <- (window_at_0 P 0) by lia. }
  unfold Np.sub. rewrite broadcast2_same by (by rewrite !length_map).
  simpl. unfold Np.div. rewrite broadcast2_same
    by (by rewrite length_zip_with, !length_map, Nat.min_id).
  by rewrite !zip_with_map.
Qed.

Lemma short_products_code :
  Np.mul (map (fun t => (at_ P (t + tau_p) - at_ P t) / at_ P t)
              (seq 0 (length S - tau_p)))
         (slice None (Some (- Z.of_nat tau_p)%Z) S)
  = Ok (short_products P S tau_p).
Proof.
  rewrite short_sign_slice. unfold Np.mul.
  rewrite broadcast2_same by (by rewrite !length_map).
  by rewrite zip_with_map.
Qed.

Lemma short_product_sum :
  Np.sum (short_products P S tau_p) = short_product P S tau_p.
Proof.
  unfold short_products, short_product, short_window.
  apply (sum_filter _ (fun t => at_ S t ≠ 0)).
  intros t Ht. destruct (decide (at_ S t = 0)) as [->|]; [|done].
  apply Qcmult_0_r.
Qed.

Lemma long_sign_slice (t : nat) :
  slice (Some (Z.of_nat tau_p)) (Some (- Z.of_nat t - 1)%Z) S
  = map (at_ S) (long_slice S tau_p t).
Proof.
  replace (- Z.of_nat t - 1)%Z with (- Z.of_nat (t + 1)%nat)%Z by lia.
  rewrite slice_between by lia. unfold long_slice.
  replace (length S - (t + 1) - tau_p)%nat with (length S - t - 1 - tau_p)%nat by lia.
  apply window_at_0. lia.
Qed.

Lemma long_count_code (t : nat) :
  Np.count_nonzero (slice (Some (Z.of_nat tau_p)) (Some (- Z.of_nat t - 1)%Z) S)
  = long_count S tau_p t.
Proof.
  rewrite long_sign_slice, count_nonzero_filter, filter_map_length. done.
Qed.

Lemma long_return_code (t : nat) :
  (tau_p < t)%nat ->
  (d ← Np.sub (slice (Some (Z.of_nat t + 1)%Z) (Some (- Z.of_nat tau_p)%Z) P)
              (slice (Some (Z.of_nat tau_p)) (Some (- Z.of_nat t - 1)%Z) P);
   Np.div d (slice (Some (Z.of_nat tau_p)) (Some (- Z.of_nat t - 1)%Z) P))
  = Ok (map (fun i => (at_ P (i + (t + 1 - tau_p)) - at_ P i) / at_ P i)
            (long_slice S tau_p t)).
Proof.
  intros Ht.
  replace (- Z.of_nat t - 1)%Z with (- Z.of_nat (t + 1)%nat)%Z by lia.
  replace (Z.of_nat t + 1)%Z with (Z.of_nat (t + 1)%nat) by lia.
  rewrite !slice_between by lia. unfold long_slice. rewrite <- Hlen.
  set (n := (length P - t - 1 - tau_p)%nat).
  replace (length P - tau_p - (t + 1))%nat with n by lia.
  replace (length P - (t + 1) - tau_p)%nat with n by lia.
  replace (t + 1)%nat with (tau_p + (t + 1 - tau_p))%nat at 1 by lia.
  rewrite window_at by lia. rewrite window_at_0 by lia.
  unfold Np.sub. rewrite broadcast2_same by (by rewrite !length_map).
  simpl. unfold Np.div. rewrite broadcast2_same
    by (by rewrite length_zip_with, !length_map, Nat.min_id).
  by rewrite !zip_with_map.
Qed.

Lemma long_products_code (t : nat) :
  Np.mul (map (fun i => (at_ P (i + (t + 1 - tau_p)) - at_ P i) / at_ P i)
              (long_slice S tau_p t))
         (slice (Some (Z.of_nat tau_p)) (Some (- Z.of_nat t - 1)%Z) S)
  = Ok (long_products P S tau_p t).
Proof.
  rewrite long_sign_slice. unfold Np.mul.
  rewrite broadcast2_same by (by rewrite !length_map).
  by rewrite zip_with_map.
Qed.

(** A non-zero sign in the long slice is a non-zero sign of the short
    window, so [product_short] is bound wherever the loop reads it. *)
Lemma long_count_short_count (t : nat) :
  (tau_p < t)%nat -> long_count S tau_p t ≠ 0%Z -> short_count S tau_p ≠ 0%Z.
Proof.
  unfold long_count, short_count, short_window, long_slice. intros Ht Hl Hs.
  apply Hl. clear Hl.
  assert (filter (fun t => at_ S t ≠ 0)
                 (seq tau_p (length S - t - 1 - tau_p)) = []) as ->; [|done].
  assert (Hnil : filter (fun t => at_ S t ≠ 0) (seq 0 (length S - tau_p)) = [])
    by (apply length_zero_iff_nil; lia).
  apply elem_of_nil_inv.
  intros i Hi. apply list_elem_of_filter in Hi as [Hnz Hi].
  apply elem_of_seq in Hi.
  assert (i ∈ filter (fun t => at_ S t ≠ 0) (seq 0 (length S - tau_p))) as Hin.
  { apply list_elem_of_filter. split; [done|]. apply elem_of_seq. lia. }
  rewrite Hnil in Hin. by apply elem_of_nil in Hin.
Qed.

Lemma long_response_code (ps : option (list Qc)) (R N : list Qc) (t : nat) :
  (short_count S tau_p ≠ 0%Z -> ps = Some (short_products P S tau_p)) ->
  (t < length R)%nat -> (t < length N)%nat ->
  long_response P S (Z.of_nat tau_p) (short_count S tau_p) ps (R, N) (Z.of_nat t)
  = Ok (long_update P S tau_p (R, N) t).
Proof.
  intros Hps HR HN. unfold long_response, long_update.
  destruct (decide (t <= tau_p)%nat) as [Hle|Hgt].
  { by rewrite bool_decide_true by lia. }
  rewrite bool_decide_false by lia.
  rewrite long_count_code, setitem_nat by done. simpl.
  pose proof (long_return_code t ltac:(lia)) as Hret. simpl in Hret.
  destruct (Np.sub _ _) as [d|e]; simpl in Hret |- *; [|done].
  rewrite Hret. simpl.
  destruct (decide (long_count S tau_p t = 0%Z)) as [H0|Hn0].
  { by rewrite bool_decide_false by (intros ?; done). }
  rewrite bool_decide_true by done.
  rewrite long_products_code. simpl.
  rewrite Hps by (apply (long_count_short_count t); [lia|done]). simpl.
  rewrite setitem_nat by done. done.
Qed.

Lemma long_update_length st t :
  length (long_update P S tau_p st t).1 = length st.1
  ∧ length (long_update P S tau_p st t).2 = length st.2.
Proof.
  unfold long_update. destruct (decide _); [done|]. simpl.
  destruct (decide _); by rewrite ?length_insert.
Qed.

Lemma long_update_other st t i :
  i ≠ t ->
  (long_update P S tau_p st t).1 !! i = st.1 !! i
  ∧ (long_update P S tau_p st t).2 !! i = st.2 !! i.
Proof.
  intros Hi. unfold long_update. destruct (decide _); [done|]. simpl.
  destruct (decide _); by rewrite ?list_lookup_insert_ne.
Qed.

Lemma loop_code ps (l : list nat) (st : list Qc * list Qc) :
  (short_count S tau_p ≠ 0%Z -> ps = Some (short_products P S tau_p)) ->
  Forall (fun t => t < length st.1 ∧ t < length st.2)%nat l ->
  for_each (long_response P S (Z.of_nat tau_p) (short_count S tau_p) ps)
           (map Z.of_nat l) st
  = Ok (foldl (long_update P S tau_p) st l).
Proof.
  intros Hps. revert st. induction l as [|t l IH]; intros [R N] Hl; [done|].
  apply Forall_cons in Hl as [[HR HN] Hl]. simpl in HR, HN.
  cbn [for_each List.map]. rewrite long_response_code by done.
  unfold mbind, result_bind. apply IH. destruct (long_update_length (R, N) t) as [-> ->]. done.
Qed.

Lemma loop_length (l : list nat) st :
  length (foldl (long_update P S tau_p) st l).1 = length st.1
  ∧ length (foldl (long_update P S tau_p) st l).2 = length st.2.
Proof.
  revert st. induction l as [|t l IH]; intros st; [done|]. simpl.
  destruct (IH (long_update P S tau_p st t)) as [-> ->].
  apply long_update_length.
Qed.

Lemma loop_other (l : list nat) st i :
  i ∉ l ->
  (foldl (long_update P S tau_p) st l).1 !! i = st.1 !! i
  ∧ (foldl (long_update P S tau_p) st l).2 !! i = st.2 !! i.
Proof.
  revert st. induction l as [|t l IH]; intros st Hi; [done|]. simpl.
  apply not_elem_of_cons in Hi as [Hne Hi].
  destruct (IH (long_update P S tau_p st t) Hi) as [-> ->].
  by apply long_update_other.
Qed.

Hypothesis Htau : (tau_p < tau)%nat.

Lemma day_code :
  day_time_short_long_tau P S (Z.of_nat tau) (Z.of_nat tau_p)
  = Ok (foldl (long_update P S tau_p) (short_fill P S tau tau_p) (seq 0 tau)).
Proof.
  unfold day_time_short_long_tau. cbv zeta.
  rewrite (bool_decide_true (length P = length S)) by done.
  cbn [py_assert mbind result_bind].
  rewrite zeros_nat. cbn [mbind result_bind].
  replace (Z.of_nat tau_p + 1)%Z with (Z.of_nat (tau_p + 1)%nat) by lia.
  rewrite ones_nat. cbn [mbind result_bind].
  rewrite short_count_code, scale_replicate, Qcmult_1_r.
  rewrite assign_prefix_fits
    by (rewrite length_replicate; first [done | lia]).
  cbn [mbind result_bind]. rewrite drop_replicate.
  pose proof short_return_code as Hret. cbn [mbind result_bind] in Hret.
  destruct (Np.sub _ _) as [d|e]; cbn [mbind result_bind] in Hret |- *; [|done].
  rewrite Hret. clear Hret d.
  cbn [mbind result_bind]. rewrite range_nat.
  destruct (decide (short_count S tau_p = 0%Z)) as [H0|Hn0].
  - rewrite bool_decide_false by (intros ?; done).
    cbn [mbind result_bind].
    rewrite loop_code.
    + unfold short_fill. by rewrite decide_True by done.
    + done.
    + apply Forall_forall. intros t Ht%elem_of_seq. simpl.
      rewrite length_app, !length_replicate. lia.
  - rewrite bool_decide_true by done.
    rewrite short_products_code. cbn [mbind result_bind].
    rewrite scale_replicate, Qcmult_1_r.
    rewrite assign_prefix_fits
      by (rewrite length_replicate; first [done | lia]).
    cbn [mbind result_bind].
    rewrite drop_replicate. rewrite loop_code.
    + unfold short_fill. by rewrite decide_False by done.
    + done.
    + apply Forall_forall. intros t Ht%elem_of_seq. simpl.
      rewrite !length_app, !length_replicate. lia.
Qed.

End day.
End TaqFacts.

Module TaqDay.
Import Py PyFacts NpFacts Taq TaqSpec TaqFacts.
Local Open Scope Qc_scope.

Lemma short_fill_length (P S : list Qc) (tau tau_p : nat) :
  (tau_p < tau)%nat ->
  length (short_fill P S tau tau_p).1 = tau
  ∧ length (short_fill P S tau tau_p).2 = tau.
Proof.
  intros H. unfold short_fill. simpl. destruct (decide _);
    rewrite ?length_app, !length_replicate; lia.
Qed.

Lemma short_fill_tail (P S : list Qc) (tau tau_p t : nat) :
  (tau_p < t < tau)%nat -> (short_fill P S tau tau_p).1 !! t = Some 0.
Proof.
  intros H. unfold short_fill. simpl. destruct (decide _).
  - apply lookup_replicate_2. lia.
  - rewrite lookup_app_r by (rewrite length_replicate; lia).
    apply lookup_replicate_2. rewrite length_replicate. lia.
Qed.

(** C1, as amended: at a long lag the slot of R holds the long sum plus the
    short product when the long slice has a non-zero sign and keeps its
    initial 0 when it has none; the slot of N holds the two counts. *)
Theorem long_lag_response (P S : list Qc) (tau tau_p t : nat) :
  length P = length S -> (0 < tau_p < tau)%nat -> (tau_p < t < tau)%nat ->
  exists R N,
    day_time_short_long_tau P S (Z.of_nat tau) (Z.of_nat tau_p) = Ok (R, N)
    ∧ R !! t = Some (if decide (long_count S tau_p t = 0%Z) then 0
                     else long_sum P S tau_p t + short_product P S tau_p)
    ∧ N !! t = Some (Qc_of_Z (long_count S tau_p t + short_count S tau_p)).
Proof.
  intros Hlen [Hp Hpt] [Ht Htt].
  rewrite (day_code P S tau tau_p Hlen Hp Hpt).
  set (out := foldl _ _ _). exists out.1, out.2. split; [by destruct out|].
  subst out.
  assert (seq 0 tau = seq 0 t ++ t :: seq (t + 1) (tau - t - 1)) as ->.
  { replace tau with (t + (1 + (tau - t - 1)))%nat at 1 by lia.
    rewrite !seq_app. simpl. do 3 f_equal; lia. }
  rewrite !foldl_app. cbn [foldl].
  set (st := foldl _ _ (seq 0 t)).
  destruct (loop_other P S tau_p (seq (t + 1) (tau - t - 1))
              (long_update P S tau_p st t) t) as [-> ->].
  { intros Hin%elem_of_seq. lia. }
  assert (length st.1 = tau ∧ length st.2 = tau) as [H1 H2].
  { subst st. destruct (loop_length P S tau_p (seq 0 t) (short_fill P S tau tau_p))
      as [-> ->]. by apply short_fill_length. }
  unfold long_update. rewrite decide_False by lia. simpl.
  split; [|apply list_lookup_insert_eq; lia].
  destruct (decide (long_count S tau_p t = 0%Z)).
  - subst st.
    destruct (loop_other P S tau_p (seq 0 t) (short_fill P S tau tau_p) t) as [-> _].
    { intros Hin%elem_of_seq. lia. }
    apply short_fill_tail. lia.
  - rewrite short_product_sum. apply list_lookup_insert_eq. lia.
Qed.

Lemma long_lag_response_witness :
  exists R N,
    day_time_short_long_tau (map Qc_of_Z [1; 2; 3; 4; 5]%Z)
                            (map Qc_of_Z [1; 1; 0; 0; 0]%Z) 3 1 = Ok (R, N)
    ∧ R !! 2%nat = Some (if decide (long_count (map Qc_of_Z [1; 1; 0; 0; 0]%Z) 1 2 = 0%Z) then 0
                     else long_sum (map Qc_of_Z [1; 2; 3; 4; 5]%Z) (map Qc_of_Z [1; 1; 0; 0; 0]%Z) 1 2
                          + short_product (map Qc_of_Z [1; 2; 3; 4; 5]%Z) (map Qc_of_Z [1; 1; 0; 0; 0]%Z) 1)
    ∧ N !! 2%nat = Some (Qc_of_Z (long_count (map Qc_of_Z [1; 1; 0; 0; 0]%Z) 1 2
                              + short_count (map Qc_of_Z [1; 1; 0; 0; 0]%Z) 1)).
Proof.
  apply (long_lag_response (map Qc_of_Z [1; 2; 3; 4; 5]%Z)
                           (map Qc_of_Z [1; 1; 0; 0; 0]%Z) 3 1 2).
  - reflexivity.
  - simpl. lia.
  - simpl. lia.
Defined.

(** C1 as stated fails where the long slice holds only zero signs. *)
Lemma long_lag_response_counterexample :
  let P := map Qc_of_Z [1; 2; 3; 4; 5]%Z in
  let S := map Qc_of_Z [1; 0; 0; 0; 0]%Z in
  length P = length S ∧ (0 < 1 < 3)%nat ∧ (1 < 2 < 3)%nat
  ∧ ¬ exists R N,
        day_time_short_long_tau P S 3 1 = Ok (R, N)
        ∧ R !! 2%nat = Some (long_sum P S 1 2 + short_product P S 1)
        ∧ N !! 2%nat = Some (Qc_of_Z (long_count S 1 2 + short_count S 1)).
Proof.
  intros P S. split; [reflexivity|]. split; [lia|]. split; [lia|].
  intros (R & N & Hday & HR & _).
  vm_compute in Hday. injection Hday as <- <-.
  apply (f_equal (fun o => this <$> o)) in HR. vm_compute in HR.
  discriminate HR.
Qed.

Lemma loop_short_only (P S : list Qc) (tau_p : nat) (l : list nat) st :
  Forall (fun t => t <= tau_p)%nat l ->
  foldl (long_update P S tau_p) st l = st.
Proof.
  revert st. induction l as [|t l IH]; intros st Hl; [done|].
  apply Forall_cons in Hl as [Ht Hl]. simpl.
  unfold long_update at 2. rewrite decide_True by done. by apply IH.
Qed.

Lemma short_product_no_sign (P S : list Qc) (tau_p : nat) :
  short_count S tau_p = 0%Z -> short_product P S tau_p = 0.
Proof.
  unfold short_count, short_product. intros H.
  assert (short_window S tau_p = []) as -> by (apply length_zero_iff_nil; lia).
  done.
Qed.

(** C7: with τp = τmax − 1 the loop over the lags changes nothing, and
    every slot of R holds the short-lag product (every slot of N the
    short-lag count). *)
Theorem short_regime_only (P S : list Qc) (tau : nat) :
  length P = length S -> (1 < tau)%nat ->
  day_time_short_long_tau P S (Z.of_nat tau) (Z.of_nat tau - 1)
  = Ok (replicate tau (short_product P S (tau - 1)),
        replicate tau (Qc_of_Z (short_count S (tau - 1)))).
Proof.
  intros Hlen Htau.
  replace (Z.of_nat tau - 1)%Z with (Z.of_nat (tau - 1)) by lia.
  rewrite (day_code P S tau (tau - 1) Hlen) by lia.
  rewrite loop_short_only by (apply Forall_forall; intros t Ht%elem_of_seq; lia).
  unfold short_fill.
  replace (tau - 1 + 1)%nat with tau by lia. rewrite Nat.sub_diag.
  simpl replicate at 2 4 5. rewrite !app_nil_r.
  destruct (decide _) as [H0|Hn0].
  - by rewrite short_product_no_sign.
  - by rewrite short_product_sum.
Qed.

Lemma short_regime_only_witness :
  day_time_short_long_tau (map Qc_of_Z [1; 2; 4]%Z) (map Qc_of_Z [1; 0; 1]%Z)
                          (Z.of_nat 2) (Z.of_nat 2 - 1)
  = Ok (replicate 2 (short_product (map Qc_of_Z [1; 2; 4]%Z)
                                   (map Qc_of_Z [1; 0; 1]%Z) (2 - 1)),
        replicate 2 (Qc_of_Z (short_count (map Qc_of_Z [1; 0; 1]%Z) (2 - 1)))).
Proof.
  apply (short_regime_only (map Qc_of_Z [1; 2; 4]%Z) (map Qc_of_Z [1; 0; 1]%Z) 2).
  - reflexivity.
  - lia.
Defined.

(** Outside the contract 0 < τp: with τmax = 1 the short slice [:-0] is
    empty and the two price slices cannot be subtracted. *)
Example short_regime_tau_1 :
  day_time_short_long_tau (map Qc_of_Z [1; 2]%Z) (map Qc_of_Z [1; 0]%Z) 1 0
  = Raise ValueError.
Proof. reflexivity. Qed.

End TaqDay.

Module TaqShape.
Import Py PyFacts NpFacts Taq TaqSpec.
Local Open Scope Qc_scope.

(** The two arrays keep the length [np.zeros(tau)] gave them. *)
Lemma assign_prefix_length stop v a a' :
  Np.assign_prefix stop v a = Ok a' -> length a' = length a.
Proof.
  unfold Np.assign_prefix. pose proof (clip_le (length a) stop) as Hc.
  case_bool_decide as Hv.
  - intros [= <-]. rewrite length_app, length_drop. lia.
  - destruct v as [|x [|]]; intros [= <-].
    rewrite length_app, length_replicate, length_drop. lia.
Qed.

Lemma setitem_length {A} (l l' : list A) i v :
  setitem l i v = Ok l' -> length l' = length l.
Proof.
  unfold setitem. case_bool_decide; intros [= <-]. apply length_insert.
Qed.

Lemma long_response_length P S tau_p n ps st t st' :
  long_response P S tau_p n ps st t = Ok st' ->
  length st'.1 = length st.1 ∧ length st'.2 = length st.2.
Proof.
  destruct st as [R N]. unfold long_response.
  case_bool_decide; [by intros [= <-]|].
  intros (N' & HN & H1)%bind_Ok. apply setitem_length in HN.
  apply bind_Ok in H1 as (d & _ & H1).
  apply bind_Ok in H1 as (lr & _ & H1).
  case_bool_decide; [|by intros; simplify_eq].
  apply bind_Ok in H1 as (pl & _ & H1).
  apply bind_Ok in H1 as (psv & _ & H1).
  apply bind_Ok in H1 as (R' & HR & H1). apply setitem_length in HR.
  by simplify_eq.
Qed.

Lemma for_each_length P S tau_p n ps l st st' :
  for_each (long_response P S tau_p n ps) l st = Ok st' ->
  length st'.1 = length st.1 ∧ length st'.2 = length st.2.
Proof.
  revert st. induction l as [|t l IH]; intros st; simpl.
  - by intros [= <-].
  - intros (st1 & H1 & H2)%bind_Ok.
    apply long_response_length in H1 as [<- <-]. by apply IH.
Qed.

Lemma day_length P S tau tau_p R N :
  day_time_short_long_tau P S tau tau_p = Ok (R, N) ->
  length R = Z.to_nat tau ∧ length N = Z.to_nat tau.
Proof.
  unfold day_time_short_long_tau.
  intros (_ & _ & H)%bind_Ok.
  apply bind_Ok in H as (R0 & HR0 & H).
  apply bind_Ok in H as (N0 & HN0 & H).
  apply bind_Ok in H as (o1 & _ & H).
  apply bind_Ok in H as (N1 & HN1 & H).
  apply bind_Ok in H as (d & _ & H).
  apply bind_Ok in H as (lr & _ & H).
  apply bind_Ok in H as ([ps R1] & HR1 & H).
  apply for_each_length in H as [H1 H2]. simpl in H1, H2. rewrite H1, H2.
  apply assign_prefix_length in HN1. rewrite HN1.
  assert (length R0 = Z.to_nat tau ∧ length N0 = Z.to_nat tau) as [HlR HlN].
  { unfold Np.zeros in HR0, HN0.
    destruct (bool_decide (tau < 0)%Z); simplify_eq.
    by rewrite !length_replicate. }
  split; [|done]. rewrite <- HlR.
  case_bool_decide; [|by simplify_eq].
  apply bind_Ok in HR1 as (p & _ & HR1).
  apply bind_Ok in HR1 as (o2 & _ & HR1).
  apply bind_Ok in HR1 as (R2 & HR2 & HR1).
  apply assign_prefix_length in HR2. by simplify_eq.
Qed.

(** The array computation never raises [FileNotFoundError]: what the
    [except] clause of the day-level functions catches comes from the two
    [open] calls only. *)
Lemma found_bind {A B} (m : result A) (f : A -> result B) :
  found m -> (forall a, found (f a)) -> found (m ≫= f).
Proof.
  intros Hm Hf. destruct m as [a|e]; [apply Hf|].
  intros [= ->]. by apply Hm.
Qed.

Lemma found_broadcast2 f a b : found (Np.broadcast2 f a b).
Proof.
  unfold Np.broadcast2. case_bool_decide; [done|].
  destruct a as [|x [|]], b as [|y [|]]; done.
Qed.

Lemma found_assign_prefix stop v a : found (Np.assign_prefix stop v a).
Proof.
  unfold Np.assign_prefix. case_bool_decide; [done|].
  destruct v as [|x [|]]; done.
Qed.

Lemma found_zeros n : found (Np.zeros n).
Proof. unfold Np.zeros. by case_bool_decide. Qed.

Lemma found_ones n : found (Np.ones n).
Proof. unfold Np.ones. by case_bool_decide. Qed.

Lemma found_setitem {A} (l : list A) i v : found (setitem l i v).
Proof. unfold setitem. by case_bool_decide. Qed.

Lemma found_long_response P S tau_p n ps st t :
  found (long_response P S tau_p n ps st t).
Proof.
  destruct st as [R N]. unfold long_response. case_bool_decide; [done|].
  apply found_bind; [apply found_setitem|intros N'].
  apply found_bind; [apply found_broadcast2|intros d].
  apply found_bind; [apply found_broadcast2|intros lr].
  case_bool_decide; [|done].
  apply found_bind; [apply found_broadcast2|intros pl].
  apply found_bind; [by destruct ps|intros psv].
  apply found_bind; [apply found_setitem|done].
Qed.

Lemma found_for_each {A St} (body : St -> A -> result St) l st :
  (forall s x, found (body s x)) -> found (for_each body l st).
Proof.
  intros Hb. revert st. induction l as [|x l IH]; intros st; [done|].
  simpl. apply found_bind; [apply Hb|apply IH].
Qed.

Lemma found_day P S tau tau_p :
  found (day_time_short_long_tau P S tau tau_p).
Proof.
  unfold day_time_short_long_tau.
  apply found_bind; [unfold py_assert; by case_bool_decide|intros _].
  apply found_bind; [apply found_zeros|intros R0].
  apply found_bind; [apply found_zeros|intros N0].
  apply found_bind; [apply found_ones|intros o1].
  apply found_bind; [apply found_assign_prefix|intros N1].
  apply found_bind; [apply found_broadcast2|intros d].
  apply found_bind; [apply found_broadcast2|intros lr].
  apply found_bind.
  - case_bool_decide; [|done].
    apply found_bind; [apply found_broadcast2|intros p].
    apply found_bind; [apply found_ones|intros o2].
    apply found_bind; [apply found_assign_prefix|done].
  - intros [ps R1]. apply found_for_each. intros. apply found_long_response.
Qed.

End TaqShape.

Module TaqYear.
Import Py IO PyFacts NpFacts Taq TaqSpec TaqShape.
Local Open Scope Qc_scope.

Lemma outcome_bind {A B} (m : io A) (f : A -> io B) :
  outcome (m ≫= f) = match outcome m with
                     | Ok a => outcome (f a)
                     | Raise e => Raise e
                     end.
Proof. unfold mbind, io_bind. by destruct (outcome m). Qed.

Lemma outcome_try_except {A} (body handler : io A) e :
  outcome (try_except body e handler)
  = match outcome body with
    | Ok a => Ok a
    | Raise e' => if decide (e' = e) then outcome handler else Raise e'
    end.
Proof.
  unfold try_except. destruct (outcome body) as [a|e'] eqn:Hb; [done|].
  destruct (decide (e' = e)); done.
Qed.

(** Element-wise sums of arrays of one length. *)
Lemma zip_plus_0_r (a : list Qc) (n : nat) :
  length a = n -> zip_with Qcplus a (replicate n 0) = a.
Proof.
  revert n. induction a as [|x a IH]; intros n <-; [done|].
  simpl. by rewrite IH, Qcplus_0_r.
Qed.

Lemma zip_plus_assoc (a b c : list Qc) :
  zip_with Qcplus (zip_with Qcplus a b) c
  = zip_with Qcplus a (zip_with Qcplus b c).
Proof.
  revert b c. induction a as [|x a IH]; intros [|y b] [|z c]; simpl; try done.
  by rewrite IH, Qcplus_assoc.
Qed.

Lemma sum_arrays_length (n : nat) (l : list (list Qc)) :
  Forall (fun r => length r = n) l -> length (sum_arrays n l) = n.
Proof.
  induction 1 as [|r l Hr Hl IH]; simpl.
  - apply length_replicate.
  - rewrite length_zip_with, IH, Hr. lia.
Qed.

Lemma foldl_sum_arrays (n : nat) (a : list Qc) (l : list (list Qc)) :
  length a = n -> Forall (fun r => length r = n) l ->
  foldl (zip_with Qcplus) a l = zip_with Qcplus a (sum_arrays n l).
Proof.
  intros Ha Hl. revert a Ha. induction Hl as [|r l Hr Hl IH]; intros a Ha; simpl.
  - by rewrite zip_plus_0_r.
  - rewrite IH by (rewrite length_zip_with; lia). apply zip_plus_assoc.
Qed.

Lemma zip_plus_0_l (a : list Qc) (n : nat) :
  length a = n -> zip_with Qcplus (replicate n 0) a = a.
Proof.
  revert n. induction a as [|x a IH]; intros n <-; [done|].
  simpl. by rewrite IH, Qcplus_0_l.
Qed.

Lemma divide_no_day (n : nat) :
  map (fun y => y / 0) (replicate n 0)
  = zip_with Qcdiv (replicate n 0) (replicate n 0).
Proof. induction n as [|n IH]; simpl; congruence. Qed.

Section year.

Variable day_data : string -> io (option (list Qc * list Qc)).
Variable tau : nat.
Hypothesis day_shape : forall date R N,
  outcome (day_data date) = Ok (Some (R, N)) -> length R = tau ∧ length N = tau.

Lemma valid_days_shape (dates : list string) :
  Forall (fun r => length r = tau) (map fst (valid_days day_data dates))
  ∧ Forall (fun r => length r = tau) (map snd (valid_days day_data dates)).
Proof.
  unfold valid_days. induction dates as [|date dates [IH1 IH2]]; [done|].
  simpl. destruct (outcome (day_data date)) as [[[R N]|]|e] eqn:Hd; simpl;
    try done.
  destruct (day_shape _ _ _ Hd). split; by constructor.
Qed.

Lemma year_loop (dates : list string) (response : list Qc) (num : list (list Qc)) :
  forallb (fun date => returns (day_data date)) dates = true ->
  length response = tau ->
  outcome (for_each_io (year_step day_data) dates (response, num))
  = Ok (foldl (zip_with Qcplus) response (map fst (valid_days day_data dates)),
        num ++ map snd (valid_days day_data dates)).
Proof.
  revert response num. induction dates as [|date dates IH];
    intros response num Hret Hlen.
  { simpl. by rewrite app_nil_r. }
  simpl in Hret. apply andb_true_iff in Hret as [Hd Hret].
  cbn [for_each_io]. rewrite outcome_bind.
  unfold year_step at 1. rewrite outcome_try_except, outcome_bind.
  unfold returns in Hd. unfold valid_days. cbn [omap list_omap].
  fold (valid_days day_data dates).
  destruct (outcome (day_data date)) as [[[R N]|]|e] eqn:Hday; [| |done].
  - destruct (day_shape _ _ _ Hday) as [HR HN].
    cbn [unpack]. rewrite outcome_bind. cbn [outcome mret io_ret].
    rewrite outcome_bind. unfold iadd.
    rewrite bool_decide_true by congruence. cbn [outcome lift mret io_ret].
    rewrite IH by (rewrite ?length_zip_with; first [done | lia]).
    simpl. by rewrite <- app_assoc.
  - cbn [unpack]. rewrite outcome_bind. cbn [outcome raise].
    rewrite decide_True by done. cbn [outcome mret io_ret].
    by rewrite IH.
Qed.

(** The quotient the year-level functions save and return. *)
Lemma year_quotient (dates : list string) :
  divide (foldl (zip_with Qcplus) (replicate tau 0)
                (map fst (valid_days day_data dates)))
         (sum_axis0 ([] ++ map snd (valid_days day_data dates)))
  = Ok (year_average tau day_data dates).
Proof.
  unfold year_average, ratio. destruct (valid_days_shape dates) as [HR HN].
  rewrite (foldl_sum_arrays tau) by (done || apply length_replicate).
  rewrite zip_plus_0_l by (by apply sum_arrays_length).
  simpl app. destruct (valid_days day_data dates) as [|[R N] days]; simpl.
  - f_equal. apply divide_no_day.
  - apply Forall_cons in HN as [HN HNs]. apply Forall_cons in HR as [HR HRs].
    simpl in HN, HR, HNs, HRs.
    rewrite (foldl_sum_arrays tau) by done.
    unfold Np.div. rewrite broadcast2_same; [done|].
    rewrite !length_zip_with, !sum_arrays_length by done. lia.
Qed.

End year.
End TaqYear.

Module TaqEntry.
Import Py IO PyFacts NpFacts Taq TaqSpec TaqShape TaqYear.
Local Open Scope Qc_scope.

Section entry.

Variable midpoint_file : string -> option (list Qc).
Variable trade_signs_file : string -> option (list Qc).
Variable taq_bussiness_days : string -> list string.

Abbreviation self_day :=
  (taq_self_response_day_time_short_long_tau_data midpoint_file trade_signs_file).
Abbreviation cross_day :=
  (taq_cross_response_day_time_short_long_tau_data midpoint_file trade_signs_file).
Abbreviation self_year :=
  (taq_self_response_year_time_short_long_tau_data
     midpoint_file trade_signs_file taq_bussiness_days).
Abbreviation cross_year :=
  (taq_cross_response_year_time_short_long_tau_data
     midpoint_file trade_signs_file taq_bussiness_days).

Lemma outcome_load file path :
  outcome (pickle_load file path)
  = match file path with Some a => Ok a | None => Raise FileNotFoundError end.
Proof.
  unfold pickle_load. rewrite outcome_bind. simpl. by destruct (file path).
Qed.

(** What the [try] block of the two day-level functions returns once the
    two files are named. *)
Lemma outcome_day_body (before : io unit) path_m path_s tau tau_p :
  outcome before = Ok tt ->
  outcome
    (try_except
       (before;;
        midpoint ← pickle_load midpoint_file path_m;
        trade_sign ← pickle_load trade_signs_file path_s;
        r ← lift (day_time_short_long_tau midpoint trade_sign tau tau_p);
        mret (Some r))
       FileNotFoundError no_data)
  = match midpoint_file path_m, trade_signs_file path_s with
    | Some midpoint, Some trade_sign =>
        r ← day_time_short_long_tau midpoint trade_sign tau tau_p; Ok (Some r)
    | _, _ => Ok None
    end.
Proof.
  intros Hb. rewrite outcome_try_except, outcome_bind, Hb.
  rewrite outcome_bind, outcome_load.
  destruct (midpoint_file path_m) as [P|];
    [|rewrite decide_True by done; reflexivity].
  rewrite outcome_bind, outcome_load.
  destruct (trade_signs_file path_s) as [Sg|];
    [|rewrite decide_True by done; reflexivity].
  rewrite outcome_bind. cbn [outcome lift].
  destruct (day_time_short_long_tau P Sg tau tau_p) as [r|e] eqn:Hday;
    [done|].
  simpl. rewrite decide_False; [done|].
  intros ->. by apply found_day in Hday.
Qed.

Lemma self_day_outcome ticker date year month day rest tau tau_p :
  Str.split "-" date = year :: month :: day :: rest ->
  outcome (self_day ticker date tau tau_p)
  = match midpoint_file (midpoint_path ticker year month day),
          trade_signs_file (trade_signs_path year ticker year month day) with
    | Some midpoint, Some trade_sign =>
        r ← day_time_short_long_tau midpoint trade_sign tau tau_p; Ok (Some r)
    | _, _ => Ok None
    end.
Proof.
  intros Hd. unfold taq_self_response_day_time_short_long_tau_data.
  rewrite Hd. rewrite !outcome_bind. cbn [outcome lift getitem].
  simpl. rewrite outcome_try_except.
  rewrite <- (outcome_day_body (mret tt)) by done.
  rewrite outcome_try_except. by rewrite (outcome_bind (mret tt)).
Qed.

Lemma cross_day_outcome ticker_i ticker_j date year month day rest tau tau_p :
  Str.split "-" date = year :: month :: day :: rest ->
  ticker_i ≠ ticker_j ->
  outcome (cross_day ticker_i ticker_j date tau tau_p)
  = match midpoint_file (midpoint_path ticker_i year month day),
          trade_signs_file (trade_signs_path "2008" ticker_j year month day) with
    | Some midpoint, Some trade_sign =>
        r ← day_time_short_long_tau midpoint trade_sign tau tau_p; Ok (Some r)
    | _, _ => Ok None
    end.
Proof.
  intros Hd Hne. unfold taq_cross_response_day_time_short_long_tau_data.
  rewrite Hd. rewrite !outcome_bind. cbn [outcome lift getitem].
  simpl. rewrite bool_decide_false by done.
  by apply outcome_day_body.
Qed.

Lemma day_body_shape (r : result (option (list Qc * list Qc))) o1 o2 tau tau_p R N :
  match o1, o2 with
  | Some midpoint, Some trade_sign =>
      r ← day_time_short_long_tau midpoint trade_sign tau tau_p; Ok (Some r)
  | _, _ => Ok None
  end = Ok (Some (R, N)) ->
  length R = Z.to_nat tau ∧ length N = Z.to_nat tau.
Proof.
  destruct o1 as [P|], o2 as [Sg|]; try done.
  intros (rn & Hday & [= ->])%bind_Ok. by apply day_length in Hday.
Qed.

Lemma self_day_shape ticker date tau tau_p R N :
  outcome (self_day ticker date tau tau_p) = Ok (Some (R, N)) ->
  length R = Z.to_nat tau ∧ length N = Z.to_nat tau.
Proof.
  destruct (Str.split "-" date) as [|y [|m [|d rest]]] eqn:Hs.
  1-3: unfold taq_self_response_day_time_short_long_tau_data; rewrite Hs;
       by rewrite !outcome_bind.
  rewrite (self_day_outcome _ _ _ _ _ _ _ _ Hs).
  apply day_body_shape. exact (Ok None).
Qed.

Lemma cross_day_shape ticker_i ticker_j date tau tau_p R N :
  outcome (cross_day ticker_i ticker_j date tau tau_p) = Ok (Some (R, N)) ->
  length R = Z.to_nat tau ∧ length N = Z.to_nat tau.
Proof.
  destruct (Str.split "-" date) as [|y [|m [|d rest]]] eqn:Hs.
  1-3: unfold taq_cross_response_day_time_short_long_tau_data; rewrite Hs;
       by rewrite !outcome_bind.
  destruct (decide (ticker_i = ticker_j)) as [->|Hne].
  - unfold taq_cross_response_day_time_short_long_tau_data. rewrite Hs.
    rewrite !outcome_bind. cbn [outcome lift getitem]. simpl.
    by rewrite bool_decide_true by done.
  - rewrite (cross_day_outcome _ _ _ _ _ _ _ _ _ Hs Hne).
    apply day_body_shape. exact (Ok None).
Qed.

(** C6: the year-level response is, lag by lag, the sum of the day-level R
    arrays over the days with valid data divided by the sum of their N
    arrays; the days that return nothing are in neither sum, and the
    aggregate is produced whenever every day either returns its pair or
    returns nothing. *)
Theorem year_response (ticker_i ticker_j year : string) (tau tau_p : Z) :
  (0 <= tau)%Z ->
  (forallb (fun date => returns (self_day ticker_i date tau tau_p))
           (taq_bussiness_days year) = true ->
   outcome (self_year ticker_i year tau tau_p)
   = Ok (year_average (Z.to_nat tau)
           (fun date => self_day ticker_i date tau tau_p)
           (taq_bussiness_days year)))
  ∧ (ticker_i ≠ ticker_j ->
     forallb (fun date => returns (cross_day ticker_i ticker_j date tau tau_p))
             (taq_bussiness_days year) = true ->
     outcome (cross_year ticker_i ticker_j year tau tau_p)
     = Ok (Some (year_average (Z.to_nat tau)
                   (fun date => cross_day ticker_i ticker_j date tau tau_p)
                   (taq_bussiness_days year)))).
Proof.
  intros Htau. split.
  - intros Hret. unfold taq_self_response_year_time_short_long_tau_data.
    rewrite !outcome_bind. cbn [outcome emit lift].
    rewrite <- (Z2Nat.id tau) at 1 by done. rewrite zeros_nat.
    rewrite outcome_bind.
    rewrite (year_loop _ (Z.to_nat tau)); [| |done|apply length_replicate].
    2: { intros date R N. apply self_day_shape. }
    rewrite !outcome_bind. cbn [outcome emit lift].
    rewrite year_quotient; [done|].
    intros date R N. apply self_day_shape.
  - intros Hne Hret. unfold taq_cross_response_year_time_short_long_tau_data.
    rewrite bool_decide_false by done.
    rewrite !outcome_bind. cbn [outcome emit lift].
    rewrite <- (Z2Nat.id tau) at 1 by done. rewrite zeros_nat.
    rewrite outcome_bind.
    rewrite (year_loop _ (Z.to_nat tau)); [| |done|apply length_replicate].
    2: { intros date R N. apply cross_day_shape. }
    rewrite !outcome_bind. cbn [outcome emit lift].
    rewrite year_quotient; [done|].
    intros date R N. apply cross_day_shape.
Qed.

Lemma bind_lift_Ok {A B} (a : A) (f : A -> io B) : lift (Ok a) ≫= f = f a.
Proof. unfold mbind, io_bind. simpl. by destruct (f a). Qed.

Lemma date_fields (year month day : string) (rest : list string) :
  getitem (year :: month :: day :: rest) 0 = Ok year
  ∧ getitem (year :: month :: day :: rest) 1 = Ok month
  ∧ getitem (year :: month :: day :: rest) 2 = Ok day.
Proof. done. Qed.

Lemma trace_emit_bind {A} (e : event) (k : io A) :
  trace (emit e;; k) = e :: trace k.
Proof. done. Qed.

Lemma trace_try_except_head {A} (body handler : io A) exn e rest :
  trace body = e :: rest ->
  exists rest', trace (try_except body exn handler) = e :: rest'.
Proof.
  intros Hb. unfold try_except. destruct (outcome body) as [a|e'].
  - by exists rest.
  - destruct (decide (e' = exn)).
    + exists (rest ++ trace handler). simpl. by rewrite Hb.
    + by exists rest.
Qed.

Lemma io_bind_Ok {A B} (m : io A) (f : A -> io B) (a : A) :
  outcome m = Ok a -> m ≫= f = Io (trace m ++ trace (f a)) (outcome (f a)).
Proof. intros H. unfold mbind, io_bind. by rewrite H. Qed.

Lemma io_bind_raises {A B} (m : io A) (f : A -> io B) (e : exn) :
  outcome m = Raise e -> m ≫= f = Io (trace m) (Raise e).
Proof. intros H. unfold mbind, io_bind. by rewrite H. Qed.

(** What the day-level cross response does with two tickers: the header,
    the midpoint file of the first, the trade-sign file of the second, and
    "No data" when one of the two is missing. *)
Lemma cross_day_trace ticker_i ticker_j date year month day rest tau tau_p :
  Str.split "-" date = year :: month :: day :: rest ->
  ticker_i ≠ ticker_j ->
  trace (cross_day ticker_i ticker_j date tau tau_p)
  = HeaderPrint "taq_cross_response_day_time_short_long_tau_data"
                ticker_i ticker_j year month day
    :: Open (midpoint_path ticker_i year month day)
    :: match midpoint_file (midpoint_path ticker_i year month day) with
       | None => [Print "No data"; Print ""]
       | Some _ =>
           Open (trade_signs_path "2008" ticker_j year month day)
           :: match trade_signs_file
                      (trade_signs_path "2008" ticker_j year month day) with
              | None => [Print "No data"; Print ""]
              | Some _ => []
              end
       end.
Proof.
  intros Hd Hne. unfold taq_cross_response_day_time_short_long_tau_data.
  rewrite Hd. destruct (date_fields year month day rest) as (-> & -> & ->).
  rewrite !bind_lift_Ok. rewrite bool_decide_false by done.
  unfold pickle_load.
  destruct (midpoint_file _) as [midpoint|]; [|reflexivity].
  destruct (trade_signs_file _) as [trade_sign|]; [|reflexivity].
  unfold try_except, mbind, io_bind, mret, io_ret.
  cbn [outcome trace emit lift app].
  destruct (day_time_short_long_tau midpoint trade_sign tau tau_p)
    as [rn|e] eqn:Hday; [reflexivity|].
  destruct (decide (e = FileNotFoundError)) as [->|He];
    [by apply found_day in Hday|].
  cbn [outcome trace app]. by rewrite decide_False.
Qed.

(** What the year-level cross response does with two tickers: the header,
    the loop over the business days of the year with the day-level cross
    response, the quotient of the sums the loop leaves, saved and
    returned. *)
Lemma cross_year_runs (ticker_i ticker_j a_year : string) (tau tau_p : Z)
    (zeros : list Qc) :
  ticker_i ≠ ticker_j -> Np.zeros tau = Ok zeros ->
  let days :=
    for_each_io
      (year_step (fun date => cross_day ticker_i ticker_j date tau tau_p))
      (taq_bussiness_days a_year) (zeros, []) in
  let quotient :=
    st ← outcome days; divide st.1 (sum_axis0 st.2) in
  outcome (cross_year ticker_i ticker_j a_year tau tau_p)
  = (r ← quotient; Ok (Some r))
  ∧ trace (cross_year ticker_i ticker_j a_year tau tau_p)
    = HeaderPrint "taq_cross_response_year_time_short_long_tau_data"
                  ticker_i ticker_j a_year "" ""
      :: trace days
      ++ match quotient with
         | Ok r =>
             [Save (save_name
                      "taq_cross_response_year_time_short_long_tau_data"
                      tau tau_p)
                   r ticker_i ticker_j a_year "" ""]
         | Raise _ => []
         end.
Proof.
  intros Hne Hz days quotient. subst quotient.
  unfold taq_cross_response_year_time_short_long_tau_data.
  rewrite bool_decide_false by done.
  rewrite (io_bind_Ok (emit _) _ tt) by done. rewrite Hz.
  rewrite (io_bind_Ok (lift (Ok zeros)) _ zeros) by done.
  fold days. cbn [trace outcome emit lift app].
  destruct (outcome days) as [[response num]|e] eqn:Hdays.
  - rewrite (io_bind_Ok days _ (response, num)) by done.
    cbn [trace outcome mbind result_bind fst snd].
    destruct (divide response (sum_axis0 num)) as [q|e].
    + rewrite (io_bind_Ok (lift (Ok q)) _ q) by done.
      rewrite (io_bind_Ok (emit _) _ tt) by done.
      rewrite (io_bind_Ok (lift (Ok q)) _ q) by done.
      cbn [trace outcome emit lift app mret io_ret mbind result_bind].
      done.
    + rewrite (io_bind_raises (lift (Raise e)) _ e) by done.
      cbn [trace outcome lift mbind result_bind]. done.
  - rewrite (io_bind_raises days _ e) by done.
    cbn [trace outcome mbind result_bind]. by rewrite app_nil_r.
Qed.

(** C8: called with one ticker twice, the two cross-response functions
    return [None] and do nothing else; called with two tickers they go on.
    The day level prints its header, opens the midpoint file of the first
    ticker and the trade-sign file of the second, and returns the array
    computation on the two series, or [None] after "No data" when a file is
    missing.  The year level prints its header, runs the loop over the
    business days with the day-level cross response, and saves and returns
    the quotient of the sums the loop leaves. *)
Theorem cross_response_dispatch
    (ticker_i ticker_j date year month day a_year : string)
    (rest : list string) (tau tau_p : Z) :
  Str.split "-" date = year :: month :: day :: rest ->
  (ticker_i = ticker_j ->
   cross_day ticker_i ticker_j date tau tau_p = Io [] (Ok None)
   ∧ cross_year ticker_i ticker_j a_year tau tau_p = Io [] (Ok None))
  ∧ (ticker_i ≠ ticker_j ->
     outcome (cross_day ticker_i ticker_j date tau tau_p)
     = match midpoint_file (midpoint_path ticker_i year month day),
             trade_signs_file
               (trade_signs_path "2008" ticker_j year month day) with
       | Some midpoint, Some trade_sign =>
           r ← day_time_short_long_tau midpoint trade_sign tau tau_p;
           Ok (Some r)
       | _, _ => Ok None
       end
     ∧ (exists events,
          trace (cross_day ticker_i ticker_j date tau tau_p)
          = HeaderPrint "taq_cross_response_day_time_short_long_tau_data"
                        ticker_i ticker_j year month day :: events)
     ∧ (exists events,
          trace (cross_year ticker_i ticker_j a_year tau tau_p)
          = HeaderPrint "taq_cross_response_year_time_short_long_tau_data"
                        ticker_i ticker_j a_year "" "" :: events)
     ∧ trace (cross_day ticker_i ticker_j date tau tau_p)
       = HeaderPrint "taq_cross_response_day_time_short_long_tau_data"
                     ticker_i ticker_j year month day
         :: Open (midpoint_path ticker_i year month day)
         :: match midpoint_file (midpoint_path ticker_i year month day) with
            | None => [Print "No data"; Print ""]
            | Some _ =>
                Open (trade_signs_path "2008" ticker_j year month day)
                :: match trade_signs_file
                           (trade_signs_path "2008" ticker_j year month day)
                   with
                   | None => [Print "No data"; Print ""]
                   | Some _ => []
                   end
            end
     ∧ (forall zeros, Np.zeros tau = Ok zeros ->
        let days :=
          for_each_io
            (year_step
               (fun date => cross_day ticker_i ticker_j date tau tau_p))
            (taq_bussiness_days a_year) (zeros, []) in
        let quotient :=
          st ← outcome days; divide st.1 (sum_axis0 st.2) in
        outcome (cross_year ticker_i ticker_j a_year tau tau_p)
        = (r ← quotient; Ok (Some r))
        ∧ trace (cross_year ticker_i ticker_j a_year tau tau_p)
          = HeaderPrint "taq_cross_response_year_time_short_long_tau_data"
                        ticker_i ticker_j a_year "" ""
            :: trace days
            ++ match quotient with
               | Ok r =>
                   [Save (save_name
                            "taq_cross_response_year_time_short_long_tau_data"
                            tau tau_p)
                         r ticker_i ticker_j a_year "" ""]
               | Raise _ => []
               end)).
Proof.
  intros Hd. split.
  - intros <-. split.
    + unfold taq_cross_response_day_time_short_long_tau_data. rewrite Hd.
      destruct (date_fields year month day rest) as (-> & -> & ->).
      rewrite !bind_lift_Ok.
      by rewrite bool_decide_true by done.
    + unfold taq_cross_response_year_time_short_long_tau_data.
      by rewrite bool_decide_true by done.
  - intros Hne. split; [by apply (cross_day_outcome _ _ _ _ _ _ rest)|].
    split; [|split; [|split]].
    + rewrite (cross_day_trace _ _ _ _ _ _ rest) by done. by eexists.
    + unfold taq_cross_response_year_time_short_long_tau_data.
      rewrite bool_decide_false by done. eexists. apply trace_emit_bind.
    + by apply (cross_day_trace _ _ _ _ _ _ rest).
    + intros zeros Hz. by apply cross_year_runs.
Qed.

End entry.
End TaqEntry.

Module TickRule.
Import Py PyFacts Itch ItchSpec.

Lemma tick_rule_from_length p0 s0 prices :
  length (tick_rule_from p0 s0 prices) = length prices.
Proof.
  revert p0 s0. induction prices as [|p prices IH]; intros p0 s0; [done|].
  simpl. by rewrite IH.
Qed.

Lemma tick_rule_from_0 p0 s0 p prices :
  tick_rule_from p0 s0 (p :: prices) !! 0%nat = Some (tick p0 s0 p).
Proof. done. Qed.

Lemma tick_rule_from_S p0 s0 prices (k : nat) p_prev s_prev p :
  prices !! k = Some p_prev -> prices !! (k + 1)%nat = Some p ->
  tick_rule_from p0 s0 prices !! k = Some s_prev ->
  tick_rule_from p0 s0 prices !! (k + 1)%nat = Some (tick p_prev s_prev p).
Proof.
  revert p0 s0 k. induction prices as [|q prices IH]; intros p0 s0 k; [done|].
  destruct k as [|k]; simpl.
  - intros [= ->] Hp [= <-]. destruct prices as [|q' prices]; [done|].
    simpl in Hp. injection Hp as ->. done.
  - intros Hprev Hp Hs. by apply (IH _ _ k).
Qed.

Lemma last_lookup_default (l : list Qc) (d : Qc) :
  l ≠ [] -> l !! (length l - 1)%nat = Some (List.last l d).
Proof.
  induction l as [|x l IH]; [done|]. intros _.
  destruct l as [|y l]; [done|].
  specialize (IH ltac:(done)). simpl in IH |- *.
  rewrite Nat.sub_0_r in *. exact IH.
Qed.

Lemma getitem_last {A} (l : list A) x :
  l !! (length l - 1)%nat = Some x -> l ≠ [] -> getitem l (-1) = Ok x.
Proof.
  intros Hx Hl. unfold getitem. rewrite (bool_decide_true (-1 < 0)) by lia.
  assert (0 < length l)%nat by (destruct l; [done|simpl; lia]).
  rewrite bool_decide_true by lia.
  replace (Z.to_nat (-1 + Z.of_nat (length l))) with (length l - 1)%nat by lia.
  by rewrite Hx.
Qed.

Section loop.

Variable prices : list Qc.
Local Abbreviation T := (tick_rule prices).
Local Abbreviation n := (length prices).

(** The result array once the loop has run over the first [k] trades. *)
Lemma tick_rule_step_code (k : nat) :
  (k < n)%nat ->
  tick_rule_step prices (take k T ++ replicate (n - k) 0) (Z.of_nat k)
  = Ok (take (k + 1) T ++ replicate (n - (k + 1)) 0).
Proof.
  intros Hk.
  assert (HT : length T = length prices) by apply tick_rule_from_length.
  destruct (lookup_lt_is_Some_2 prices k Hk) as [p Hp].
  destruct (lookup_lt_is_Some_2 T k ltac:(lia)) as [s Hs].
  assert (Hnil : prices ≠ []) by (intros ->; simpl in Hk; lia).
  assert (Hset : forall v, v = s ->
    setitem (take k T ++ replicate (length prices - k) 0) (Z.of_nat k) v
    = Ok (take (k + 1) T ++ replicate (length prices - (k + 1)) 0)).
  { intros v ->. rewrite setitem_nat
      by (rewrite length_app, length_take, length_replicate; lia).
    f_equal. rewrite insert_app_r_alt by (rewrite length_take; lia).
    rewrite length_take, Nat.min_l by lia. rewrite Nat.sub_diag.
    replace (length prices - k)%nat with (S (length prices - (k + 1))) by lia.
    simpl. rewrite !Nat.add_1_r, (take_S_r _ _ s) by done.
    by rewrite <- app_assoc. }
  unfold tick_rule_step. rewrite (getitem_nat _ _ _ Hp).
  cbn [mbind result_bind].
  destruct k as [|k].
  - change (Z.of_nat 0 - 1) with (-1).
    rewrite (getitem_last prices (List.last prices 0%Qc))
      by (done || by apply last_lookup_default).
    cbn [mbind result_bind].
    assert (s = tick (List.last prices 0%Qc) 0 p) as Hs0.
    { unfold tick_rule in Hs. destruct prices as [|q l]; [done|].
      rewrite tick_rule_from_0 in Hs. simpl in Hp. by simplify_eq. }
    unfold tick in Hs0. cbv zeta in Hs0.
    destruct (decide ((p - List.last prices 0%Qc)%Qc = 0%Qc)) as [Hd|Hd].
    + rewrite bool_decide_true by done. simpl negb. cbv iota.
      rewrite (getitem_last _ 0).
      * cbn [mbind result_bind]. by apply Hset.
      * simpl. rewrite length_replicate. apply lookup_replicate_2. lia.
      * simpl. destruct (length prices) eqn:E; [simpl in Hk; lia|done].
    + rewrite bool_decide_false by done. simpl negb. cbv iota. by apply Hset.
  - replace (Z.of_nat (S k) - 1) with (Z.of_nat k) by lia.
    destruct (lookup_lt_is_Some_2 prices k ltac:(lia)) as [p' Hp'].
    destruct (lookup_lt_is_Some_2 T k ltac:(lia)) as [s' Hs'].
    rewrite (getitem_nat _ _ _ Hp'). cbn [mbind result_bind].
    assert (s = tick p' s' p) as Hs0.
    { unfold tick_rule in *.
      rewrite <- Nat.add_1_r in Hs, Hp.
      rewrite (tick_rule_from_S _ _ _ k p' s' p) in Hs by done. by simplify_eq. }
    unfold tick in Hs0. cbv zeta in Hs0.
    destruct (decide ((p - p')%Qc = 0%Qc)) as [Hd|Hd].
    + rewrite bool_decide_true by done. simpl negb. cbv iota.
      rewrite (getitem_nat _ k s').
      * cbn [mbind result_bind]. by apply Hset.
      * rewrite lookup_app_l by (rewrite length_take; lia).
        rewrite lookup_take_lt by lia. done.
    + rewrite bool_decide_false by done. simpl negb. cbv iota. by apply Hset.
Qed.

Lemma tick_rule_loop (m k : nat) :
  (k + m = n)%nat ->
  for_each (tick_rule_step prices) (map Z.of_nat (seq k m))
           (take k T ++ replicate (n - k) 0)
  = Ok T.
Proof.
  revert k. induction m as [|m IH]; intros k Hk.
  - simpl. f_equal. rewrite take_ge by (unfold tick_rule; rewrite tick_rule_from_length; lia).
    replace (n - k)%nat with 0%nat by lia. apply app_nil_r.
  - cbn [seq List.map for_each]. rewrite tick_rule_step_code by lia.
    cbn [mbind result_bind]. rewrite <- Nat.add_1_r. apply IH. lia.
Qed.

End loop.

(** C5: the array Eq. 1 returns: the tick rule along the prices, the
    price before the first one being the last one, with the entries at the
    zero empirical signs dropped, so as long as the non-zero signs. *)
Theorem tick_rule_inference (trade_signs : list Z) (price_signs : list Qc) :
  length trade_signs = length price_signs ->
  itch_trade_classification_eq1_data trade_signs price_signs
  = Ok (select (nonzero trade_signs) (tick_rule price_signs))
  ∧ length (select (nonzero trade_signs) (tick_rule price_signs))
    = length (filter (fun s => s ≠ 0) trade_signs).
Proof.
  intros Hlen. split.
  - unfold itch_trade_classification_eq1_data. rewrite range_nat, Hlen.
    pose proof (tick_rule_loop price_signs (length price_signs) 0 eq_refl) as H.
    rewrite take_0, Nat.sub_0_r in H. simpl app in H. by rewrite H.
  - assert (length (tick_rule price_signs) = length trade_signs) as HT
      by (unfold tick_rule; by rewrite tick_rule_from_length).
    revert HT. generalize (tick_rule price_signs). clear Hlen.
    induction trade_signs as [|s signs IH]; intros [|t T] HT; try done.
    simpl in *. rewrite filter_cons.
    destruct (decide (s ≠ 0)) as [Hs|Hs].
    + rewrite bool_decide_false by done. simpl. f_equal. apply IH. lia.
    + rewrite bool_decide_true by (by destruct (decide (s = 0))).
      simpl. apply IH. lia.
Qed.

Lemma tick_rule_inference_witness :
  itch_trade_classification_eq1_data [1; 0; -1; 1]
    (map Qc_of_Z [10; 10; 9; 10])
  = Ok (select (nonzero [1; 0; -1; 1]) (tick_rule (map Qc_of_Z [10; 10; 9; 10])))
  ∧ length (select (nonzero [1; 0; -1; 1])
                   (tick_rule (map Qc_of_Z [10; 10; 9; 10])))
    = length (filter (fun s => s ≠ 0) [1; 0; -1; 1]).
Proof.
  apply (tick_rule_inference [1; 0; -1; 1] (map Qc_of_Z [10; 10; 9; 10])).
  reflexivity.
Defined.

End TickRule.

Module Scores.
Import Py PyFacts Itch ItchSpec.

#[local] Opaque full_time.

Lemma round_half_even_floor (q : Qc) :
  round_half_even q = Qfloor q
  ∨ (round_half_even q = Qfloor q + 1
     ∧ ¬ (q - Qc_of_Z (Qfloor q) < Q2Qc (1 # 2))%Qc).
Proof.
  unfold round_half_even. case_bool_decide as H1; [by left|].
  case_bool_decide; [by right|]. destruct (Z.even _); [by left|by right].
Qed.

Lemma round_half_even_10000 : round_half_even (Qc_of_Z 10000) = 10000.
Proof. reflexivity. Qed.

Lemma round_half_even_range (x : Qc) :
  (0 ≤ x ≤ Qc_of_Z 10000)%Qc -> 0 <= round_half_even x <= 10000.
Proof.
  intros [H0 H1].
  assert (Hf0 : 0 <= Qfloor x).
  { change 0 with (Qfloor 0%Q). by apply Qfloor_resp_le. }
  assert (Hf1 : Qfloor x <= 10000).
  { rewrite <- (Qfloor_Z 10000). by apply Qfloor_resp_le. }
  destruct (round_half_even_floor x) as [->|[Hr Hhalf]]; [lia|].
  destruct (decide (Qfloor x = 10000)) as [Hf|Hf]; [|lia].
  assert (x = Qc_of_Z 10000) as ->.
  { apply Qcle_antisym; [done|]. unfold Qcle. simpl. rewrite <- Hf.
    apply Qfloor_le. }
  rewrite round_half_even_10000. lia.
Qed.

Lemma Qc_10000_pos : (0 < Qc_of_Z 10000)%Qc.
Proof. by apply (Z2Qc_inj_lt 0 10000). Qed.

Lemma round4_range (q : Qc) : (0 ≤ q ≤ 1)%Qc -> (0 ≤ round4 q ≤ 1)%Qc.
Proof.
  intros [H0 H1]. unfold round4.
  assert (0 <= round_half_even (q * Qc_of_Z 10000) <= 10000) as [Hz0 Hz1].
  { apply round_half_even_range. split.
    - rewrite <- (Qcmult_0_l (Qc_of_Z 10000)).
      apply Qcmult_le_compat_r; [done|]. apply Qclt_le_weak, Qc_10000_pos.
    - rewrite <- (Qcmult_1_l (Qc_of_Z 10000)) at 2.
      apply Qcmult_le_compat_r; [done|]. apply Qclt_le_weak, Qc_10000_pos. }
  assert (Hne : Qc_of_Z 10000 ≠ 0%Qc).
  { apply not_symmetry, Qclt_not_eq, Qc_10000_pos. }
  split; apply (Qcmult_lt_0_le_reg_r _ _ (Qc_of_Z 10000) Qc_10000_pos).
  - rewrite Qcmult_0_l. unfold Qcdiv.
    rewrite <- Qcmult_assoc, Qcmult_inv_l, Qcmult_1_r by done.
    rewrite <- Z2Qc_inj_0. by apply (proj1 (Z2Qc_inj_le _ _)).
  - rewrite Qcmult_1_l. unfold Qcdiv.
    rewrite <- Qcmult_assoc, Qcmult_inv_l, Qcmult_1_r by done.
    by apply (proj1 (Z2Qc_inj_le _ _)).
Qed.

Lemma round4_1 : round4 1 = 1%Qc.
Proof. apply Qc_is_canon. reflexivity. Qed.

Lemma ratio_range (m n : Z) :
  0 <= m <= n -> 0 < n -> (0 ≤ Qc_of_Z m / Qc_of_Z n ≤ 1)%Qc.
Proof.
  intros [Hm0 Hmn] Hn.
  assert (Hpos : (0 < Qc_of_Z n)%Qc) by (rewrite <- Z2Qc_inj_0; by apply (proj1 (Z2Qc_inj_lt _ _))).
  assert (Hne : Qc_of_Z n ≠ 0%Qc) by (by apply not_symmetry, Qclt_not_eq).
  split; apply (Qcmult_lt_0_le_reg_r _ _ (Qc_of_Z n) Hpos).
  - rewrite Qcmult_0_l. unfold Qcdiv.
    rewrite <- Qcmult_assoc, Qcmult_inv_l, Qcmult_1_r by done.
    rewrite <- Z2Qc_inj_0. by apply (proj1 (Z2Qc_inj_le _ _)).
  - rewrite Qcmult_1_l. unfold Qcdiv.
    rewrite <- Qcmult_assoc, Qcmult_inv_l, Qcmult_1_r by done.
    by apply (proj1 (Z2Qc_inj_le _ _)).
Qed.

Lemma ratio_1 (n : Z) : 0 < n -> (Qc_of_Z n / Qc_of_Z n)%Qc = 1%Qc.
Proof.
  intros Hn. apply Qcmult_inv_r.
  apply not_symmetry, Qclt_not_eq. rewrite <- Z2Qc_inj_0.
  by apply (proj1 (Z2Qc_inj_lt _ _)).
Qed.

Lemma matches_range {A} `{EqDecision A} (a b : list A) :
  0 <= matches a b <= Z.of_nat (length a).
Proof.
  unfold matches. revert b. induction a as [|x a IH]; intros [|y b]; simpl;
    try lia.
  specialize (IH b). destruct (bool_decide (x = y)); simpl; lia.
Qed.

Lemma matches_same {A} `{EqDecision A} (a : list A) :
  matches a a = Z.of_nat (length a).
Proof.
  unfold matches. induction a as [|x a IH]; [done|]. simpl.
  rewrite bool_decide_true by done. simpl. lia.
Qed.

(** The accuracy [main] writes for a pair of arrays. *)
Lemma accuracy_range {A} `{EqDecision A} (a b : list A) :
  0 < Z.of_nat (length a) ->
  (0 ≤ round4 (Qc_of_Z (matches a b) / Qc_of_Z (Z.of_nat (length a))) ≤ 1)%Qc.
Proof.
  intros Hn. apply round4_range, ratio_range; [apply matches_range|done].
Qed.

Lemma accuracy_same {A} `{EqDecision A} (a : list A) :
  0 < Z.of_nat (length a) ->
  round4 (Qc_of_Z (matches a a) / Qc_of_Z (Z.of_nat (length a)))%Qc = 1%Qc.
Proof. intros Hn. by rewrite matches_same, ratio_1, round4_1. Qed.

(** The seconds where the three series are zero leave the three together. *)
Lemma mark_nan_same (a c : list Z) :
  drop_nan (mark_nan a a c).1.1.1 = drop_nan (mark_nan a a c).1.1.2.
Proof.
  revert c. induction a as [|x a IH]; intros [|z c]; try done.
  simpl. specialize (IH c). destruct (mark_nan a a c) as [[[a1 a2] a3] n].
  simpl in IH. destruct (_ && _); simpl; by rewrite ?IH.
Qed.

Lemma mark_nan_same_3 (a b : list Z) :
  drop_nan (mark_nan a b a).1.1.1 = drop_nan (mark_nan a b a).1.2.
Proof.
  revert b. induction a as [|x a IH]; intros [|y b]; try done.
  simpl. specialize (IH b). destruct (mark_nan a b a) as [[[a1 a2] a3] n].
  simpl in IH. destruct (_ && _); simpl; by rewrite ?IH.
Qed.

Lemma mark_nan_lengths (a b c : list Z) :
  length (drop_nan (mark_nan a b c).1.1.1)
  = length (drop_nan (mark_nan a b c).1.1.2)
  ∧ length (drop_nan (mark_nan a b c).1.1.1)
    = length (drop_nan (mark_nan a b c).1.2).
Proof.
  unfold drop_nan.
  revert b c. induction a as [|x a IH]; intros [|y b] [|z c]; try done.
  simpl. specialize (IH b c). destruct (mark_nan a b c) as [[[a1 a2] a3] n].
  simpl in IH. destruct IH as [IH1 IH2].
  destruct (_ && _); simpl.
  - split; [exact IH1|exact IH2].
  - split; [exact (f_equal Datatypes.S IH1)|exact (f_equal Datatypes.S IH2)].
Qed.

(** The three accuracies of [main_scores], written out. *)
Lemma main_scores_accuracies signs identified emp2 exp2 exp3 s :
  main_scores signs identified emp2 exp2 exp3 = Ok s ->
  let marked := mark_nan emp2 exp2 exp3 in
  let emp := drop_nan marked.1.1.1 in
  let nz := select (nonzero signs) signs in
  id_trades_trades_num s = Z.of_nat (length nz)
  ∧ accuracy_trades s
    = round4 (Qc_of_Z (matches nz identified) / Qc_of_Z (Z.of_nat (length nz)))%Qc
  ∧ id_trades_physical_num s = Z.of_nat (length emp)
  ∧ accuracy_physical_eq2 s
    = round4 (Qc_of_Z (matches emp (drop_nan marked.1.1.2))
              / Qc_of_Z (Z.of_nat (length emp)))%Qc
  ∧ accuracy_physical_eq3 s
    = round4 (Qc_of_Z (matches emp (drop_nan marked.1.2))
              / Qc_of_Z (Z.of_nat (length emp)))%Qc.
Proof.
  unfold main_scores. destruct (mark_nan emp2 exp2 exp3) as [[[a b] c] n].
  intros (_ & _ & H)%bind_Ok. apply bind_Ok in H as (_ & _ & H).
  by simplify_eq.
Qed.

Lemma eq3_empirical times signs volumes identified emp2 exp2 emp3 exp3 :
  itch_trade_classification_eq2_data times signs identified = Ok (emp2, exp2) ->
  itch_trade_classification_eq3_data times signs volumes identified
  = Ok (emp3, exp3) ->
  emp3 = emp2.
Proof.
  unfold itch_trade_classification_eq2_data, itch_trade_classification_eq3_data.
  intros (t2 & Ht2 & H2)%bind_Ok (t3 & Ht3 & H3)%bind_Ok.
  apply bind_Ok in H2 as (_ & _ & H2).
  apply bind_Ok in H3 as (v3 & _ & H3). apply bind_Ok in H3 as (_ & _ & H3).
  rewrite Ht2 in Ht3. injection Ht3 as <-.
  injection H2 as <- _. injection H3 as <- _. done.
Qed.

Lemma select_same_length {A B} (mask : list bool) (l1 : list A) (l2 : list B) :
  length l1 = length l2 ->
  length (select mask l1) = length (select mask l2).
Proof.
  revert l1 l2. induction mask as [|b mask IH]; intros [|x l1] [|y l2] Hl;
    try done.
  simpl in *. destruct b; simpl; rewrite (IH l1 l2); lia.
Qed.

Lemma select_replicate {A} (mask : list bool) (n : nat) (x : A) :
  select mask (replicate n x)
  = replicate (length (select mask (replicate n x))) x.
Proof.
  revert n. induction mask as [|b mask IH]; intros [|n]; try done.
  simpl. destruct b; simpl; by rewrite <- IH.
Qed.

Lemma sumZ_scale (k : Z) (l : list Z) : sumZ (map (Z.mul k) l) = k * sumZ l.
Proof. unfold sumZ. induction l as [|x l IH]; simpl; lia. Qed.

Lemma zip_mul_replicate (v : Z) (a : list Z) :
  zip_with Z.mul a (replicate (length a) v) = map (Z.mul v) a.
Proof. induction a as [|x a IH]; [done|]. simpl. rewrite IH. f_equal. lia. Qed.

Lemma sgn_scale (k x : Z) : 0 < k -> Z.sgn (k * x) = Z.sgn x.
Proof. intros Hk. rewrite Z.sgn_mul, (Z.sgn_pos k) by done. lia. Qed.

Lemma nonzero_length (signs : list Z) : length (nonzero signs) = length signs.
Proof. unfold nonzero. apply length_map. Qed.

Lemma eq3_constant_volume
    (times_signs trade_signs identified_trades : list Z) (v : Z) :
  0 < v ->
  itch_trade_classification_eq3_data times_signs trade_signs
    (replicate (length trade_signs) v) identified_trades
  = itch_trade_classification_eq2_data times_signs trade_signs
      identified_trades.
Proof.
  intros Hv.
  unfold itch_trade_classification_eq3_data,
         itch_trade_classification_eq2_data, mask_index. cbv zeta.
  destruct (bool_decide (length (nonzero trade_signs) = length times_signs));
    [|done].
  cbn [mbind result_bind].
  rewrite (bool_decide_true
             (length (nonzero trade_signs)
              = length (replicate (length trade_signs) v)))
    by (unfold nonzero; by rewrite length_map, length_replicate).
  cbn [mbind result_bind].
  destruct (decide (length (select (nonzero trade_signs) trade_signs)
                    = length identified_trades)) as [Hid|Hid];
    [|by rewrite (bool_decide_false _ Hid)].
  rewrite (bool_decide_true _ Hid). cbn [py_assert mbind result_bind].
  do 2 f_equal. apply map_ext. intros t_val. cbv zeta.
  rewrite (select_replicate (nonzero trade_signs)).
  rewrite (select_replicate (condition _ _)).
  rewrite <- (select_replicate (nonzero trade_signs)).
  assert (length (select (condition (select (nonzero trade_signs) times_signs)
                                    t_val)
                         (select (nonzero trade_signs)
                                 (replicate (length trade_signs) v)))
          = length (select (condition (select (nonzero trade_signs) times_signs)
                                      t_val)
                           identified_trades)) as ->.
  { apply select_same_length. rewrite <- Hid. apply select_same_length.
    by rewrite length_replicate. }
  by rewrite zip_mul_replicate, sumZ_scale, sgn_scale.
Qed.

(** With the empirical signs as inferred signs, the two series of Eq. 2
    are one series. *)
Lemma eq2_same_signs times signs emp exp :
  itch_trade_classification_eq2_data times signs
    (select (nonzero signs) signs) = Ok (emp, exp) ->
  exp = emp.
Proof.
  unfold itch_trade_classification_eq2_data.
  intros (t2 & _ & H)%bind_Ok. apply bind_Ok in H as (_ & _ & H).
  by injection H as <- <-.
Qed.

(** C9, as amended: when there is a trade with a non-zero sign and a scored
    second, each of the three accuracies [main] writes lies between 0
    and 1.  When the inferred sign sequence is the empirical one, the
    accuracy by trade and the unweighted accuracy by second are exactly 1;
    the volume-weighted accuracy is then 1 when every trade has one and the
    same positive volume, and in general when its weighted series by second
    is the empirical series by second. *)
Theorem accuracy_scores (times_signs trade_signs volume_signs : list Z)
    (price_signs : list Qc) (s : stats) :
  main_day times_signs trade_signs volume_signs price_signs = Ok s ->
  0 < id_trades_trades_num s -> 0 < id_trades_physical_num s ->
  ((0 ≤ accuracy_trades s ≤ 1)%Qc
   ∧ (0 ≤ accuracy_physical_eq2 s ≤ 1)%Qc
   ∧ (0 ≤ accuracy_physical_eq3 s ≤ 1)%Qc)
  ∧ (itch_trade_classification_eq1_data trade_signs price_signs
     = Ok (select (nonzero trade_signs) trade_signs) ->
     accuracy_trades s = 1%Qc
     ∧ accuracy_physical_eq2 s = 1%Qc
     ∧ ((exists v, 0 < v ∧ volume_signs = replicate (length trade_signs) v) ->
        accuracy_physical_eq3 s = 1%Qc))
  ∧ (forall identified empirical inferred,
       itch_trade_classification_eq1_data trade_signs price_signs
       = Ok identified ->
       itch_trade_classification_eq2_data times_signs trade_signs identified
       = Ok (empirical, inferred) ->
       inferred = empirical ->
       accuracy_physical_eq2 s = 1%Qc)
  ∧ (forall identified empirical inferred,
       itch_trade_classification_eq1_data trade_signs price_signs
       = Ok identified ->
       itch_trade_classification_eq3_data times_signs trade_signs
         volume_signs identified = Ok (empirical, inferred) ->
       inferred = empirical ->
       accuracy_physical_eq3 s = 1%Qc).
Proof.
  unfold main_day. intros (identified & H1 & H)%bind_Ok Hn Hp.
  apply bind_Ok in H as ([emp2 exp2] & H2 & H).
  apply bind_Ok in H as ([emp3 exp3] & H3 & H).
  pose proof (eq3_empirical _ _ _ _ _ _ _ _ H2 H3) as ->.
  apply main_scores_accuracies in H as (En & Ea & Ep & Ea2 & Ea3).
  cbv zeta in *. rewrite En in Hn. rewrite Ep in Hp.
  rewrite Ea, Ea2, Ea3. split; [|split; [|split]].
  - repeat split; by apply accuracy_range.
  - intros Hid. rewrite H1 in Hid. injection Hid as ->.
    apply eq2_same_signs in H2 as Hsame. subst exp2.
    split; [by apply accuracy_same|].
    split; [rewrite <- mark_nan_same; by apply accuracy_same|].
    intros (v & Hv & ->). rewrite eq3_constant_volume in H3 by done.
    rewrite H2 in H3. injection H3 as <-.
    rewrite <- mark_nan_same_3. by apply accuracy_same.
  - intros id0 emp inf Hid Heq ->. rewrite H1 in Hid. injection Hid as <-.
    rewrite H2 in Heq. injection Heq as <- <-.
    rewrite <- mark_nan_same. by apply accuracy_same.
  - intros id0 emp inf Hid Heq ->. rewrite H1 in Hid. injection Hid as <-.
    rewrite H3 in Heq. injection Heq as <- <-.
    rewrite <- mark_nan_same_3. by apply accuracy_same.
Qed.

(** C9 as stated fails for the volume-weighted accuracy: three trades in
    one second whose inferred signs are the empirical ones; the accuracy by
    trade and the unweighted accuracy by second are 1, the volume-weighted
    one is 0, the 100 shares bought outweighing the two sales of 10. *)
Lemma accuracy_scores_counterexample :
  exists s,
    main_day Sample.times_signs Sample.trade_signs Sample.volume_signs
             Sample.price_signs = Ok s
    ∧ 0 < id_trades_trades_num s ∧ 0 < id_trades_physical_num s
    ∧ itch_trade_classification_eq1_data Sample.trade_signs Sample.price_signs
      = Ok (select (nonzero Sample.trade_signs) Sample.trade_signs)
    ∧ accuracy_trades s = 1%Qc
    ∧ accuracy_physical_eq2 s = 1%Qc
    ∧ accuracy_physical_eq3 s = 0%Qc
    ∧ accuracy_physical_eq3 s ≠ 1%Qc.
Proof.
  eexists. split; [vm_compute; reflexivity|].
  split; [reflexivity|]. split; [reflexivity|]. split; [reflexivity|].
  split; [apply Qc_is_canon; reflexivity|].
  split; [apply Qc_is_canon; reflexivity|].
  split; [apply Qc_is_canon; reflexivity|].
  intros H. apply (f_equal this) in H. vm_compute in H. discriminate H.
Qed.

End Scores.

Module Attribution.
Import Py PyFacts Itch.

Lemma where_first_Ok (a : list Z) (x : Z) (l : nat) :
  where_first a x = Ok l <->
  a !! l = Some x ∧ forall j y, a !! j = Some y -> (j < l)%nat -> y ≠ x.
Proof.
  unfold where_first. destruct (list_find _ a) as [[i y]|] eqn:Hf.
  - apply list_find_Some in Hf as (Hi & -> & Hmin). split.
    + intros [= <-]. done.
    + intros [Hl Hmin']. f_equal.
      destruct (Nat.lt_trichotomy i l) as [Hlt|[->|Hgt]]; [|done|].
      * by destruct (Hmin' _ _ Hi Hlt).
      * by destruct (Hmin _ _ Hl Hgt).
  - split; [done|]. intros [Hl _].
    apply list_find_None in Hf. rewrite Forall_forall in Hf.
    destruct (Hf x); [|done]. apply list_elem_of_lookup. eauto.
Qed.

Lemma where_first_Raise (a : list Z) (x : Z) e :
  where_first a x = Raise e -> e = IndexError ∧ x ∉ a.
Proof.
  unfold where_first. destruct (list_find _ a) as [[i y]|] eqn:Hf; [done|].
  intros [= <-]. split; [done|].
  apply list_find_None in Hf. rewrite Forall_forall in Hf.
  intros Hx. by apply (Hf x).
Qed.

(** On share counts that fit [uint16] the assertion after the subtraction
    fails exactly when the trade takes all that is left of the order: a
    trade that takes more wraps to a positive difference. *)
Lemma uint16_assert_only_zero (limit_volume volume : Z) :
  0 <= limit_volume < 2 ^ 16 -> 0 <= volume < 2 ^ 16 ->
  py_assert (bool_decide (uint16_sub limit_volume volume > 0))
  = if decide (limit_volume = volume) then Raise AssertionError else Ok tt.
Proof.
  intros Hl Hv. unfold uint16_sub. change (2 ^ 16) with 65536 in *.
  destruct (decide (limit_volume = volume)) as [->|Hne].
  - by rewrite Z.sub_diag.
  - rewrite bool_decide_true; [done|].
    destruct (decide (volume <= limit_volume)).
    + rewrite Z.mod_small by lia. lia.
    + replace (limit_volume - volume) with (limit_volume - volume + 65536 + -1 * 65536) by lia.
      rewrite Z.mod_add by lia. rewrite Z.mod_small by lia. lia.
Qed.

Lemma uint16_assert_only_zero_witness :
  py_assert (bool_decide (uint16_sub 100 150 > 0))
  = if decide (100 = 150) then Raise AssertionError else Ok tt.
Proof. apply uint16_assert_only_zero; simpl; lia. Defined.

Section step.

Variables (trade_data_order trade_data_types trade_data_volume : list Z).
Variables (limit_data_types : list Z) (limit_data_price : list Qc).
Variables (m n : nat).
Hypothesis Horder : length trade_data_order = n.
Hypothesis Htypes : length trade_data_types = n.
Hypothesis Hvolume : length trade_data_volume = n.
Hypothesis Hsides : length limit_data_types = m.
Hypothesis Hprices : length limit_data_price = m.

Local Abbreviation step :=
  (match_step trade_data_order trade_data_types trade_data_volume
              limit_data_types limit_data_price).

(** A trade whose order number is in no limit order is passed over. *)
Lemma match_step_miss st (i : nat) order e :
  trade_data_order !! i = Some order ->
  where_first (limit_data_order st) order = Raise e ->
  step st (Z.of_nat i) = Ok st.
Proof.
  intros Ho Hw. apply where_first_Raise in Hw as Hw'. destruct Hw' as [-> _].
  unfold match_step, match_trade. rewrite (getitem_nat _ _ _ Ho).
  cbn [mbind result_bind]. by rewrite Hw.
Qed.

(** A trade matched to the limit order [l] takes its side and its price;
    its volume and what is left of the order depend on its type. *)
Lemma match_step_hit st (i l : nat) order st' :
  shaped m n st ->
  trade_data_order !! i = Some order ->
  where_first (limit_data_order st) order = Ok l ->
  step st (Z.of_nat i) = Ok st' ->
  exists side price tag volume limit_volume,
    limit_data_types !! l = Some side
    ∧ limit_data_price !! l = Some price
    ∧ trade_data_types !! i = Some tag
    ∧ trade_data_volume !! i = Some volume
    ∧ limit_data_volume st !! l = Some limit_volume
    ∧ trade_signs st' = <[i := if bool_decide (side = 1) then 1 else -1]> (trade_signs st)
    ∧ trade_price st' = <[i := price]> (trade_price st)
    ∧ trade_volumes st'
      = <[i := if bool_decide (tag = 4) then limit_volume else volume]>
          (trade_volumes st)
    ∧ (if bool_decide (tag = 4)
       then limit_data_order st' = <[l := 0]> (limit_data_order st)
            ∧ limit_data_volume st' = limit_data_volume st
       else limit_data_order st' = limit_data_order st
            ∧ uint16_sub limit_volume volume > 0
            ∧ limit_data_volume st'
              = <[l := uint16_sub limit_volume volume]> (limit_data_volume st)).
Proof.
  intros (Hlo & Hlv & Hts & Htv & Htp) Ho Hw.
  assert (Hi : (i < n)%nat) by (rewrite <- Horder; by eapply lookup_lt_Some).
  assert (Hl : (l < m)%nat).
  { rewrite <- Hlo. apply where_first_Ok in Hw as [Hw _].
    by eapply lookup_lt_Some. }
  destruct (lookup_lt_is_Some_2 limit_data_types l) as [side Hside]; [lia|].
  destruct (lookup_lt_is_Some_2 limit_data_price l) as [price Hprice]; [lia|].
  destruct (lookup_lt_is_Some_2 trade_data_types i) as [tag Htag]; [lia|].
  destruct (lookup_lt_is_Some_2 trade_data_volume i) as [volume Hvol]; [lia|].
  destruct (lookup_lt_is_Some_2 (limit_data_volume st) l) as [lv Hlvol]; [lia|].
  unfold match_step, match_trade. rewrite (getitem_nat _ _ _ Ho).
  cbn [mbind result_bind]. rewrite Hw. cbn [mbind result_bind]. cbv zeta.
  rewrite (getitem_nat _ _ _ Hprice). cbn [mbind result_bind].
  rewrite (setitem_nat (trade_price st)) by lia. cbn [mbind result_bind].
  rewrite (getitem_nat _ _ _ Hside). cbn [mbind result_bind].
  rewrite (setitem_nat (trade_signs st)) by lia. cbn [mbind result_bind].
  rewrite (getitem_nat _ _ _ Htag). cbn [mbind result_bind].
  rewrite (getitem_nat _ _ _ Hlvol), (getitem_nat _ _ _ Hvol).
  cbn [mbind result_bind].
  rewrite !(setitem_nat (trade_volumes st)) by lia.
  rewrite (setitem_nat (limit_data_order st)) by lia.
  cbn [mbind result_bind]. cbv zeta.
  rewrite (setitem_nat (limit_data_volume st)) by lia.
  unfold py_assert.
  intros Hstep. exists side, price, tag, volume, lv.
  do 5 (split; [done|]).
  destruct (bool_decide (tag = 4)).
  - simpl in Hstep. injection Hstep as <-. simpl. done.
  - destruct (bool_decide (uint16_sub lv volume > 0)) eqn:Hpos;
      [|by simpl in Hstep].
    apply bool_decide_eq_true in Hpos. simpl in Hstep.
    injection Hstep as <-. simpl. done.
Qed.

(** A turn of the loop keeps the lengths and writes the slot [i] of the
    three trade arrays only. *)
Lemma match_step_frame st (i : nat) st' :
  shaped m n st -> (i < n)%nat ->
  step st (Z.of_nat i) = Ok st' ->
  shaped m n st'
  ∧ forall j, j ≠ i ->
      trade_signs st' !! j = trade_signs st !! j
      ∧ trade_volumes st' !! j = trade_volumes st !! j
      ∧ trade_price st' !! j = trade_price st !! j.
Proof.
  intros Hsh Hi Hstep.
  destruct (lookup_lt_is_Some_2 trade_data_order i) as [order Ho]; [lia|].
  destruct (where_first (limit_data_order st) order) as [l|e] eqn:Hw.
  - destruct (match_step_hit st i l order st' Hsh Ho Hw Hstep)
      as (side & price & tag & volume & lv & _ & _ & _ & _ & _
          & Hs & Hp & Hv & Hrest).
    destruct Hsh as (Hlo & Hlv & Hts & Htv & Htp).
    split.
    + unfold shaped. rewrite Hs, Hp, Hv, !length_insert.
      destruct (bool_decide (tag = 4)).
      * destruct Hrest as [-> ->]. by rewrite length_insert.
      * destruct Hrest as (-> & _ & ->). by rewrite length_insert.
    + intros j Hj. rewrite Hs, Hp, Hv.
      by rewrite !list_lookup_insert_ne by done.
  - rewrite (match_step_miss st i order e Ho Hw) in Hstep.
    injection Hstep as <-. done.
Qed.

Lemma for_each_frame (l : list nat) st st' :
  shaped m n st -> Forall (fun i => i < n)%nat l ->
  for_each step (map Z.of_nat l) st = Ok st' ->
  shaped m n st'
  ∧ forall j, j ∉ l ->
      trade_signs st' !! j = trade_signs st !! j
      ∧ trade_volumes st' !! j = trade_volumes st !! j
      ∧ trade_price st' !! j = trade_price st !! j.
Proof.
  revert st. induction l as [|i l IH]; intros st Hsh Hl.
  - intros [= <-]. done.
  - apply Forall_cons in Hl as [Hi Hl]. cbn [List.map for_each].
    intros (st1 & H1 & H2)%bind_Ok.
    destruct (match_step_frame st i st1 Hsh Hi H1) as [Hsh1 Hf1].
    destruct (IH st1 Hsh1 Hl H2) as [Hsh' Hf']. split; [done|].
    intros j [Hji Hjl]%not_elem_of_cons.
    destruct (Hf' j Hjl) as (-> & -> & ->). by apply Hf1.
Qed.

End step.

Lemma for_each_app {A St} (body : St -> A -> result St) l1 l2 st :
  for_each body (l1 ++ l2) st = for_each body l1 st ≫= for_each body l2.
Proof.
  revert st. induction l1 as [|x l1 IH]; intros st; [done|].
  simpl. destruct (body st x) as [st1|e]; [apply IH|done].
Qed.

(** Rows picked by a mask computed from the rows themselves. *)
Lemma select_map_filter {A} (f : A -> bool) (l : list A) :
  select (map f l) l = filter (fun x => f x = true) l.
Proof.
  induction l as [|x l IH]; [done|]. simpl. rewrite filter_cons, IH.
  destruct (f x); [by rewrite decide_True|by rewrite decide_False].
Qed.

Lemma select_map_length {A B} (f : A -> bool) (g : A -> B) (l : list A) :
  select (map f l) (map g l) = map g (select (map f l) l).
Proof. induction l as [|x l IH]; [done|]. simpl. destruct (f x); simpl; congruence. Qed.

Lemma trade_rows_types data r :
  r ∈ trade_rows data -> T r = "E" ∨ T r = "F" ∨ T r = "T".
Proof.
  unfold trade_rows. rewrite select_map_filter.
  intros [H _]%list_elem_of_filter. unfold is_type in H.
  repeat case_bool_decide; naive_solver.
Qed.

Lemma limit_rows_types data trade_data r :
  r ∈ limit_rows data trade_data -> T r = "B" ∨ T r = "S".
Proof.
  unfold limit_rows. rewrite !select_map_filter.
  intros [_ [H _]%list_elem_of_filter]%list_elem_of_filter.
  unfold is_type in H. repeat case_bool_decide; naive_solver.
Qed.

Lemma side_tags_lookup limit_data (l : nat) r :
  limit_data !! l = Some r -> (T r = "B" ∨ T r = "S") ->
  side_tags limit_data !! l = Some (if decide (T r = "S") then 1 else -1).
Proof.
  intros Hl HT. unfold side_tags. rewrite list_lookup_fmap, Hl. simpl.
  unfold is_type. f_equal. destruct HT as [HT|HT]; rewrite HT.
  - rewrite bool_decide_false, bool_decide_true by done. by rewrite decide_False.
  - rewrite bool_decide_true, bool_decide_false by done. by rewrite decide_True.
Qed.

End Attribution.

Module AttributionRun.
Import Py PyFacts Itch Attribution.

Section run.

Variable data : list row.

Local Abbreviation trade_data := (trade_rows data).
Local Abbreviation limit_data := (limit_rows data trade_data).
Local Abbreviation n := (length trade_data).
Local Abbreviation m := (length limit_data).
Local Abbreviation step :=
  (match_step (map Order trade_data) (type_tags trade_data)
              (map Shares trade_data) (side_tags limit_data)
              (map Price limit_data)).

Lemma initial_shaped : shaped m n (initial_arrays trade_data limit_data).
Proof.
  unfold shaped, initial_arrays. simpl.
  by rewrite !length_map, !length_replicate.
Qed.

Lemma matched_upto_nat (k : nat) :
  matched_upto data (Z.of_nat k)
  = for_each step (map Z.of_nat (seq 0 k))
             (initial_arrays trade_data limit_data).
Proof. unfold matched_upto. by rewrite range_nat. Qed.

Lemma step_frame st (i : nat) st' :
  shaped m n st -> (i < n)%nat -> step st (Z.of_nat i) = Ok st' ->
  shaped m n st'
  ∧ forall j, j ≠ i ->
      trade_signs st' !! j = trade_signs st !! j
      ∧ trade_volumes st' !! j = trade_volumes st !! j
      ∧ trade_price st' !! j = trade_price st !! j.
Proof.
  apply match_step_frame; unfold type_tags, side_tags; by rewrite length_map.
Qed.

Lemma run_frame (l : list nat) st st' :
  shaped m n st -> Forall (fun i => i < n)%nat l ->
  for_each step (map Z.of_nat l) st = Ok st' ->
  shaped m n st'
  ∧ forall j, j ∉ l ->
      trade_signs st' !! j = trade_signs st !! j
      ∧ trade_volumes st' !! j = trade_volumes st !! j
      ∧ trade_price st' !! j = trade_price st !! j.
Proof.
  apply for_each_frame; unfold type_tags, side_tags; by rewrite length_map.
Qed.

(** The state the loop ends in, seen from the trade [i]: the state at its
    turn, where its three slots still hold the initial zeros, and the state
    its turn leaves, whose slots [i] are final. *)
Lemma matched_upto_at st (i : nat) :
  matched_upto data (Z.of_nat n) = Ok st -> (i < n)%nat ->
  exists before after,
    matched_upto data (Z.of_nat i) = Ok before
    ∧ shaped m n before
    ∧ step before (Z.of_nat i) = Ok after
    ∧ shaped m n st
    ∧ trade_signs before !! i = Some 0
    ∧ trade_volumes before !! i = Some 0
    ∧ trade_price before !! i = Some 0%Qc
    ∧ trade_signs st !! i = trade_signs after !! i
    ∧ trade_volumes st !! i = trade_volumes after !! i
    ∧ trade_price st !! i = trade_price after !! i.
Proof.
  intros Hrun Hi. rewrite matched_upto_nat in Hrun.
  assert (seq 0 n = seq 0 i ++ i :: seq (i + 1) (n - i - 1)) as Hseq.
  { replace n with (i + (1 + (n - i - 1)))%nat at 1 by lia.
    rewrite !seq_app. simpl. do 3 f_equal; lia. }
  rewrite Hseq, map_app, for_each_app in Hrun.
  apply bind_Ok in Hrun as (before & Hbefore & Hrun).
  cbn [List.map for_each] in Hrun.
  apply bind_Ok in Hrun as (after & Hstep & Hrest).
  destruct (run_frame (seq 0 i) _ before initial_shaped) as [Hsh Hf];
    [apply Forall_forall; intros j Hj%elem_of_seq; lia|done|].
  destruct (step_frame before i after Hsh Hi Hstep) as [Hsh' _].
  destruct (run_frame (seq (i + 1) (n - i - 1)) after st Hsh') as [Hsh'' Hf''];
    [apply Forall_forall; intros j Hj%elem_of_seq; lia|done|].
  exists before, after. rewrite matched_upto_nat.
  destruct (Hf i) as (-> & -> & ->); [intros Hj%elem_of_seq; lia|].
  destruct (Hf'' i) as (-> & -> & ->); [intros Hj%elem_of_seq; lia|].
  unfold initial_arrays. simpl.
  rewrite !lookup_replicate_2 by done. done.
Qed.

(** The [assert] after the loop compares the lengths of two masks, which
    are both the number of trades. *)
Lemma match_pass_matched_upto :
  match_pass data = matched_upto data (Z.of_nat n).
Proof.
  unfold match_pass. destruct (matched_upto data (Z.of_nat n)) as [st|e] eqn:Hrun;
    [|done].
  cbn [mbind result_bind]. rewrite matched_upto_nat in Hrun.
  destruct (run_frame (seq 0 n) _ st initial_shaped) as [Hsh _];
    [apply Forall_forall; intros j Hj%elem_of_seq; lia|done|].
  destruct Hsh as (_ & _ & Hts & _). unfold type_tags.
  rewrite !length_map, Hts. by rewrite bool_decide_true.
Qed.

End run.
End AttributionRun.

Module AttributionClaims.
Import Py PyFacts Itch Attribution AttributionRun.

Lemma select_lookup_kept {A} (f : Z -> bool) (times : list Z) (l : list A)
    (i : nat) t x :
  times !! i = Some t -> f t = true -> l !! i = Some x ->
  select (map f times) l
    !! length (filter (fun t => f t = true) (take i times)) = Some x.
Proof.
  revert l i. induction times as [|t0 times IH]; intros [|x0 l] [|i]; try done.
  - simpl. intros [= ->] -> [= ->]. done.
  - simpl. intros Ht Hf Hx. rewrite filter_cons.
    destruct (f t0) eqn:Ht0.
    + rewrite decide_True by done. simpl. by apply IH.
    + rewrite decide_False by done. by apply IH.
Qed.

Lemma assign_where_keep {A} (mask : list bool) (src l : list A) (i : nat) :
  mask !! i = Some false -> assign_where mask src l !! i = l !! i.
Proof.
  revert src l i. induction mask as [|b mask IH]; intros [|s src] [|x l] [|i];
    try done.
  - simpl. by intros [= ->].
  - simpl. apply IH.
Qed.

Lemma times_one (times : list Z) : map (fun t => 1 * t) times = times.
Proof. induction times as [|t times IH]; simpl; [done|]. rewrite IH. f_equal. lia. Qed.

Lemma type_tag_visible (trade_data : list row) (i : nat) t :
  trade_data !! i = Some t -> T t ≠ "T" ->
  map (fun tag => bool_decide (tag = 5)) (type_tags trade_data) !! i
  = Some false.
Proof.
  intros Ht Hv. unfold type_tags. rewrite !list_lookup_fmap, Ht. simpl.
  f_equal. apply bool_decide_false. unfold is_type.
  rewrite (bool_decide_false (T t = "T")) by done.
  repeat case_bool_decide; simpl; lia.
Qed.

(** What [itch_trade_classification_data] returns, from the state of the
    arrays after the loop. *)
Lemma classification_data_returns raw times signs volumes prices :
  itch_trade_classification_data raw = Ok (times, signs, volumes, prices) ->
  let data := scale_prices raw in
  let trade_data := trade_rows data in
  let session := map market_time (map Time trade_data) in
  let hidden_pos := map (fun t => bool_decide (t = 5)) (type_tags trade_data) in
  exists st,
    match_pass data = Ok st
    ∧ times = select session (map Time trade_data)
    ∧ signs = select session (trade_signs st)
    ∧ volumes = select session
                  (assign_where hidden_pos (map Shares trade_data)
                                (trade_volumes st))
    ∧ prices = select session
                 (assign_where hidden_pos (map Price trade_data)
                               (trade_price st)).
Proof.
  unfold itch_trade_classification_data. cbv zeta.
  intros (st & Hst & H)%bind_Ok. exists st. split; [done|].
  rewrite times_one in H. by simplify_eq.
Qed.

(** C3, as amended: a trade matched to a limit order at its turn has the
    side of that order, +1 for a sell order and −1 for a buy order, whatever
    its type; a trade matched to none keeps the initial sign 0, a hidden
    trade like any other. *)
Theorem attributed_sign raw times signs volumes prices :
  itch_trade_classification_data raw = Ok (times, signs, volumes, prices) ->
  let data := scale_prices raw in
  exists st,
    match_pass data = Ok st
    ∧ signs = select (map market_time (map Time (trade_rows data)))
                     (trade_signs st)
    ∧ forall (i : nat) t,
        trade_rows data !! i = Some t ->
        match matched_entry data i with
        | Ok l =>
            exists r,
              limit_rows data (trade_rows data) !! l = Some r
              ∧ (T r = "B" ∨ T r = "S")
              ∧ trade_signs st !! i
                = Some (if decide (T r = "S") then 1 else -1)
        | Raise _ => trade_signs st !! i = Some 0
        end.
Proof.
  intros (st & Hst & _ & -> & _)%classification_data_returns data.
  exists st. do 2 (split; [done|]). intros i t Ht.
  rewrite match_pass_matched_upto in Hst.
  assert (Hi : (i < length (trade_rows data))%nat) by (by eapply lookup_lt_Some).
  destruct (matched_upto_at data st i Hst Hi)
    as (before & after & Hb & Hsh & Hstep & _ & Hs0 & _ & _ & Hs & _ & _).
  assert (Ho : map Order (trade_rows data) !! i = Some (Order t))
    by (by rewrite list_lookup_fmap, Ht).
  unfold matched_entry. rewrite Hb. cbn [mbind result_bind].
  rewrite (getitem_nat _ _ _ Ho). cbn [mbind result_bind].
  destruct (where_first (limit_data_order before) (Order t)) as [l|e] eqn:Hw.
  - eapply match_step_hit in Hstep
      as (side & price & tag & volume & lv & Hside & _ & _ & _ & _ & Hsig & _);
      [|unfold type_tags, side_tags; by rewrite ?length_map..|done|done|done].
    unfold side_tags in Hside. rewrite list_lookup_fmap in Hside.
    destruct (limit_rows data (trade_rows data) !! l) as [r|] eqn:Hr; [|done].
    assert (HT : T r = "B" ∨ T r = "S").
    { eapply limit_rows_types. apply list_elem_of_lookup. eauto. }
    exists r. do 2 (split; [done|]).
    rewrite Hs, Hsig. rewrite list_lookup_insert_eq
      by (destruct Hsh as (_ & _ & -> & _); done).
    f_equal. simpl in Hside. injection Hside as <-. unfold is_type.
    destruct HT as [HT|HT]; rewrite HT; by vm_compute.
  - rewrite (match_step_miss _ _ _ _ _ _ i (Order t) e Ho Hw) in Hstep.
    injection Hstep as <-. by rewrite Hs.
Qed.

Lemma attributed_sign_witness :
  let data := scale_prices Sample.day in
  exists st,
    match_pass data = Ok st
    ∧ [1; -1; 0; 0] = select (map market_time (map Time (trade_rows data)))
                            (trade_signs st)
    ∧ forall (i : nat) t,
        trade_rows data !! i = Some t ->
        match matched_entry data i with
        | Ok l =>
            exists r,
              limit_rows data (trade_rows data) !! l = Some r
              ∧ (T r = "B" ∨ T r = "S")
              ∧ trade_signs st !! i
                = Some (if decide (T r = "S") then 1 else -1)
        | Raise _ => trade_signs st !! i = Some 0
        end.
Proof.
  apply (attributed_sign Sample.day
           [36000001; 36000002; 36000003; 36000004] [1; -1; 0; 0]
           [40; 200; 50; 0]
           [(Qc_of_Z 1000000 / Qc_of_Z 10000)%Qc;
            (Qc_of_Z 999900 / Qc_of_Z 10000)%Qc;
            (Qc_of_Z 1001000 / Qc_of_Z 10000)%Qc; 0%Qc]).
  vm_compute. reflexivity.
Defined.

(** C3 as stated fails for the hidden trades: one matched to no limit order
    has sign 0, which is no trade sign, and the sign of one and the same
    hidden trade changes with the limit orders around it, so it is no label
    the trade carries. *)
Lemma hidden_sign_counterexample :
  (¬ exists label : row -> Z,
       (forall r, label r = 1 ∨ label r = -1)
       ∧ forall st, match_pass Sample.lone_hidden = Ok st ->
                    trade_signs st !! 0%nat = Some (label Sample.hidden_trade))
  ∧ (¬ exists label : row -> Z,
         (forall st, match_pass Sample.lone_hidden = Ok st ->
                     trade_signs st !! 0%nat = Some (label Sample.hidden_trade))
         ∧ (forall st, match_pass Sample.hidden_after_sell = Ok st ->
                       trade_signs st !! 0%nat
                       = Some (label Sample.hidden_trade))).
Proof.
  split.
  - intros (label & Hrange & Hlone).
    specialize (Hlone _ eq_refl). vm_compute in Hlone.
    injection Hlone as Hlone.
    destruct (Hrange Sample.hidden_trade) as [H|H]; vm_compute in H; congruence.
  - intros (label & Hlone & Hsell).
    specialize (Hlone _ eq_refl). specialize (Hsell _ eq_refl).
    vm_compute in Hlone, Hsell. congruence.
Qed.

(** C10, as amended: a visible trade whose order number is in no limit
    order at its turn, and whose time is in the session, is in the returned
    arrays, after the trades in the session before it, with sign 0,
    volume 0 and price 0. *)
Theorem unmatched_visible_trade raw times signs volumes prices (i : nat) t :
  itch_trade_classification_data raw = Ok (times, signs, volumes, prices) ->
  let data := scale_prices raw in
  trade_rows data !! i = Some t ->
  is_type "T" t = false ->
  matched_entry data i = Raise IndexError ->
  market_time (Time t) = true ->
  let j := session_index (map Time (trade_rows data)) i in
  times !! j = Some (Time t) ∧ signs !! j = Some 0
  ∧ volumes !! j = Some 0 ∧ prices !! j = Some 0%Qc.
Proof.
  intros (st & Hst & -> & -> & -> & ->)%classification_data_returns
         data Ht Hvis Hmiss Hsession j.
  rewrite match_pass_matched_upto in Hst.
  assert (Hi : (i < length (trade_rows data))%nat) by (by eapply lookup_lt_Some).
  destruct (matched_upto_at data st i Hst Hi)
    as (before & after & Hb & Hsh & Hstep & _ & Hs0 & Hv0 & Hp0 & Hs & Hv & Hp).
  assert (Ho : map Order (trade_rows data) !! i = Some (Order t))
    by (by rewrite list_lookup_fmap, Ht).
  unfold matched_entry in Hmiss. rewrite Hb in Hmiss.
  cbn [mbind result_bind] in Hmiss.
  rewrite (getitem_nat _ _ _ Ho) in Hmiss. cbn [mbind result_bind] in Hmiss.
  rewrite (match_step_miss _ _ _ _ _ _ i (Order t) _ Ho Hmiss) in Hstep.
  injection Hstep as <-. rewrite Hs0 in Hs. rewrite Hv0 in Hv. rewrite Hp0 in Hp.
  assert (Htime : map Time (trade_rows data) !! i = Some (Time t))
    by (by rewrite list_lookup_fmap, Ht).
  assert (Hhid : map (fun tag => bool_decide (tag = 5))
                     (type_tags (trade_rows data)) !! i = Some false).
  { apply (type_tag_visible _ _ t Ht). intros HT.
    unfold is_type in Hvis. by rewrite bool_decide_true in Hvis. }
  subst j. unfold session_index.
  repeat split; apply (select_lookup_kept market_time _ _ i (Time t));
    try done; by rewrite assign_where_keep.
Qed.

Lemma unmatched_visible_trade_witness :
  let times := [36000001; 36000002; 36000003; 36000004] in
  let j := session_index (map Time (trade_rows (scale_prices Sample.day))) 3 in
  times !! j = Some 36000004 ∧ [1; -1; 0; 0] !! j = Some 0
  ∧ [40; 200; 50; 0] !! j = Some 0
  ∧ [(Qc_of_Z 1000000 / Qc_of_Z 10000)%Qc;
     (Qc_of_Z 999900 / Qc_of_Z 10000)%Qc;
     (Qc_of_Z 1001000 / Qc_of_Z 10000)%Qc; 0%Qc] !! j = Some 0%Qc.
Proof.
  apply (unmatched_visible_trade Sample.day
           [36000001; 36000002; 36000003; 36000004] [1; -1; 0; 0]
           [40; 200; 50; 0]
           [(Qc_of_Z 1000000 / Qc_of_Z 10000)%Qc;
            (Qc_of_Z 999900 / Qc_of_Z 10000)%Qc;
            (Qc_of_Z 1001000 / Qc_of_Z 10000)%Qc; 0%Qc]
           3 (Row 36000004 9 "E" 10 (0 / Qc_of_Z 10000)%Qc)).
  - vm_compute. reflexivity.
  - reflexivity.
  - reflexivity.
  - reflexivity.
  - reflexivity.
Defined.

(** C10 as stated fails outside the session: the visible trade at midnight
    is matched to no limit order and is in none of the returned arrays. *)
Lemma unmatched_visible_trade_counterexample :
  trade_rows (scale_prices Sample.lone_visible_midnight) !! 0%nat
  = Some (Row 0 7 "E" 100 (Qc_of_Z 1000000 / Qc_of_Z 10000)%Qc)
  ∧ matched_entry (scale_prices Sample.lone_visible_midnight) 0 = Raise IndexError
  ∧ itch_trade_classification_data Sample.lone_visible_midnight
    = Ok ([], [], [], []).
Proof. repeat split; vm_compute; reflexivity. Qed.

(** C2: the [assert] after the loop holds whatever the signs are, so the
    match pass is the loop alone; with one visible trade against no limit
    order it passes with no non-zero sign and one trade that is not
    hidden. *)
Theorem sign_count_not_asserted :
  (forall data,
     match_pass data
     = matched_upto data (Z.of_nat (length (trade_rows data))))
  ∧ exists st,
      match_pass (scale_prices Sample.lone_visible) = Ok st
      ∧ length (filter (fun s => s ≠ 0) (trade_signs st)) = 0%nat
      ∧ length (filter (fun tag => tag ≠ 5)
                       (type_tags (trade_rows (scale_prices Sample.lone_visible))))
        = 1%nat.
Proof.
  split; [apply match_pass_matched_upto|].
  eexists. split; [vm_compute; reflexivity|]. split; reflexivity.
Qed.

(** C4: a trade of 150 shares against an order with 100 left does not
    abort: the [uint16] difference wraps to 65486, which is positive, and
    is stored as what is left of the order. *)
Theorem negative_remainder_not_caught :
  exists st,
    match_pass (scale_prices Sample.oversold) = Ok st
    ∧ trade_volumes st = [150]
    ∧ limit_data_volume st = [65486]
    ∧ 100 - 150 <= 0.
Proof.
  eexists. split; [vm_compute; reflexivity|]. repeat split. lia.
Qed.

End AttributionClaims.

Module Witnesses.
Import Py IO Taq TaqSpec Itch TaqEntry Scores.

Lemma year_response_witness :
  outcome (taq_self_response_year_time_short_long_tau_data
             Sample.midpoint_file Sample.trade_signs_file Sample.bussiness_days
             "AAPL" "2008" 2 1)
  = Ok (year_average (Z.to_nat 2)
          (fun date =>
             taq_self_response_day_time_short_long_tau_data
               Sample.midpoint_file Sample.trade_signs_file "AAPL" date 2 1)
          (Sample.bussiness_days "2008"))
  ∧ outcome (taq_cross_response_year_time_short_long_tau_data
               Sample.midpoint_file Sample.trade_signs_file
               Sample.bussiness_days "AAPL" "MSFT" "2008" 2 1)
    = Ok (Some (year_average (Z.to_nat 2)
                  (fun date =>
                     taq_cross_response_day_time_short_long_tau_data
                       Sample.midpoint_file Sample.trade_signs_file
                       "AAPL" "MSFT" date 2 1)
                  (Sample.bussiness_days "2008"))).
Proof.
  destruct (year_response Sample.midpoint_file Sample.trade_signs_file
              Sample.bussiness_days "AAPL" "MSFT" "2008" 2 1)
    as [Hself Hcross].
  - lia.
  - split.
    + apply Hself. vm_compute. reflexivity.
    + apply Hcross.
      * discriminate.
      * vm_compute. reflexivity.
Defined.

Lemma cross_response_dispatch_witness :
  (taq_cross_response_day_time_short_long_tau_data
     Sample.midpoint_file Sample.trade_signs_file "AAPL" "AAPL" "2008-01-02" 2 1
   = Io [] (Ok None)
   ∧ taq_cross_response_year_time_short_long_tau_data
       Sample.midpoint_file Sample.trade_signs_file Sample.bussiness_days
       "AAPL" "AAPL" "2008" 2 1
     = Io [] (Ok None))
  ∧ (let days :=
       for_each_io
         (year_step
            (fun date =>
               taq_cross_response_day_time_short_long_tau_data
                 Sample.midpoint_file Sample.trade_signs_file
                 "AAPL" "MSFT" date 2 1))
         (Sample.bussiness_days "2008") (replicate 2 0%Qc, []) in
     let quotient :=
       st ← outcome days; divide st.1 (sum_axis0 st.2) in
     outcome (taq_cross_response_year_time_short_long_tau_data
                Sample.midpoint_file Sample.trade_signs_file
                Sample.bussiness_days "AAPL" "MSFT" "2008" 2 1)
     = (r ← quotient; Ok (Some r))
     ∧ trace (taq_cross_response_year_time_short_long_tau_data
                Sample.midpoint_file Sample.trade_signs_file
                Sample.bussiness_days "AAPL" "MSFT" "2008" 2 1)
       = HeaderPrint "taq_cross_response_year_time_short_long_tau_data"
                     "AAPL" "MSFT" "2008" "" ""
         :: trace days
         ++ match quotient with
            | Ok r =>
                [Save (save_name
                         "taq_cross_response_year_time_short_long_tau_data"
                         2 1)
                      r "AAPL" "MSFT" "2008" "" ""]
            | Raise _ => []
            end).
Proof.
  split.
  - destruct (cross_response_dispatch
                Sample.midpoint_file Sample.trade_signs_file
                Sample.bussiness_days "AAPL" "AAPL" "2008-01-02"
                "2008" "01" "02" "2008" [] 2 1)
      as [Hsame _].
    + reflexivity.
    + apply Hsame. reflexivity.
  - destruct (cross_response_dispatch
                Sample.midpoint_file Sample.trade_signs_file
                Sample.bussiness_days "AAPL" "MSFT" "2008-01-02"
                "2008" "01" "02" "2008" [] 2 1)
      as [_ Hdistinct].
    + reflexivity.
    + destruct Hdistinct as (_ & _ & _ & _ & Hyear); [discriminate|].
      apply Hyear. reflexivity.
Defined.

Lemma accuracy_scores_witness :
  exists s,
    main_day Sample.times_signs Sample.trade_signs
             (replicate (length Sample.trade_signs) 100)
             Sample.price_signs = Ok s
    ∧ ((0 ≤ accuracy_trades s ≤ 1)%Qc
       ∧ (0 ≤ accuracy_physical_eq2 s ≤ 1)%Qc
       ∧ (0 ≤ accuracy_physical_eq3 s ≤ 1)%Qc)
    ∧ accuracy_trades s = 1%Qc
    ∧ accuracy_physical_eq2 s = 1%Qc
    ∧ accuracy_physical_eq3 s = 1%Qc.
Proof.
  pose (r := main_day Sample.times_signs Sample.trade_signs
                      (replicate (length Sample.trade_signs) 100)
                      Sample.price_signs).
  assert (Hr : main_day Sample.times_signs Sample.trade_signs
                        (replicate (length Sample.trade_signs) 100)
                        Sample.price_signs = r)
    by reflexivity.
  vm_compute in r.
  match eval unfold r in r with
  | Ok ?s0 =>
      exists s0; split; [exact Hr|];
      destruct (accuracy_scores _ _ _ _ s0 Hr) as (Hrange & Hsame & _)
  end.
  - reflexivity.
  - reflexivity.
  - split; [exact Hrange|].
    destruct Hsame as (Ht & H2 & H3); [vm_compute; reflexivity|].
    split; [exact Ht|]. split; [exact H2|].
    apply H3. exists 100. split; [lia|reflexivity].
Defined.

End Witnesses.

(** * Further properties of the two modules *)

Module TaqLags.
Import Py IO PyFacts NpFacts Taq TaqSpec TaqFacts TaqDay TaqShape TaqYear TaqEntry.
Local Open Scope Qc_scope.

(** X1: the two arrays a day returns have one slot per lag. *)
Theorem day_arrays_length (P S : list Qc) (tau tau_p : Z) (R N : list Qc) :
  day_time_short_long_tau P S tau tau_p = Ok (R, N) ->
  length R = Z.to_nat tau ∧ length N = Z.to_nat tau.
Proof. apply day_length. Qed.

Lemma day_arrays_length_witness :
  exists R N,
    day_time_short_long_tau (map Qc_of_Z [1; 2; 3; 4; 5]%Z)
                            (map Qc_of_Z [1; 1; 0; 0; 0]%Z) 3 1 = Ok (R, N)
    ∧ length R = Z.to_nat 3 ∧ length N = Z.to_nat 3.
Proof.
  pose (r := day_time_short_long_tau (map Qc_of_Z [1; 2; 3; 4; 5]%Z)
                                     (map Qc_of_Z [1; 1; 0; 0; 0]%Z) 3 1).
  assert (Hr : day_time_short_long_tau (map Qc_of_Z [1; 2; 3; 4; 5]%Z)
                 (map Qc_of_Z [1; 1; 0; 0; 0]%Z) 3 1 = r) by reflexivity.
  vm_compute in r.
  match eval unfold r in r with
  | Ok (?R0, ?N0) =>
      exists R0, N0; split; [exact Hr|];
      exact (day_arrays_length _ _ _ _ R0 N0 Hr)
  end.
Defined.

(** X2: at every lag up to the cutoff, the cutoff included, the day returns the
    short-lag product and the short-lag count. *)
Theorem short_lag_slots (P S : list Qc) (tau tau_p t : nat) :
  length P = length S -> (0 < tau_p < tau)%nat -> (t <= tau_p)%nat ->
  exists R N,
    day_time_short_long_tau P S (Z.of_nat tau) (Z.of_nat tau_p) = Ok (R, N)
    ∧ R !! t = Some (short_product P S tau_p)
    ∧ N !! t = Some (Qc_of_Z (short_count S tau_p)).
Proof.
  intros Hlen [Hp Hpt] Ht.
  rewrite (day_code P S tau tau_p Hlen Hp Hpt).
  set (out := foldl _ _ _). exists out.1, out.2. split; [by destruct out|].
  subst out.
  assert (seq 0 tau = seq 0 (tau_p + 1) ++ seq (tau_p + 1) (tau - (tau_p + 1)))
    as ->.
  { replace tau with ((tau_p + 1) + (tau - (tau_p + 1)))%nat at 1 by lia.
    by rewrite seq_app. }
  rewrite foldl_app.
  rewrite (loop_short_only P S tau_p (seq 0 (tau_p + 1)))
    by (apply Forall_forall; intros i Hi%elem_of_seq; lia).
  destruct (loop_other P S tau_p (seq (tau_p + 1) (tau - (tau_p + 1)))
              (short_fill P S tau tau_p) t) as [-> ->].
  { intros Hin%elem_of_seq. lia. }
  unfold short_fill. simpl. split.
  - destruct (decide _) as [H0|Hn0].
    + rewrite short_product_no_sign by done. apply lookup_replicate_2. lia.
    + rewrite lookup_app_l by (rewrite length_replicate; lia).
      rewrite short_product_sum. apply lookup_replicate_2. lia.
  - rewrite lookup_app_l by (rewrite length_replicate; lia).
    apply lookup_replicate_2. lia.
Qed.

Lemma short_lag_slots_witness :
  exists R N,
    day_time_short_long_tau (map Qc_of_Z [1; 2; 3; 4; 5]%Z)
                            (map Qc_of_Z [1; 1; 0; 0; 0]%Z) 3 1 = Ok (R, N)
    ∧ R !! 1%nat = Some (short_product (map Qc_of_Z [1; 2; 3; 4; 5]%Z)
                                       (map Qc_of_Z [1; 1; 0; 0; 0]%Z) 1)
    ∧ N !! 1%nat = Some (Qc_of_Z (short_count (map Qc_of_Z [1; 1; 0; 0; 0]%Z) 1)).
Proof.
  apply (short_lag_slots (map Qc_of_Z [1; 2; 3; 4; 5]%Z)
                         (map Qc_of_Z [1; 1; 0; 0; 0]%Z) 3 1 1).
  - reflexivity.
  - lia.
  - lia.
Defined.

(** X3: a cutoff that is not below the number of lags, or a negative number of
    lags, is a [ValueError]: the short-lag count does not fit the slots. *)
Theorem cutoff_not_below_lags (P S : list Qc) (tau tau_p : Z) :
  length P = length S ->
  (tau < 0 ∨ (tau <= tau_p ∧ 1 <= tau_p))%Z ->
  day_time_short_long_tau P S tau tau_p = Raise ValueError.
Proof.
  intros Hlen Hbad. unfold day_time_short_long_tau.
  rewrite (bool_decide_true (length P = length S)) by done.
  cbn [py_assert mbind result_bind]. unfold Np.zeros.
  destruct (decide (tau < 0)%Z) as [Hneg|Hpos].
  { by rewrite (bool_decide_true (tau < 0)%Z) by done. }
  destruct Hbad as [?|[Hle Hp]]; [lia|].
  rewrite (bool_decide_false (tau < 0)%Z) by done. cbn [mbind result_bind].
  unfold Np.ones. rewrite (bool_decide_false (tau_p + 1 < 0)%Z) by lia.
  cbn [mbind result_bind].
  unfold Np.assign_prefix, Np.scale.
  rewrite length_map, !length_replicate.
  assert (clip (Z.to_nat tau) (tau_p + 1) = Z.to_nat tau) as ->.
  { unfold clip. rewrite (bool_decide_false (tau_p + 1 < 0)%Z) by lia. lia. }
  rewrite (bool_decide_false (Z.to_nat (tau_p + 1) = Z.to_nat tau)) by lia.
  replace (Z.to_nat (tau_p + 1)) with (Datatypes.S (Datatypes.S (Z.to_nat (tau_p - 1))))
    by lia.
  done.
Qed.

Lemma cutoff_not_below_lags_witness :
  day_time_short_long_tau (map Qc_of_Z [1; 2; 4]%Z) (map Qc_of_Z [1; 0; 1]%Z) 2 2
  = Raise ValueError.
Proof.
  apply cutoff_not_below_lags; [reflexivity|right; lia].
Defined.

(** X4: a cutoff of 0 is rejected when the series have two elements or more:
    the slice [[:-0]] is empty, and the prices cannot be subtracted from
    it. *)
Theorem zero_cutoff_rejected (P S : list Qc) (tau : Z) :
  length P = length S -> (2 <= length P)%nat -> (0 <= tau)%Z ->
  day_time_short_long_tau P S tau 0 = Raise ValueError.
Proof.
  intros Hlen HP Htau. unfold day_time_short_long_tau.
  rewrite (bool_decide_true (length P = length S)) by done.
  cbn [py_assert mbind result_bind].
  rewrite <- (Z2Nat.id tau) by done. rewrite zeros_nat.
  cbn [mbind result_bind].
  change (0 + 1)%Z with (Z.of_nat 1). rewrite ones_nat.
  cbn [mbind result_bind]. change (- 0)%Z with (Z.of_nat 0).
  assert (Hs : forall l : list Qc, slice None (Some (Z.of_nat 0)) l = []).
  { intros l. unfold slice. simpl. rewrite clip_nat. simpl. by rewrite take_0. }
  rewrite !Hs.
  assert (Hf : slice (Some 0%Z) None P = P) by apply (slice_from P 0).
  rewrite Hf.
  assert (Hn : exists num, Np.assign_prefix (Z.of_nat 1)
                 (Np.scale (Qc_of_Z (Np.count_nonzero [])) (replicate 1 1))
                 (replicate (Z.to_nat tau) 0) = Ok num).
  { unfold Np.assign_prefix. simpl length. case_bool_decide; eauto. }
  destruct Hn as [num ->]. cbn [mbind result_bind].
  unfold Np.sub, Np.broadcast2.
  rewrite (bool_decide_false (length P = length [])) by (simpl; lia).
  destruct P as [|p [|p' P]]; simpl in HP; try lia. done.
Qed.

Lemma zero_cutoff_rejected_witness :
  day_time_short_long_tau (map Qc_of_Z [1; 2; 4]%Z) (map Qc_of_Z [1; 0; 1]%Z) 2 0
  = Raise ValueError.
Proof.
  apply zero_cutoff_rejected; [reflexivity|simpl; lia|lia].
Defined.

End TaqLags.

Module TaqFiles.
Import Py IO PyFacts NpFacts Taq TaqSpec TaqShape TaqYear TaqEntry.
Local Open Scope Qc_scope.

Section loop.

Variable day_data : string -> io (option (list Qc * list Qc)).
Variable tau : nat.
Hypothesis day_shape : forall date R N,
  outcome (day_data date) = Ok (Some (R, N)) -> length R = tau ∧ length N = tau.

(** The loop over the days stops at the first day whose call raises
    anything but the [TypeError] of unpacking [None]. *)
Lemma year_loop_raises (before after : list string) date e response num :
  forallb (fun date => returns (day_data date)) before = true ->
  outcome (day_data date) = Raise e -> e ≠ TypeError ->
  length response = tau ->
  outcome (for_each_io (year_step day_data) (before ++ date :: after)
                       (response, num))
  = Raise e.
Proof.
  revert response num. induction before as [|d before IH];
    intros response num Hret Hday He Hlen.
  - cbn [app for_each_io]. rewrite outcome_bind.
    unfold year_step. rewrite outcome_try_except, outcome_bind, Hday.
    by rewrite decide_False.
  - simpl in Hret. apply andb_true_iff in Hret as [Hd Hret].
    cbn [app for_each_io]. rewrite outcome_bind.
    pose proof (year_loop day_data tau day_shape [d] response num) as Hone.
    cbn [for_each_io forallb] in Hone.
    rewrite outcome_bind in Hone. rewrite Hd in Hone.
    specialize (Hone eq_refl Hlen).
    destruct (outcome (year_step day_data (response, num) d)) as [[r1 n1]|e1];
      [|done].
    cbn [outcome mret io_ret] in Hone. injection Hone as -> ->.
    apply IH; try done.
    destruct (valid_days_shape day_data tau day_shape [d]) as [HR _].
    unfold valid_days in *. simpl in *.
    destruct (outcome (day_data d)) as [[[R N]|]|]; simpl in *; try done.
    apply Forall_cons in HR as [HR _]. rewrite length_zip_with. lia.
Qed.

End loop.

Section days.

Variable midpoint_file : string -> option (list Qc).
Variable trade_signs_file : string -> option (list Qc).

Local Abbreviation self_day :=
  (taq_self_response_day_time_short_long_tau_data midpoint_file trade_signs_file).
Local Abbreviation cross_day :=
  (taq_cross_response_day_time_short_long_tau_data midpoint_file trade_signs_file).
Local Abbreviation self_year :=
  (taq_self_response_year_time_short_long_tau_data
     midpoint_file trade_signs_file).
Local Abbreviation cross_year :=
  (taq_cross_response_year_time_short_long_tau_data
     midpoint_file trade_signs_file).

(** X5: when the midpoint file of the day is missing, the day-level functions
    print the header and "No data", return [None], and do not open the
    trade-sign file. *)
Theorem missing_midpoint_file (ticker_i ticker_j date year month day : string)
    (rest : list string) (tau tau_p : Z) :
  Str.split "-" date = year :: month :: day :: rest ->
  midpoint_file (midpoint_path ticker_i year month day) = None ->
  self_day ticker_i date tau tau_p
  = Io [HeaderPrint "taq_self_response_day_time_short_long_tau_data"
                    ticker_i ticker_i year month day;
        Open (midpoint_path ticker_i year month day);
        Print "No data"; Print ""]
       (Ok None)
  ∧ (ticker_i ≠ ticker_j ->
     cross_day ticker_i ticker_j date tau tau_p
     = Io [HeaderPrint "taq_cross_response_day_time_short_long_tau_data"
                       ticker_i ticker_j year month day;
           Open (midpoint_path ticker_i year month day);
           Print "No data"; Print ""]
          (Ok None)).
Proof.
  intros Hd Hnone. split.
  - unfold taq_self_response_day_time_short_long_tau_data. rewrite Hd.
    destruct (date_fields year month day rest) as (-> & -> & ->).
    rewrite !bind_lift_Ok. unfold pickle_load. rewrite Hnone. reflexivity.
  - intros Hne. unfold taq_cross_response_day_time_short_long_tau_data.
    rewrite Hd. destruct (date_fields year month day rest) as (-> & -> & ->).
    rewrite !bind_lift_Ok. rewrite bool_decide_false by done.
    unfold pickle_load. rewrite Hnone. reflexivity.
Qed.

(** X6: when the midpoint file is there and the trade-sign file is missing, the
    functions open both, print "No data" and return [None]; the self
    response looks for the signs in the directory of the year of the date,
    the cross response in the directory of 2008 whatever the year. *)
Theorem missing_trade_signs_file
    (ticker_i ticker_j date year month day : string)
    (rest : list string) (tau tau_p : Z) (midpoint : list Qc) :
  Str.split "-" date = year :: month :: day :: rest ->
  midpoint_file (midpoint_path ticker_i year month day) = Some midpoint ->
  (trade_signs_file (trade_signs_path year ticker_i year month day) = None ->
   self_day ticker_i date tau tau_p
   = Io [HeaderPrint "taq_self_response_day_time_short_long_tau_data"
                     ticker_i ticker_i year month day;
         Open (midpoint_path ticker_i year month day);
         Open (trade_signs_path year ticker_i year month day);
         Print "No data"; Print ""]
        (Ok None))
  ∧ (ticker_i ≠ ticker_j ->
     trade_signs_file (trade_signs_path "2008" ticker_j year month day) = None ->
     cross_day ticker_i ticker_j date tau tau_p
     = Io [HeaderPrint "taq_cross_response_day_time_short_long_tau_data"
                       ticker_i ticker_j year month day;
           Open (midpoint_path ticker_i year month day);
           Open (trade_signs_path "2008" ticker_j year month day);
           Print "No data"; Print ""]
          (Ok None)).
Proof.
  intros Hd Hsome. split.
  - intros Hnone. unfold taq_self_response_day_time_short_long_tau_data.
    rewrite Hd. destruct (date_fields year month day rest) as (-> & -> & ->).
    rewrite !bind_lift_Ok. unfold pickle_load. rewrite Hsome, Hnone.
    reflexivity.
  - intros Hne Hnone. unfold taq_cross_response_day_time_short_long_tau_data.
    rewrite Hd. destruct (date_fields year month day rest) as (-> & -> & ->).
    rewrite !bind_lift_Ok. rewrite bool_decide_false by done.
    unfold pickle_load. rewrite Hsome, Hnone. reflexivity.
Qed.

(** X7: a date with fewer than three fields between dashes is an [IndexError]
    before anything is printed or opened, in the cross response even when
    the two tickers are the same. *)
Theorem malformed_date (ticker_i ticker_j date : string) (tau tau_p : Z) :
  (length (Str.split "-" date) < 3)%nat ->
  self_day ticker_i date tau tau_p = Io [] (Raise IndexError)
  ∧ cross_day ticker_i ticker_j date tau tau_p = Io [] (Raise IndexError).
Proof.
  intros Hlen.
  unfold taq_self_response_day_time_short_long_tau_data,
         taq_cross_response_day_time_short_long_tau_data.
  destruct (Str.split "-" date) as [|y [|m [|d rest]]]; simpl in Hlen;
    try lia; done.
Qed.

Lemma day_length_mismatch (P S : list Qc) (tau tau_p : Z) :
  length P ≠ length S ->
  day_time_short_long_tau P S tau tau_p = Raise AssertionError.
Proof.
  intros Hlen. unfold day_time_short_long_tau.
  by rewrite (bool_decide_false (length P = length S)) by done.
Qed.

(** X8: series of different lengths in the two files fail the [assert], which
    the [except FileNotFoundError] does not catch. *)
Theorem series_length_asserted
    (ticker_i ticker_j date year month day : string)
    (rest : list string) (tau tau_p : Z) (midpoint trade_sign : list Qc) :
  Str.split "-" date = year :: month :: day :: rest ->
  midpoint_file (midpoint_path ticker_i year month day) = Some midpoint ->
  length midpoint ≠ length trade_sign ->
  (trade_signs_file (trade_signs_path year ticker_i year month day)
   = Some trade_sign ->
   outcome (self_day ticker_i date tau tau_p) = Raise AssertionError)
  ∧ (ticker_i ≠ ticker_j ->
     trade_signs_file (trade_signs_path "2008" ticker_j year month day)
     = Some trade_sign ->
     outcome (cross_day ticker_i ticker_j date tau tau_p)
     = Raise AssertionError).
Proof.
  intros Hd Hm Hlen. split.
  - intros Hs. rewrite (self_day_outcome _ _ _ _ _ _ _ rest) by done.
    rewrite Hm, Hs. by rewrite day_length_mismatch.
  - intros Hne Hs. rewrite (cross_day_outcome _ _ _ _ _ _ _ _ rest) by done.
    rewrite Hm, Hs. by rewrite day_length_mismatch.
Qed.

(** X9: with both files there, the header and the two files opened are all a
    day-level call does, whatever the computation on the arrays gives:
    nothing is printed. *)
Theorem files_found_trace
    (ticker_i ticker_j date year month day : string)
    (rest : list string) (tau tau_p : Z) (midpoint trade_sign : list Qc) :
  Str.split "-" date = year :: month :: day :: rest ->
  midpoint_file (midpoint_path ticker_i year month day) = Some midpoint ->
  (trade_signs_file (trade_signs_path year ticker_i year month day)
   = Some trade_sign ->
   trace (self_day ticker_i date tau tau_p)
   = [HeaderPrint "taq_self_response_day_time_short_long_tau_data"
                  ticker_i ticker_i year month day;
      Open (midpoint_path ticker_i year month day);
      Open (trade_signs_path year ticker_i year month day)])
  ∧ (ticker_i ≠ ticker_j ->
     trade_signs_file (trade_signs_path "2008" ticker_j year month day)
     = Some trade_sign ->
     trace (cross_day ticker_i ticker_j date tau tau_p)
     = [HeaderPrint "taq_cross_response_day_time_short_long_tau_data"
                    ticker_i ticker_j year month day;
        Open (midpoint_path ticker_i year month day);
        Open (trade_signs_path "2008" ticker_j year month day)]).
Proof.
  intros Hd Hm. split.
  - intros Hs. unfold taq_self_response_day_time_short_long_tau_data.
    rewrite Hd. destruct (date_fields year month day rest) as (-> & -> & ->).
    rewrite !bind_lift_Ok. unfold pickle_load. rewrite Hm, Hs.
    unfold try_except, mbind, io_bind, mret, io_ret.
    cbn [outcome trace emit lift app].
    destruct (day_time_short_long_tau midpoint trade_sign tau tau_p)
      as [rn|e] eqn:Hday; [reflexivity|].
    destruct (decide (e = FileNotFoundError)) as [->|He];
      [by apply found_day in Hday|].
    cbn [outcome trace app]. by rewrite decide_False.
  - intros Hne Hs. unfold taq_cross_response_day_time_short_long_tau_data.
    rewrite Hd. destruct (date_fields year month day rest) as (-> & -> & ->).
    rewrite !bind_lift_Ok. rewrite bool_decide_false by done.
    unfold pickle_load. rewrite Hm, Hs.
    unfold try_except, mbind, io_bind, mret, io_ret.
    cbn [outcome trace emit lift app].
    destruct (day_time_short_long_tau midpoint trade_sign tau tau_p)
      as [rn|e] eqn:Hday; [reflexivity|].
    destruct (decide (e = FileNotFoundError)) as [->|He];
      [by apply found_day in Hday|].
    cbn [outcome trace app]. by rewrite decide_False.
Qed.

Variable taq_bussiness_days : string -> list string.

(** X10: a day whose call raises (series of different lengths, a cutoff that
    does not fit) is not skipped: the year-level functions catch the
    [TypeError] of a day without data only, and raise what the day raised. *)
Theorem year_raises_what_a_day_raises (ticker_i ticker_j year date : string)
    (before after : list string) (tau tau_p : Z) (e : exn) :
  (0 <= tau)%Z ->
  taq_bussiness_days year = before ++ date :: after ->
  e ≠ TypeError ->
  (forallb (fun date => returns (self_day ticker_i date tau tau_p)) before
   = true ->
   outcome (self_day ticker_i date tau tau_p) = Raise e ->
   outcome (self_year taq_bussiness_days ticker_i year tau tau_p) = Raise e)
  ∧ (ticker_i ≠ ticker_j ->
     forallb (fun date => returns (cross_day ticker_i ticker_j date tau tau_p))
             before = true ->
     outcome (cross_day ticker_i ticker_j date tau tau_p) = Raise e ->
     outcome (cross_year taq_bussiness_days ticker_i ticker_j year tau tau_p)
     = Raise e).
Proof.
  intros Htau Hdays He. split.
  - intros Hret Hday. unfold taq_self_response_year_time_short_long_tau_data.
    rewrite !outcome_bind. cbn [outcome emit lift].
    rewrite <- (Z2Nat.id tau) at 1 by done. rewrite zeros_nat, Hdays.
    rewrite outcome_bind.
    rewrite (year_loop_raises _ (Z.to_nat tau)
               ltac:(intros d R N; apply self_day_shape) before after date e);
      first [done | apply length_replicate].
  - intros Hne Hret Hday.
    unfold taq_cross_response_year_time_short_long_tau_data.
    rewrite bool_decide_false by done.
    rewrite !outcome_bind. cbn [outcome emit lift].
    rewrite <- (Z2Nat.id tau) at 1 by done. rewrite zeros_nat, Hdays.
    rewrite outcome_bind.
    rewrite (year_loop_raises _ (Z.to_nat tau)
               ltac:(intros d R N; apply cross_day_shape) before after date e);
      first [done | apply length_replicate].
Qed.

Lemma io_bind_Raise {A B} (m : io A) (f : A -> io B) (e : exn) :
  outcome m = Raise e -> outcome (m ≫= f) = Raise e.
Proof. intros H. unfold mbind, io_bind. by rewrite H. Qed.

(** X11: when a year-level function returns, the last thing it did was to save
    the array it returns, under its own name followed by the two lag
    parameters. *)
Theorem year_saves_what_it_returns (ticker_i ticker_j year : string)
    (tau tau_p : Z) (r : list Qc) :
  (outcome (self_year taq_bussiness_days ticker_i year tau tau_p) = Ok r ->
   exists events,
     trace (self_year taq_bussiness_days ticker_i year tau tau_p)
     = HeaderPrint "taq_self_response_year_time_short_long_tau_data"
                   ticker_i ticker_i year "" ""
       :: events
       ++ [Save (save_name "taq_self_response_year_time_short_long_tau_data"
                           tau tau_p)
                r ticker_i ticker_i year "" ""])
  ∧ (outcome (cross_year taq_bussiness_days ticker_i ticker_j year tau tau_p)
     = Ok (Some r) ->
     exists events,
       trace (cross_year taq_bussiness_days ticker_i ticker_j year tau tau_p)
       = HeaderPrint "taq_cross_response_year_time_short_long_tau_data"
                     ticker_i ticker_j year "" ""
         :: events
         ++ [Save (save_name "taq_cross_response_year_time_short_long_tau_data"
                             tau tau_p)
                  r ticker_i ticker_j year "" ""]).
Proof.
  split.
  - unfold taq_self_response_year_time_short_long_tau_data.
    rewrite (io_bind_Ok (emit _) _ tt) by done.
    destruct (Np.zeros tau) as [z|e]; [|done].
    rewrite (io_bind_Ok (lift (Ok z)) _ z) by done.
    match goal with
    | |- context [for_each_io ?body ?dates ?st] =>
        destruct (outcome (for_each_io body dates st))
          as [[response num]|e] eqn:Hloop
    end; [|by rewrite (io_bind_Raise _ _ e)].
    rewrite (io_bind_Ok _ _ (response, num)) by done.
    destruct (divide response (sum_axis0 num)) as [q|e]; [|done].
    rewrite (io_bind_Ok (lift (Ok q)) _ q) by done.
    rewrite (io_bind_Ok (emit _) _ tt) by done.
    cbn [outcome trace emit lift app]. intros [= <-].
    eexists. reflexivity.
  - unfold taq_cross_response_year_time_short_long_tau_data.
    case_bool_decide; [done|].
    rewrite (io_bind_Ok (emit _) _ tt) by done.
    destruct (Np.zeros tau) as [z|e]; [|done].
    rewrite (io_bind_Ok (lift (Ok z)) _ z) by done.
    match goal with
    | |- context [for_each_io ?body ?dates ?st] =>
        destruct (outcome (for_each_io body dates st))
          as [[response num]|e] eqn:Hloop
    end; [|by rewrite (io_bind_Raise _ _ e)].
    rewrite (io_bind_Ok _ _ (response, num)) by done.
    destruct (divide response (sum_axis0 num)) as [q|e]; [|done].
    rewrite (io_bind_Ok (lift (Ok q)) _ q) by done.
    rewrite (io_bind_Ok (emit _) _ tt) by done.
    rewrite (io_bind_Ok (lift (Ok q)) _ q) by done.
    cbn [outcome trace emit lift app mret io_ret]. intros [= <-].
    eexists. reflexivity.
Qed.

End days.

Lemma missing_midpoint_file_witness :
  taq_self_response_day_time_short_long_tau_data
    Sample.midpoint_file Sample.trade_signs_file "AAPL" "2008-01-03" 2 1
  = Io [HeaderPrint "taq_self_response_day_time_short_long_tau_data"
                    "AAPL" "AAPL" "2008" "01" "03";
        Open (midpoint_path "AAPL" "2008" "01" "03");
        Print "No data"; Print ""]
       (Ok None)
  ∧ taq_cross_response_day_time_short_long_tau_data
      Sample.midpoint_file Sample.trade_signs_file "AAPL" "MSFT" "2008-01-03" 2 1
    = Io [HeaderPrint "taq_cross_response_day_time_short_long_tau_data"
                      "AAPL" "MSFT" "2008" "01" "03";
          Open (midpoint_path "AAPL" "2008" "01" "03");
          Print "No data"; Print ""]
         (Ok None).
Proof.
  destruct (missing_midpoint_file Sample.midpoint_file Sample.trade_signs_file
              "AAPL" "MSFT" "2008-01-03" "2008" "01" "03" [] 2 1)
    as [Hself Hcross].
  - reflexivity.
  - reflexivity.
  - split; [exact Hself|]. apply Hcross. discriminate.
Defined.

Lemma missing_trade_signs_file_witness :
  taq_self_response_day_time_short_long_tau_data
    (fun _ => Some (map Qc_of_Z [1; 2]%Z)) Sample.trade_signs_file "AAPL" "2009-01-02" 2 1
  = Io [HeaderPrint "taq_self_response_day_time_short_long_tau_data"
                    "AAPL" "AAPL" "2009" "01" "02";
        Open (midpoint_path "AAPL" "2009" "01" "02");
        Open (trade_signs_path "2009" "AAPL" "2009" "01" "02");
        Print "No data"; Print ""]
       (Ok None)
  ∧ taq_cross_response_day_time_short_long_tau_data
      (fun _ => Some (map Qc_of_Z [1; 2]%Z)) Sample.trade_signs_file "AAPL" "MSFT" "2009-01-02" 2 1
    = Io [HeaderPrint "taq_cross_response_day_time_short_long_tau_data"
                      "AAPL" "MSFT" "2009" "01" "02";
          Open (midpoint_path "AAPL" "2009" "01" "02");
          Open (trade_signs_path "2008" "MSFT" "2009" "01" "02");
          Print "No data"; Print ""]
         (Ok None).
Proof.
  destruct (missing_trade_signs_file
              (fun _ => Some (map Qc_of_Z [1; 2]%Z)) Sample.trade_signs_file
              "AAPL" "MSFT" "2009-01-02" "2009" "01" "02" [] 2 1
              (map Qc_of_Z [1; 2]%Z))
    as [Hself Hcross].
  - reflexivity.
  - reflexivity.
  - split; [apply Hself; reflexivity|].
    apply Hcross; [discriminate|reflexivity].
Defined.

Lemma files_found_trace_witness :
  trace (taq_self_response_day_time_short_long_tau_data
           Sample.midpoint_file Sample.trade_signs_file "AAPL" "2008-01-02" 2 1)
  = [HeaderPrint "taq_self_response_day_time_short_long_tau_data"
                 "AAPL" "AAPL" "2008" "01" "02";
     Open (midpoint_path "AAPL" "2008" "01" "02");
     Open (trade_signs_path "2008" "AAPL" "2008" "01" "02")]
  ∧ trace (taq_cross_response_day_time_short_long_tau_data
             Sample.midpoint_file Sample.trade_signs_file
             "AAPL" "MSFT" "2008-01-02" 2 1)
    = [HeaderPrint "taq_cross_response_day_time_short_long_tau_data"
                   "AAPL" "MSFT" "2008" "01" "02";
       Open (midpoint_path "AAPL" "2008" "01" "02");
       Open (trade_signs_path "2008" "MSFT" "2008" "01" "02")].
Proof.
  split.
  - destruct (files_found_trace
                Sample.midpoint_file Sample.trade_signs_file
                "AAPL" "MSFT" "2008-01-02" "2008" "01" "02" [] 2 1
                (map Qc_of_Z [1; 2; 4; 5]%Z) (map Qc_of_Z [1; 0; 1; 0]%Z))
      as [Hself _]; [reflexivity|reflexivity|].
    apply Hself. reflexivity.
  - destruct (files_found_trace
                Sample.midpoint_file Sample.trade_signs_file
                "AAPL" "MSFT" "2008-01-02" "2008" "01" "02" [] 2 1
                (map Qc_of_Z [1; 2; 4; 5]%Z) (map Qc_of_Z [0; -1; 1; 1]%Z))
      as [_ Hcross]; [reflexivity|reflexivity|].
    apply Hcross; [discriminate|reflexivity].
Defined.

Lemma malformed_date_witness :
  taq_self_response_day_time_short_long_tau_data
    Sample.midpoint_file Sample.trade_signs_file "AAPL" "2008-0102" 2 1
  = Io [] (Raise IndexError)
  ∧ taq_cross_response_day_time_short_long_tau_data
      Sample.midpoint_file Sample.trade_signs_file "AAPL" "AAPL" "2008-0102" 2 1
    = Io [] (Raise IndexError).
Proof.
  apply (malformed_date Sample.midpoint_file Sample.trade_signs_file
           "AAPL" "AAPL" "2008-0102" 2 1).
  simpl. lia.
Defined.

Lemma series_length_asserted_witness :
  outcome (taq_self_response_day_time_short_long_tau_data
             Sample.ragged_midpoint_file Sample.ragged_trade_signs_file
             "AAPL" "2008-01-03" 2 1)
  = Raise AssertionError
  ∧ outcome (taq_cross_response_day_time_short_long_tau_data
               Sample.ragged_midpoint_file Sample.ragged_trade_signs_file
               "AAPL" "MSFT" "2008-01-03" 2 1)
    = Raise AssertionError.
Proof.
  split.
  - destruct (series_length_asserted
                Sample.ragged_midpoint_file Sample.ragged_trade_signs_file
                "AAPL" "MSFT" "2008-01-03" "2008" "01" "03" [] 2 1
                (map Qc_of_Z [1; 2; 4; 5]%Z) (map Qc_of_Z [1; 0; 1]%Z))
      as [Hself _]; [reflexivity|reflexivity|simpl; lia|].
    apply Hself. reflexivity.
  - destruct (series_length_asserted
                Sample.ragged_midpoint_file Sample.ragged_trade_signs_file
                "AAPL" "MSFT" "2008-01-03" "2008" "01" "03" [] 2 1
                (map Qc_of_Z [1; 2; 4; 5]%Z) (map Qc_of_Z [0; -1; 1]%Z))
      as [_ Hcross]; [reflexivity|reflexivity|simpl; lia|].
    apply Hcross; [discriminate|reflexivity].
Defined.

Lemma year_raises_what_a_day_raises_witness :
  outcome (taq_self_response_year_time_short_long_tau_data
             Sample.ragged_midpoint_file Sample.ragged_trade_signs_file
             Sample.bussiness_days "AAPL" "2008" 2 1)
  = Raise AssertionError
  ∧ outcome (taq_cross_response_year_time_short_long_tau_data
               Sample.ragged_midpoint_file Sample.ragged_trade_signs_file
               Sample.bussiness_days "AAPL" "MSFT" "2008" 2 1)
    = Raise AssertionError.
Proof.
  destruct (year_raises_what_a_day_raises
              Sample.ragged_midpoint_file Sample.ragged_trade_signs_file
              Sample.bussiness_days "AAPL" "MSFT" "2008" "2008-01-03"
              ["2008-01-02"] [] 2 1 AssertionError)
    as [Hself Hcross].
  - lia.
  - reflexivity.
  - discriminate.
  - split.
    + apply Hself; vm_compute; reflexivity.
    + apply Hcross; [discriminate|vm_compute; reflexivity..].
Defined.

Lemma year_saves_what_it_returns_witness :
  exists r,
    outcome (taq_self_response_year_time_short_long_tau_data
               Sample.midpoint_file Sample.trade_signs_file
               Sample.bussiness_days "AAPL" "2008" 2 1) = Ok r
    ∧ exists events,
        trace (taq_self_response_year_time_short_long_tau_data
                 Sample.midpoint_file Sample.trade_signs_file
                 Sample.bussiness_days "AAPL" "2008" 2 1)
        = HeaderPrint "taq_self_response_year_time_short_long_tau_data"
                      "AAPL" "AAPL" "2008" "" ""
          :: events
          ++ [Save (save_name "taq_self_response_year_time_short_long_tau_data"
                              2 1)
                   r "AAPL" "AAPL" "2008" "" ""].
Proof.
  pose (o := outcome (taq_self_response_year_time_short_long_tau_data
                        Sample.midpoint_file Sample.trade_signs_file
                        Sample.bussiness_days "AAPL" "2008" 2 1)).
  assert (Ho : outcome (taq_self_response_year_time_short_long_tau_data
                          Sample.midpoint_file Sample.trade_signs_file
                          Sample.bussiness_days "AAPL" "2008" 2 1) = o)
    by reflexivity.
  vm_compute in o.
  match eval unfold o in o with
  | Ok ?r0 =>
      exists r0; split; [exact Ho|];
      destruct (year_saves_what_it_returns
                  Sample.midpoint_file Sample.trade_signs_file
                  Sample.bussiness_days "AAPL" "MSFT" "2008" 2 1 r0)
        as [Hself _]; exact (Hself Ho)
  end.
Defined.

End TaqFiles.

Module Session.
Import Py PyFacts Itch Attribution AttributionRun AttributionClaims.

(** X12: the session filter keeps the times from 34 799 998 ms to 56 999 998 ms
    after midnight, both included. *)
Theorem session_window (t : Z) :
  market_time t = true <-> 34799998 <= t <= 56999998.
Proof.
  unfold market_time. cbv zeta. rewrite andb_true_iff, negb_true_iff.
  rewrite Qle_bool_iff. rewrite <- not_true_iff_false, Qle_bool_iff.
  unfold Qle, Qdiv, Qmult, Qinv, inject_Z; simpl. lia.
Qed.

Lemma select_mask_length {A} (f : Z -> bool) (times : list Z) (l : list A) :
  length l = length times ->
  length (select (map f times) l)
  = length (filter (fun t => f t = true) times).
Proof.
  revert l. induction times as [|t times IH]; intros [|x l] Hl; try done.
  simpl in *. rewrite filter_cons. destruct (f t).
  - rewrite decide_True by done. simpl. f_equal. apply IH. lia.
  - rewrite decide_False by done. apply IH. lia.
Qed.

Lemma assign_where_length {A} (mask : list bool) (src l : list A) :
  length (assign_where mask src l) = length l.
Proof.
  revert src l. induction mask as [|b mask IH]; intros [|s src] [|x l];
    try done.
  simpl. by rewrite IH.
Qed.

Lemma assign_where_take {A} (mask : list bool) (src l : list A) (i : nat) s :
  mask !! i = Some true -> src !! i = Some s -> (i < length l)%nat ->
  assign_where mask src l !! i = Some s.
Proof.
  revert src l i. induction mask as [|b mask IH]; intros [|s0 src] [|x l] [|i];
    try done; simpl; try lia.
  - by intros [= ->] [= ->].
  - intros Hm Hs Hi. apply IH; [done|done|lia].
Qed.

Lemma scale_prices_trade_times (raw : list row) :
  map Time (trade_rows (scale_prices raw)) = map Time (trade_rows raw).
Proof.
  unfold trade_rows. rewrite !select_map_filter. unfold scale_prices.
  induction raw as [|r raw IH]; [done|].
  cbn [List.map]. rewrite !filter_cons.
  change (is_type "E" (Row (Time r) (Order r) (T r) (Shares r)
                           (Price r / Qc_of_Z 10000)%Qc))
    with (is_type "E" r).
  change (is_type "F" (Row (Time r) (Order r) (T r) (Shares r)
                           (Price r / Qc_of_Z 10000)%Qc))
    with (is_type "F" r).
  change (is_type "T" (Row (Time r) (Order r) (T r) (Shares r)
                           (Price r / Qc_of_Z 10000)%Qc))
    with (is_type "T" r).
  destruct (decide _); cbn [List.map]; by rewrite IH.
Qed.

Lemma Forall_select {A} (P : A -> Prop) (mask : list bool) (l : list A) :
  Forall P l -> Forall P (select mask l).
Proof.
  intros H. revert mask. induction H as [|x l Hx Hl IH]; intros [|b mask];
    simpl; try done.
  destruct b; [constructor; [done|apply IH]|apply IH].
Qed.

Lemma match_pass_shaped data st :
  match_pass data = Ok st ->
  shaped (length (limit_rows data (trade_rows data)))
         (length (trade_rows data)) st.
Proof.
  rewrite match_pass_matched_upto, matched_upto_nat. intros Hrun.
  destruct (run_frame data (seq 0 (length (trade_rows data))) _ st
              (initial_shaped data)) as [Hsh _]; [|done|done].
  apply Forall_forall. intros j Hj%elem_of_seq. lia.
Qed.

(** X13: the four arrays returned have one entry for each trade message (E, F
    or T) of the file whose time is in the session, in the order of the
    file. *)
Theorem returned_arrays_aligned raw times signs volumes prices :
  itch_trade_classification_data raw = Ok (times, signs, volumes, prices) ->
  times = filter (fun t => market_time t = true) (map Time (trade_rows raw))
  ∧ length signs = length times
  ∧ length volumes = length times
  ∧ length prices = length times.
Proof.
  intros (st & Hst & -> & -> & -> & ->)%classification_data_returns.
  apply match_pass_shaped in Hst as (_ & _ & Hs & Hv & Hp).
  rewrite (select_map_filter market_time).
  rewrite !select_mask_length
    by (rewrite ?assign_where_length, length_map; congruence).
  by rewrite scale_prices_trade_times.
Qed.

(** X14: every returned sign is −1, 0 or +1. *)
Theorem returned_signs_ternary raw times signs volumes prices :
  itch_trade_classification_data raw = Ok (times, signs, volumes, prices) ->
  Forall (fun s => s = -1 ∨ s = 0 ∨ s = 1) signs.
Proof.
  intros (st & Hst & _ & -> & _)%classification_data_returns.
  apply Forall_select. apply Forall_lookup. intros i s Hs.
  pose proof (match_pass_shaped _ _ Hst) as (_ & _ & Hlen & _).
  rewrite match_pass_matched_upto in Hst.
  assert (Hi : (i < length (trade_rows (scale_prices raw)))%nat).
  { rewrite <- Hlen. by eapply lookup_lt_Some. }
  clear Hlen.
  destruct (matched_upto_at _ st i Hst Hi)
    as (before & after & Hb & Hsh & Hstep & _ & Hs0 & _ & _ & Hsi & _ & _).
  destruct (lookup_lt_is_Some_2 (map Order (trade_rows (scale_prices raw))) i)
    as [order Ho]; [by rewrite length_map|].
  rewrite Hsi in Hs.
  destruct (where_first (limit_data_order before) order) as [l|e] eqn:Hw.
  - eapply match_step_hit in Hstep
      as (side & price & tag & volume & lv & _ & _ & _ & _ & _ & Hsig & _);
      [|unfold type_tags, side_tags; by rewrite ?length_map..|done|done|done].
    rewrite Hsig in Hs. rewrite list_lookup_insert_eq in Hs
      by (destruct Hsh as (_ & _ & -> & _); done).
    injection Hs as <-. case_bool_decide; auto.
  - rewrite (match_step_miss _ _ _ _ _ _ i order e Ho Hw) in Hstep.
    injection Hstep as <-. rewrite Hs0 in Hs. injection Hs as <-. auto.
Qed.

Lemma type_tag_lookup (trade_data : list row) (i : nat) t :
  trade_data !! i = Some t ->
  (T t = "E" ∨ T t = "F" ∨ T t = "T") ->
  type_tags trade_data !! i
  = Some (if decide (T t = "E") then 3
          else if decide (T t = "F") then 4 else 5).
Proof.
  intros Ht HT. unfold type_tags. rewrite list_lookup_fmap, Ht. simpl.
  f_equal. unfold is_type. destruct HT as [HT|[HT|HT]]; rewrite HT;
    by vm_compute.
Qed.

(** X15: a hidden trade in the session is returned with its own number of
    shares and its own price, whatever the loop wrote for it. *)
Theorem hidden_trade_fields raw times signs volumes prices (i : nat) t :
  itch_trade_classification_data raw = Ok (times, signs, volumes, prices) ->
  let data := scale_prices raw in
  trade_rows data !! i = Some t ->
  T t = "T" ->
  market_time (Time t) = true ->
  let j := session_index (map Time (trade_rows data)) i in
  times !! j = Some (Time t) ∧ volumes !! j = Some (Shares t)
  ∧ prices !! j = Some (Price t).
Proof.
  intros (st & Hst & -> & -> & -> & ->)%classification_data_returns
         data Ht Hhid Hsession j.
  apply match_pass_shaped in Hst as (_ & _ & Hs & Hv & Hp).
  assert (Hi : (i < length (trade_rows data))%nat) by (by eapply lookup_lt_Some).
  assert (Htime : map Time (trade_rows data) !! i = Some (Time t))
    by (by rewrite list_lookup_fmap, Ht).
  assert (Hmask : map (fun tag => bool_decide (tag = 5))
                      (type_tags (trade_rows data)) !! i = Some true).
  { rewrite list_lookup_fmap, (type_tag_lookup _ _ t) by auto.
    rewrite Hhid. by vm_compute. }
  subst j. unfold session_index.
  repeat split; apply (select_lookup_kept market_time _ _ i (Time t));
    try done.
  - unfold data in *. apply assign_where_take; [done| |lia].
    by rewrite list_lookup_fmap, Ht.
  - unfold data in *. apply assign_where_take; [done| |lia].
    by rewrite list_lookup_fmap, Ht.
Qed.

(** X16: a visible trade in the session that is matched to a limit order at its
    turn is returned with the price of that order; with its own number of
    shares when it is an E message, with what is left of the order at its
    turn when it is an F message. *)
Theorem matched_trade_fields raw times signs volumes prices (i l : nat) t :
  itch_trade_classification_data raw = Ok (times, signs, volumes, prices) ->
  let data := scale_prices raw in
  trade_rows data !! i = Some t ->
  T t ≠ "T" ->
  matched_entry data i = Ok l ->
  market_time (Time t) = true ->
  let j := session_index (map Time (trade_rows data)) i in
  exists r before,
    limit_rows data (trade_rows data) !! l = Some r
    ∧ matched_upto data (Z.of_nat i) = Ok before
    ∧ prices !! j = Some (Price r)
    ∧ volumes !! j = (if decide (T t = "F")
                      then limit_data_volume before !! l
                      else Some (Shares t)).
Proof.
  intros (st & Hst & -> & -> & -> & ->)%classification_data_returns
         data Ht Hvis Hhit Hsession j.
  rewrite match_pass_matched_upto in Hst.
  assert (Hi : (i < length (trade_rows data))%nat) by (by eapply lookup_lt_Some).
  destruct (matched_upto_at data st i Hst Hi)
    as (before & after & Hb & Hsh & Hstep & Hshst & _ & _ & _ & _ & Hv & Hp).
  assert (Ho : map Order (trade_rows data) !! i = Some (Order t))
    by (by rewrite list_lookup_fmap, Ht).
  unfold matched_entry in Hhit. rewrite Hb in Hhit.
  cbn [mbind result_bind] in Hhit.
  rewrite (getitem_nat _ _ _ Ho) in Hhit. cbn [mbind result_bind] in Hhit.
  eapply match_step_hit in Hstep
    as (side & price & tag & volume & lv & _ & Hprice & Htag & Hvol & Hlv
        & _ & Hpr & Hvo & _);
    [|unfold type_tags, side_tags; by rewrite ?length_map..|done|done|done].
  rewrite list_lookup_fmap in Hprice.
  destruct (limit_rows data (trade_rows data) !! l) as [r|] eqn:Hr; [|done].
  simpl in Hprice. injection Hprice as <-.
  rewrite list_lookup_fmap, Ht in Hvol. simpl in Hvol. injection Hvol as <-.
  assert (HT : T t = "E" ∨ T t = "F" ∨ T t = "T").
  { eapply trade_rows_types. apply list_elem_of_lookup. eauto. }
  rewrite (type_tag_lookup _ _ t Ht HT) in Htag. injection Htag as <-.
  exists r, before. do 2 (split; [done|]).
  assert (Htime : map Time (trade_rows data) !! i = Some (Time t))
    by (by rewrite list_lookup_fmap, Ht).
  assert (Hhid : map (fun tag => bool_decide (tag = 5))
                     (type_tags (trade_rows data)) !! i = Some false)
    by (by apply (type_tag_visible _ _ t)).
  destruct Hsh as (_ & _ & Hls & Hlv' & Hlp).
  subst j. unfold session_index. split.
  - apply (select_lookup_kept market_time _ _ i (Time t)); try done.
    rewrite assign_where_keep by done. rewrite Hp, Hpr.
    apply list_lookup_insert_eq. lia.
  - assert (Hvi : trade_volumes st !! i
                  = Some (if decide (T t = "F") then lv else Shares t)).
    { rewrite Hv, Hvo. rewrite list_lookup_insert_eq by lia. f_equal.
      destruct HT as [HT|[HT|HT]]; rewrite HT; try done. }
    rewrite (select_lookup_kept market_time _ _ i (Time t)
               (if decide (T t = "F") then lv else Shares t)); try done.
    + by destruct (decide (T t = "F")).
    + by rewrite assign_where_keep.
Qed.

(** X17: a trade that is not an F message and takes exactly what is left of the
    limit order it is matched to fails the [assert] on the difference, and
    the whole extraction with it. *)
Theorem exact_fill_aborts raw (i l : nat) t before :
  let data := scale_prices raw in
  trade_rows data !! i = Some t ->
  T t ≠ "F" ->
  matched_upto data (Z.of_nat i) = Ok before ->
  where_first (limit_data_order before) (Order t) = Ok l ->
  limit_data_volume before !! l = Some (Shares t) ->
  itch_trade_classification_data raw = Raise AssertionError.
Proof.
  intros data Ht HF Hb Hw Hlv.
  assert (Hi : (i < length (trade_rows data))%nat) by (by eapply lookup_lt_Some).
  assert (Hrun : match_pass data = Raise AssertionError);
    [|unfold itch_trade_classification_data; cbv zeta; fold data;
      by rewrite Hrun].
  rewrite match_pass_matched_upto, matched_upto_nat.
  assert (seq 0 (length (trade_rows data))
          = seq 0 i ++ i :: seq (i + 1) (length (trade_rows data) - i - 1))
    as ->.
  { replace (length (trade_rows data))
      with (i + (1 + (length (trade_rows data) - i - 1)))%nat at 1 by lia.
    rewrite !seq_app. simpl. do 3 f_equal; lia. }
  rewrite map_app, for_each_app. rewrite <- matched_upto_nat, Hb.
  cbn [mbind result_bind List.map for_each].
  destruct (run_frame data (seq 0 i) _ before (initial_shaped data))
    as [(Hlo & Hlvl & Hts & Htv & Htp) _];
    [apply Forall_forall; intros k Hk%elem_of_seq; lia
    |by rewrite <- matched_upto_nat|].
  assert (Hl : (l < length (limit_rows data (trade_rows data)))%nat).
  { rewrite <- Hlvl. by eapply lookup_lt_Some. }
  assert (HT : T t = "E" ∨ T t = "F" ∨ T t = "T").
  { eapply trade_rows_types. apply list_elem_of_lookup. eauto. }
  destruct (lookup_lt_is_Some_2 (side_tags (limit_rows data (trade_rows data))) l)
    as [side Hside]; [unfold side_tags; by rewrite length_map|].
  destruct (lookup_lt_is_Some_2 (map Price (limit_rows data (trade_rows data))) l)
    as [price Hprice]; [by rewrite length_map|].
  unfold match_step, match_trade.
  rewrite (getitem_nat (map Order (trade_rows data)) i (Order t))
    by (by rewrite list_lookup_fmap, Ht).
  cbn [mbind result_bind]. rewrite Hw. cbn [mbind result_bind]. cbv zeta.
  rewrite (getitem_nat _ _ _ Hprice). cbn [mbind result_bind].
  rewrite (setitem_nat (trade_price before)) by lia. cbn [mbind result_bind].
  rewrite (getitem_nat _ _ _ Hside). cbn [mbind result_bind].
  rewrite (setitem_nat (trade_signs before)) by lia. cbn [mbind result_bind].
  rewrite (getitem_nat _ _ _ (type_tag_lookup _ _ t Ht HT)).
  cbn [mbind result_bind].
  rewrite bool_decide_false
    by (destruct HT as [HT|[HT|HT]]; rewrite HT; try done; by vm_compute).
  rewrite (getitem_nat (map Shares (trade_rows data)) i (Shares t))
    by (by rewrite list_lookup_fmap, Ht).
  cbn [mbind result_bind].
  rewrite (setitem_nat (trade_volumes before)) by lia. cbn [mbind result_bind].
  rewrite (getitem_nat _ _ _ Hlv). cbn [mbind result_bind]. cbv zeta.
  unfold uint16_sub. rewrite Z.sub_diag. done.
Qed.

Lemma returned_arrays_aligned_witness :
  [36000001; 36000002; 36000003; 36000004]
  = filter (fun t => market_time t = true) (map Time (trade_rows Sample.day))
  ∧ length [1; -1; 0; 0] = length [36000001; 36000002; 36000003; 36000004]
  ∧ length [40; 200; 50; 0] = length [36000001; 36000002; 36000003; 36000004]
  ∧ length [(Qc_of_Z 1000000 / Qc_of_Z 10000)%Qc;
            (Qc_of_Z 999900 / Qc_of_Z 10000)%Qc;
            (Qc_of_Z 1001000 / Qc_of_Z 10000)%Qc; 0%Qc]
    = length [36000001; 36000002; 36000003; 36000004].
Proof.
  apply (returned_arrays_aligned Sample.day
           [36000001; 36000002; 36000003; 36000004] [1; -1; 0; 0]
           [40; 200; 50; 0]
           [(Qc_of_Z 1000000 / Qc_of_Z 10000)%Qc;
            (Qc_of_Z 999900 / Qc_of_Z 10000)%Qc;
            (Qc_of_Z 1001000 / Qc_of_Z 10000)%Qc; 0%Qc]).
  vm_compute. reflexivity.
Defined.

Lemma returned_signs_ternary_witness :
  Forall (fun s => s = -1 ∨ s = 0 ∨ s = 1) [1; -1; 0; 0].
Proof.
  apply (returned_signs_ternary Sample.day
           [36000001; 36000002; 36000003; 36000004] [1; -1; 0; 0]
           [40; 200; 50; 0]
           [(Qc_of_Z 1000000 / Qc_of_Z 10000)%Qc;
            (Qc_of_Z 999900 / Qc_of_Z 10000)%Qc;
            (Qc_of_Z 1001000 / Qc_of_Z 10000)%Qc; 0%Qc]).
  vm_compute. reflexivity.
Defined.

Lemma hidden_trade_fields_witness :
  let times := [36000001; 36000002; 36000003; 36000004] in
  let j := session_index (map Time (trade_rows (scale_prices Sample.day))) 2 in
  times !! j = Some 36000003
  ∧ [40; 200; 50; 0] !! j = Some 50
  ∧ [(Qc_of_Z 1000000 / Qc_of_Z 10000)%Qc;
     (Qc_of_Z 999900 / Qc_of_Z 10000)%Qc;
     (Qc_of_Z 1001000 / Qc_of_Z 10000)%Qc; 0%Qc] !! j
    = Some (Qc_of_Z 1001000 / Qc_of_Z 10000)%Qc.
Proof.
  apply (hidden_trade_fields Sample.day
           [36000001; 36000002; 36000003; 36000004] [1; -1; 0; 0]
           [40; 200; 50; 0]
           [(Qc_of_Z 1000000 / Qc_of_Z 10000)%Qc;
            (Qc_of_Z 999900 / Qc_of_Z 10000)%Qc;
            (Qc_of_Z 1001000 / Qc_of_Z 10000)%Qc; 0%Qc]
           2 (Row 36000003 5 "T" 50 (Qc_of_Z 1001000 / Qc_of_Z 10000)%Qc)).
  - vm_compute. reflexivity.
  - reflexivity.
  - reflexivity.
  - reflexivity.
Defined.

Lemma matched_trade_fields_witness :
  let data := scale_prices Sample.day in
  let j := session_index (map Time (trade_rows data)) 1 in
  exists r before,
    limit_rows data (trade_rows data) !! 1%nat = Some r
    ∧ matched_upto data (Z.of_nat 1) = Ok before
    ∧ [(Qc_of_Z 1000000 / Qc_of_Z 10000)%Qc;
       (Qc_of_Z 999900 / Qc_of_Z 10000)%Qc;
       (Qc_of_Z 1001000 / Qc_of_Z 10000)%Qc; 0%Qc] !! j = Some (Price r)
    ∧ [40; 200; 50; 0] !! j
      = (if decide (T (Row 36000002 8 "F" 0 (0 / Qc_of_Z 10000)%Qc) = "F")
         then limit_data_volume before !! 1%nat
         else Some (Shares (Row 36000002 8 "F" 0 (0 / Qc_of_Z 10000)%Qc))).
Proof.
  apply (matched_trade_fields Sample.day
           [36000001; 36000002; 36000003; 36000004] [1; -1; 0; 0]
           [40; 200; 50; 0]
           [(Qc_of_Z 1000000 / Qc_of_Z 10000)%Qc;
            (Qc_of_Z 999900 / Qc_of_Z 10000)%Qc;
            (Qc_of_Z 1001000 / Qc_of_Z 10000)%Qc; 0%Qc]
           1 1 (Row 36000002 8 "F" 0 (0 / Qc_of_Z 10000)%Qc)).
  - vm_compute. reflexivity.
  - reflexivity.
  - discriminate.
  - reflexivity.
  - reflexivity.
Defined.

Lemma exact_fill_aborts_witness :
  itch_trade_classification_data Sample.exact_fill = Raise AssertionError.
Proof.
  apply (exact_fill_aborts Sample.exact_fill 0 0
           (Row 36000001 7 "E" 100 (Qc_of_Z 1000000 / Qc_of_Z 10000)%Qc)
           (initial_arrays
              (trade_rows (scale_prices Sample.exact_fill))
              (limit_rows (scale_prices Sample.exact_fill)
                          (trade_rows (scale_prices Sample.exact_fill))))).
  - reflexivity.
  - discriminate.
  - reflexivity.
  - reflexivity.
  - reflexivity.
Defined.

End Session.

Module TickRuleRun.
Import Py PyFacts Itch Attribution.

Local Abbreviation ternary := (fun s : Z => s = -1 ∨ s = 0 ∨ s = 1).

Lemma getitem_in_range {A} (l : list A) (i : Z) :
  - Z.of_nat (length l) <= i < Z.of_nat (length l) ->
  exists x, getitem l i = Ok x ∧ x ∈ l.
Proof.
  intros Hi. unfold getitem. cbv zeta.
  destruct (decide (i < 0)) as [Hneg|Hpos].
  - rewrite (bool_decide_true (i < 0)) by done.
    rewrite bool_decide_true by lia.
    destruct (lookup_lt_is_Some_2 l (Z.to_nat (i + Z.of_nat (length l))))
      as [x Hx]; [lia|].
    rewrite Hx. exists x. split; [done|]. by eapply list_elem_of_lookup_2.
  - rewrite (bool_decide_false (i < 0)) by done.
    rewrite bool_decide_true by lia.
    destruct (lookup_lt_is_Some_2 l (Z.to_nat i)) as [x Hx]; [lia|].
    rewrite Hx. exists x. split; [done|]. by eapply list_elem_of_lookup_2.
Qed.

Lemma getitem_past_end {A} (l : list A) :
  getitem l (Z.of_nat (length l)) = Raise IndexError.
Proof.
  unfold getitem. rewrite (bool_decide_false (Z.of_nat (length l) < 0)) by lia.
  rewrite bool_decide_true by lia. rewrite Nat2Z.id.
  by rewrite lookup_ge_None_2.
Qed.

Lemma sign_Qc_ternary (q : Qc) : ternary (sign_Qc q).
Proof. unfold sign_Qc. destruct (Qnum q); simpl; auto. Qed.

(** A turn of the loop of Eq. 1 on a trade that has a price. *)
Lemma tick_rule_step_runs (prices : list Qc) (ids : list Z) (k : nat) :
  (k < length ids)%nat -> (k < length prices)%nat -> Forall ternary ids ->
  exists ids',
    tick_rule_step prices ids (Z.of_nat k) = Ok ids'
    ∧ length ids' = length ids ∧ Forall ternary ids'.
Proof.
  intros Hk Hp Hids. unfold tick_rule_step.
  destruct (getitem_in_range prices (Z.of_nat k)) as (p & -> & _); [lia|].
  destruct (getitem_in_range prices (Z.of_nat k - 1)) as (p' & -> & _); [lia|].
  cbn [mbind result_bind].
  destruct (negb (bool_decide ((p - p')%Qc = 0%Qc))).
  - rewrite setitem_nat by done. eexists. split; [done|].
    split; [apply length_insert|].
    apply Forall_insert; [done|apply sign_Qc_ternary].
  - destruct (getitem_in_range ids (Z.of_nat k - 1)) as (s & -> & Hs); [lia|].
    cbn [mbind result_bind]. rewrite setitem_nat by done.
    eexists. split; [done|]. split; [apply length_insert|].
    apply Forall_insert; [done|]. rewrite Forall_forall in Hids. by apply Hids.
Qed.

Lemma tick_rule_loop_runs (prices : list Qc) (m k : nat) (ids : list Z) :
  (k + m <= length ids)%nat -> (k + m <= length prices)%nat ->
  Forall ternary ids ->
  exists ids',
    for_each (tick_rule_step prices) (map Z.of_nat (seq k m)) ids = Ok ids'
    ∧ length ids' = length ids ∧ Forall ternary ids'.
Proof.
  revert k ids. induction m as [|m IH]; intros k ids Hk Hp Hids.
  - exists ids. done.
  - cbn [seq List.map for_each].
    destruct (tick_rule_step_runs prices ids k) as (ids1 & -> & Hl1 & Ht1);
      [lia|lia|done|].
    cbn [mbind result_bind].
    destruct (IH (S k) ids1) as (ids' & -> & Hl' & Ht'); [lia|lia|done|].
    exists ids'. split; [done|]. split; [congruence|done].
Qed.

Lemma select_nonzero_length (signs : list Z) (l : list Z) :
  length l = length signs ->
  length (select (nonzero signs) l) = length (filter (fun s => s ≠ 0) signs).
Proof.
  revert l. induction signs as [|s signs IH]; intros [|x l] Hl; try done.
  simpl in *. rewrite filter_cons. destruct (decide (s ≠ 0)) as [Hs|Hs].
  - rewrite bool_decide_false by done. simpl. f_equal. apply IH. lia.
  - rewrite bool_decide_true by (by destruct (decide (s = 0))).
    simpl. apply IH. lia.
Qed.

Lemma eq1_runs (trade_signs : list Z) (price_signs : list Qc) :
  (length trade_signs <= length price_signs)%nat ->
  exists identified_trades,
    itch_trade_classification_eq1_data trade_signs price_signs
    = Ok identified_trades
    ∧ length identified_trades = length (filter (fun s => s ≠ 0) trade_signs)
    ∧ Forall ternary identified_trades.
Proof.
  intros Hlen. unfold itch_trade_classification_eq1_data. rewrite range_nat.
  destruct (tick_rule_loop_runs price_signs (length trade_signs) 0
              (replicate (length trade_signs) 0))
    as (ids & -> & Hl & Ht).
  - rewrite length_replicate. lia.
  - lia.
  - apply Forall_replicate. auto.
  - cbn [mbind result_bind]. eexists. split; [done|]. split.
    + apply select_nonzero_length. by rewrite Hl, length_replicate.
    + by apply Session.Forall_select.
Qed.

(** X18: with a price for every trade, Eq. 1 returns one inferred sign for each
    trade with a non-zero empirical sign, each −1, 0 or +1. *)
Theorem inferred_signs_shape (trade_signs : list Z) (price_signs : list Qc) :
  (length trade_signs <= length price_signs)%nat ->
  exists identified_trades,
    itch_trade_classification_eq1_data trade_signs price_signs
    = Ok identified_trades
    ∧ length identified_trades = length (filter (fun s => s ≠ 0) trade_signs)
    ∧ Forall (fun s => s = -1 ∨ s = 0 ∨ s = 1) identified_trades.
Proof. apply eq1_runs. Qed.

(** X19: with fewer prices than trades, Eq. 1 stops with an [IndexError] at the
    first trade without a price. *)
Theorem inferred_signs_short_prices (trade_signs : list Z)
    (price_signs : list Qc) :
  (length price_signs < length trade_signs)%nat ->
  itch_trade_classification_eq1_data trade_signs price_signs
  = Raise IndexError.
Proof.
  intros Hlen. unfold itch_trade_classification_eq1_data. rewrite range_nat.
  assert (seq 0 (length trade_signs)
          = seq 0 (length price_signs)
            ++ length price_signs
               :: seq (length price_signs + 1)
                      (length trade_signs - length price_signs - 1)) as ->.
  { replace (length trade_signs)
      with (length price_signs
            + (1 + (length trade_signs - length price_signs - 1)))%nat
      at 1 by lia.
    rewrite !seq_app. simpl. do 3 f_equal; lia. }
  rewrite map_app, for_each_app.
  destruct (tick_rule_loop_runs price_signs (length price_signs) 0
              (replicate (length trade_signs) 0))
    as (ids & -> & Hl & Ht).
  - rewrite length_replicate. lia.
  - lia.
  - apply Forall_replicate. auto.
  - cbn [mbind result_bind List.map for_each]. unfold tick_rule_step.
    by rewrite getitem_past_end.
Qed.

Lemma inferred_signs_shape_witness :
  exists identified_trades,
    itch_trade_classification_eq1_data [1; 0; -1] (map Qc_of_Z [10; 10; 9; 11])
    = Ok identified_trades
    ∧ length identified_trades = length (filter (fun s => s ≠ 0) [1; 0; -1])
    ∧ Forall (fun s => s = -1 ∨ s = 0 ∨ s = 1) identified_trades.
Proof.
  apply (inferred_signs_shape [1; 0; -1] (map Qc_of_Z [10; 10; 9; 11])).
  simpl. lia.
Defined.

Lemma inferred_signs_short_prices_witness :
  itch_trade_classification_eq1_data [1; 0; -1] (map Qc_of_Z [10; 10])
  = Raise IndexError.
Proof.
  apply (inferred_signs_short_prices [1; 0; -1] (map Qc_of_Z [10; 10])).
  simpl. lia.
Defined.

End TickRuleRun.

Module Seconds.
Import Py PyFacts Itch Attribution Scores.

(** The seconds of the session, counted from 34 800. *)
Lemma full_time_seq :
  full_time = map (fun i => 34800 + Z.of_nat i) (seq 0 (Z.to_nat 22200)).
Proof. unfold full_time, range2. by rewrite count_from_seq. Qed.

#[local] Opaque full_time.

Lemma full_time_length : Z.of_nat (length full_time) = 22200.
Proof. rewrite full_time_seq, length_map, length_seq. lia. Qed.

Lemma full_time_lookup (k : nat) :
  Z.of_nat k < 22200 -> full_time !! k = Some (34800 + Z.of_nat k).
Proof.
  intros Hk. rewrite full_time_seq, list_lookup_fmap.
  rewrite lookup_seq_lt by lia. done.
Qed.

(** A trade counts in the second its time in milliseconds falls in. *)
Lemma condition_second (times_signs : list Z) (t_val : Z) :
  condition times_signs t_val
  = map (fun t => bool_decide (t `div` 1000 = t_val)) times_signs.
Proof.
  unfold condition. apply map_ext. intros t. cbv zeta.
  apply eq_true_iff_eq.
  rewrite andb_true_iff, negb_true_iff, <- not_true_iff_false.
  rewrite !Qle_bool_iff, bool_decide_eq_true.
  unfold Qle, Qdiv, Qmult, Qinv, inject_Z. simpl.
  pose proof (Z.div_mod t 1000 ltac:(lia)).
  pose proof (Z.mod_pos_bound t 1000 ltac:(lia)). lia.
Qed.

Lemma select_zip_filter {A} (P : Z -> Prop) `{!forall t, Decision (P t)}
    (times : list Z) (l : list A) :
  select (map (fun t => bool_decide (P t)) times) l
  = map snd (filter (fun p => P p.1) (zip times l)).
Proof.
  revert l. induction times as [|t times IH]; intros [|x l]; try done.
  simpl. rewrite filter_cons. simpl.
  destruct (decide (P t)) as [Ht|Ht].
  - rewrite bool_decide_true by done. simpl. by rewrite IH.
  - rewrite bool_decide_false by done. by rewrite IH.
Qed.

Lemma sum_nonzero_signs (f : Z -> bool) (times signs : list Z) :
  sumZ (select (map f (select (nonzero signs) times))
               (select (nonzero signs) signs))
  = sumZ (select (map f times) signs).
Proof.
  unfold sumZ.
  revert times. induction signs as [|s signs IH]; intros [|t times]; try done.
  simpl. destruct (decide (s = 0)) as [->|Hs].
  - simpl. rewrite IH. destruct (f t); simpl; lia.
  - rewrite (bool_decide_false (s = 0)) by done. simpl.
    destruct (f t); simpl; by rewrite IH.
Qed.

Lemma select_fmap {A B} (f : A -> B) (mask : list bool) (l : list A) :
  select mask (map f l) = map f (select mask l).
Proof.
  revert l. induction mask as [|b mask IH]; intros [|x l]; try done.
  simpl. destruct b; simpl; by rewrite IH.
Qed.

Lemma zip_mul_scale (k : Z) (a b : list Z) :
  zip_with Z.mul a (map (Z.mul k) b) = map (Z.mul k) (zip_with Z.mul a b).
Proof.
  revert b. induction a as [|x a IH]; intros [|y b]; try done.
  simpl. rewrite IH. f_equal. lia.
Qed.

Lemma sgn_ternary (x : Z) : Z.sgn x = -1 ∨ Z.sgn x = 0 ∨ Z.sgn x = 1.
Proof. destruct x; simpl; auto. Qed.

(** What Eq. 2 returns, when it returns. *)
Lemma eq2_returns times signs identified emp exp :
  itch_trade_classification_eq2_data times signs identified = Ok (emp, exp) ->
  length times = length signs
  ∧ length (select (nonzero signs) signs) = length identified
  ∧ emp = map (fun t_val =>
                 Z.sgn (sumZ (select (condition (select (nonzero signs) times)
                                                t_val)
                                     (select (nonzero signs) signs))))
              full_time
  ∧ exp = map (fun t_val =>
                 Z.sgn (sumZ (select (condition (select (nonzero signs) times)
                                                t_val)
                                     identified)))
              full_time.
Proof.
  unfold itch_trade_classification_eq2_data, mask_index. cbv zeta.
  destruct (decide (length (nonzero signs) = length times)) as [Hlen|Hlen];
    [|by rewrite (bool_decide_false _ Hlen)].
  rewrite (bool_decide_true _ Hlen). cbn [mbind result_bind].
  destruct (decide (length (select (nonzero signs) signs) = length identified))
    as [Hid|Hid]; [|by rewrite (bool_decide_false _ Hid)].
  rewrite (bool_decide_true _ Hid). cbn [py_assert mbind result_bind].
  intros [= <- <-]. unfold nonzero in Hlen. rewrite length_map in Hlen. done.
Qed.

Lemma eq2_code times signs identified :
  length times = length signs ->
  length (filter (fun s => s ≠ 0) signs) = length identified ->
  itch_trade_classification_eq2_data times signs identified
  = Ok (map (fun t_val =>
               Z.sgn (sumZ (select (condition (select (nonzero signs) times)
                                              t_val)
                                   (select (nonzero signs) signs))))
            full_time,
        map (fun t_val =>
               Z.sgn (sumZ (select (condition (select (nonzero signs) times)
                                              t_val)
                                   identified)))
            full_time).
Proof.
  intros Hlen Hid.
  unfold itch_trade_classification_eq2_data, mask_index. cbv zeta.
  rewrite nonzero_length.
  rewrite (TickRuleRun.select_nonzero_length signs signs) by done.
  rewrite (bool_decide_true (length signs = length times)) by done.
  cbn [mbind result_bind]. by rewrite bool_decide_true by done.
Qed.

Lemma eq3_code times signs volumes identified :
  length times = length signs -> length volumes = length signs ->
  length (filter (fun s => s ≠ 0) signs) = length identified ->
  itch_trade_classification_eq3_data times signs volumes identified
  = Ok (map (fun t_val =>
               Z.sgn (sumZ (select (condition (select (nonzero signs) times)
                                              t_val)
                                   (select (nonzero signs) signs))))
            full_time,
        map (fun t_val =>
               let c := condition (select (nonzero signs) times) t_val in
               Z.sgn (sumZ (zip_with Z.mul
                              (select c identified)
                              (select c (select (nonzero signs) volumes)))))
            full_time).
Proof.
  intros Hlen Hvol Hid.
  unfold itch_trade_classification_eq3_data, mask_index. cbv zeta.
  rewrite nonzero_length.
  rewrite (TickRuleRun.select_nonzero_length signs signs) by done.
  rewrite (bool_decide_true (length signs = length times)) by done.
  cbn [mbind result_bind].
  rewrite (bool_decide_true (length signs = length volumes)) by done.
  cbn [mbind result_bind]. by rewrite bool_decide_true by done.
Qed.

(** X20: Eq. 2 needs a time for every sign, and as many inferred signs as there
    are non-zero empirical signs: a sign without a time, or a time without a
    sign, is an [IndexError], another number of inferred signs fails the
    [assert]. *)
Theorem per_second_inputs (times_signs trade_signs identified_trades : list Z) :
  (length times_signs ≠ length trade_signs ->
   itch_trade_classification_eq2_data times_signs trade_signs identified_trades
   = Raise IndexError)
  ∧ (length times_signs = length trade_signs ->
     length (filter (fun s => s ≠ 0) trade_signs) ≠ length identified_trades ->
     itch_trade_classification_eq2_data times_signs trade_signs
                                        identified_trades
     = Raise AssertionError)
  ∧ (length times_signs = length trade_signs ->
     length (filter (fun s => s ≠ 0) trade_signs) = length identified_trades ->
     exists emp exp,
       itch_trade_classification_eq2_data times_signs trade_signs
                                          identified_trades
       = Ok (emp, exp)).
Proof.
  repeat split.
  - intros Hlen.
    unfold itch_trade_classification_eq2_data, mask_index. cbv zeta.
    rewrite nonzero_length.
    by rewrite (bool_decide_false (length trade_signs = length times_signs)).
  - intros Hlen Hid.
    unfold itch_trade_classification_eq2_data, mask_index. cbv zeta.
    rewrite nonzero_length.
    rewrite (TickRuleRun.select_nonzero_length trade_signs trade_signs) by done.
    rewrite (bool_decide_true (length trade_signs = length times_signs))
      by done.
    cbn [mbind result_bind]. by rewrite bool_decide_false.
  - intros Hlen Hid. rewrite eq2_code by done. eauto.
Qed.

(** X21: the two series of Eq. 2 have one entry for each of the 22 200 seconds
    from 34 800 to 56 999, each −1, 0 or +1. *)
Theorem per_second_shape (times_signs trade_signs identified_trades : list Z)
    (emp exp : list Z) :
  itch_trade_classification_eq2_data times_signs trade_signs identified_trades
  = Ok (emp, exp) ->
  Z.of_nat (length emp) = 22200 ∧ Z.of_nat (length exp) = 22200
  ∧ Forall (fun s => s = -1 ∨ s = 0 ∨ s = 1) emp
  ∧ Forall (fun s => s = -1 ∨ s = 0 ∨ s = 1) exp.
Proof.
  intros (_ & _ & -> & ->)%eq2_returns.
  rewrite !length_map, full_time_length. do 2 (split; [done|]).
  split; apply Forall_fmap, Forall_forall; intros t _; apply sgn_ternary.
Qed.

(** X22: second by second: the empirical entry of the second 34 800 + k is the
    sign of the sum of the empirical signs of the trades whose time in
    milliseconds, divided by 1000 and rounded down, is that second; the
    inferred entry is the same over the inferred signs, timed by the trades
    with a non-zero empirical sign. *)
Theorem per_second_sign (times_signs trade_signs identified_trades : list Z)
    (emp exp : list Z) (k : nat) :
  itch_trade_classification_eq2_data times_signs trade_signs identified_trades
  = Ok (emp, exp) ->
  Z.of_nat k < 22200 ->
  emp !! k
  = Some (Z.sgn (sumZ (map snd
            (filter (fun p => p.1 `div` 1000 = 34800 + Z.of_nat k)
                    (zip times_signs trade_signs)))))
  ∧ exp !! k
    = Some (Z.sgn (sumZ (map snd
              (filter (fun p => p.1 `div` 1000 = 34800 + Z.of_nat k)
                      (zip (select (nonzero trade_signs) times_signs)
                           identified_trades))))).
Proof.
  intros (_ & _ & -> & ->)%eq2_returns Hk.
  rewrite !list_lookup_fmap, (full_time_lookup k Hk). simpl.
  rewrite condition_second, sum_nonzero_signs.
  by rewrite !(select_zip_filter (fun t => t `div` 1000 = 34800 + Z.of_nat k)).
Qed.

(** X23: Eq. 3 weighs the inferred signs only: multiplying every volume by one
    positive number changes nothing. *)
Theorem volume_scale_invariant
    (times_signs trade_signs volume_signs identified_trades : list Z) (c : Z) :
  0 < c ->
  itch_trade_classification_eq3_data times_signs trade_signs
    (map (Z.mul c) volume_signs) identified_trades
  = itch_trade_classification_eq3_data times_signs trade_signs volume_signs
      identified_trades.
Proof.
  intros Hc. unfold itch_trade_classification_eq3_data, mask_index. cbv zeta.
  rewrite length_map.
  destruct (bool_decide (length (nonzero trade_signs) = length times_signs));
    [|done].
  cbn [mbind result_bind].
  destruct (bool_decide (length (nonzero trade_signs) = length volume_signs));
    [|done].
  cbn [mbind result_bind].
  destruct (py_assert _); [|done]. cbn [mbind result_bind].
  do 2 f_equal. apply map_ext. intros t_val. cbv zeta.
  by rewrite !select_fmap, zip_mul_scale, sumZ_scale, sgn_scale.
Qed.

(** X24: with one and the same positive volume for every trade, Eq. 3 is Eq. 2. *)
Theorem constant_volume_is_unweighted
    (times_signs trade_signs identified_trades : list Z) (v : Z) :
  0 < v ->
  itch_trade_classification_eq3_data times_signs trade_signs
    (replicate (length trade_signs) v) identified_trades
  = itch_trade_classification_eq2_data times_signs trade_signs
      identified_trades.
Proof. apply eq3_constant_volume. Qed.

Lemma per_second_inputs_witness :
  itch_trade_classification_eq2_data [34800000; 34800001] [1; -1; 1] [1; 1; 1]
  = Raise IndexError
  ∧ itch_trade_classification_eq2_data [34800000; 34800001] [1; 0] [1; 1]
    = Raise AssertionError
  ∧ exists emp exp,
      itch_trade_classification_eq2_data [34800000; 34800001] [1; 0] [1]
      = Ok (emp, exp).
Proof.
  split; [|split].
  - apply (per_second_inputs [34800000; 34800001] [1; -1; 1] [1; 1; 1]).
    simpl. lia.
  - apply (per_second_inputs [34800000; 34800001] [1; 0] [1; 1]).
    + reflexivity.
    + simpl. lia.
  - apply (per_second_inputs [34800000; 34800001] [1; 0] [1]).
    + reflexivity.
    + reflexivity.
Defined.

Lemma per_second_shape_witness :
  exists emp exp,
    itch_trade_classification_eq2_data Sample.times_signs Sample.trade_signs
                                       [1; -1; -1]
    = Ok (emp, exp)
    ∧ Z.of_nat (length emp) = 22200 ∧ Z.of_nat (length exp) = 22200
    ∧ Forall (fun s => s = -1 ∨ s = 0 ∨ s = 1) emp
    ∧ Forall (fun s => s = -1 ∨ s = 0 ∨ s = 1) exp.
Proof.
  eexists _, _. split.
  - apply (eq2_code Sample.times_signs Sample.trade_signs [1; -1; -1]);
      reflexivity.
  - apply (per_second_shape Sample.times_signs Sample.trade_signs [1; -1; -1]).
    apply (eq2_code Sample.times_signs Sample.trade_signs [1; -1; -1]);
      reflexivity.
Defined.

Lemma per_second_sign_witness :
  exists emp exp,
    itch_trade_classification_eq2_data Sample.times_signs Sample.trade_signs
                                       [1; -1; -1]
    = Ok (emp, exp)
    ∧ emp !! 0%nat = Some (-1) ∧ exp !! 0%nat = Some (-1).
Proof.
  eexists _, _. split.
  - apply (eq2_code Sample.times_signs Sample.trade_signs [1; -1; -1]);
      reflexivity.
  - apply (per_second_sign Sample.times_signs Sample.trade_signs [1; -1; -1]
             _ _ 0).
    + apply (eq2_code Sample.times_signs Sample.trade_signs [1; -1; -1]);
        reflexivity.
    + reflexivity.
Defined.

Lemma volume_scale_invariant_witness :
  itch_trade_classification_eq3_data Sample.times_signs Sample.trade_signs
    (map (Z.mul 3) Sample.volume_signs) [1; -1; -1]
  = itch_trade_classification_eq3_data Sample.times_signs Sample.trade_signs
      Sample.volume_signs [1; -1; -1].
Proof. apply volume_scale_invariant. lia. Defined.

Lemma constant_volume_is_unweighted_witness :
  itch_trade_classification_eq3_data Sample.times_signs Sample.trade_signs
    (replicate (length Sample.trade_signs) 100) [1; -1; -1]
  = itch_trade_classification_eq2_data Sample.times_signs Sample.trade_signs
      [1; -1; -1].
Proof. apply constant_volume_is_unweighted. lia. Defined.

End Seconds.

Module DayCounts.
Import Py PyFacts Itch Scores Seconds.

#[local] Opaque full_time.

Lemma drop_nan_None (l : list (option Z)) : drop_nan (None :: l) = drop_nan l.
Proof. done. Qed.

Lemma drop_nan_Some (x : Z) (l : list (option Z)) :
  drop_nan (Some x :: l) = x :: drop_nan l.
Proof. done. Qed.

(** Every second is either scored or counted as empty. *)
Lemma mark_nan_count (a b c : list Z) :
  length a = length b -> length a = length c ->
  Z.of_nat (length (drop_nan (mark_nan a b c).1.1.1)) + (mark_nan a b c).2
  = Z.of_nat (length a)
  ∧ 0 <= (mark_nan a b c).2.
Proof.
  revert b c. induction a as [|x a IH]; intros [|y b] [|z c] Hb Hc; try done.
  simpl in Hb, Hc. cbn [mark_nan].
  destruct (IH b c) as [IH1 IH2]; [lia|lia|].
  destruct (mark_nan a b c) as [[[a1 a2] a3] n]. cbn [fst snd] in IH1, IH2.
  destruct (_ && _); cbn [fst snd];
    rewrite ?drop_nan_None, ?drop_nan_Some; cbn [length]; lia.
Qed.

Lemma main_scores_counts signs identified emp2 exp2 exp3 :
  length emp2 = length exp2 -> length emp2 = length exp3 ->
  exists s,
    main_scores signs identified emp2 exp2 exp3 = Ok s
    ∧ id_trades_trades_num s = Z.of_nat (length (filter (fun x => x ≠ 0) signs))
    ∧ 0 <= trade_matches s <= id_trades_trades_num s
    ∧ 0 <= id_trades_physical_num s <= Z.of_nat (length emp2)
    ∧ 0 <= physical_matches_eq2 s <= id_trades_physical_num s
    ∧ 0 <= physical_matches_eq3 s <= id_trades_physical_num s
    ∧ Z.of_nat (length emp2) - id_trades_physical_num s
      <= zeros_eq2 s <= Z.of_nat (length emp2)
    ∧ Z.of_nat (length emp2) - id_trades_physical_num s
      <= zeros_eq3 s <= Z.of_nat (length emp2).
Proof.
  intros H2 H3. unfold main_scores.
  destruct (mark_nan_lengths emp2 exp2 exp3) as [L2 L3].
  destruct (mark_nan_count emp2 exp2 exp3 H2 H3) as [Hc Hn].
  destruct (mark_nan emp2 exp2 exp3) as [[[a b] c] n]. simpl in L2, L3, Hc, Hn.
  rewrite (bool_decide_true (length (drop_nan a) = length (drop_nan b))) by done.
  rewrite (bool_decide_true (length (drop_nan a) = length (drop_nan c))) by done.
  cbn [py_assert mbind result_bind]. eexists. split; [done|]. simpl.
  pose proof (matches_range (select (nonzero signs) signs) identified).
  pose proof (matches_range (drop_nan a) (drop_nan b)).
  pose proof (matches_range (drop_nan a) (drop_nan c)).
  pose proof (matches_range (drop_nan b) (replicate (length (drop_nan b)) 0)).
  pose proof (matches_range (drop_nan c) (replicate (length (drop_nan c)) 0)).
  rewrite (TickRuleRun.select_nonzero_length signs signs) in * by done.
  repeat split; lia.
Qed.

(** X25: with a time, a volume and a price for every sign, the day is scored:
    the trades counted are those with a non-zero sign, the seconds scored
    are at most 22 200, the matches are at most what is counted, and each
    count of zero seconds includes the seconds that are not scored. *)
Theorem day_counts (times_signs trade_signs volume_signs : list Z)
    (price_signs : list Qc) :
  length times_signs = length trade_signs ->
  length volume_signs = length trade_signs ->
  (length trade_signs <= length price_signs)%nat ->
  exists s,
    main_day times_signs trade_signs volume_signs price_signs = Ok s
    ∧ id_trades_trades_num s
      = Z.of_nat (length (filter (fun x => x ≠ 0) trade_signs))
    ∧ 0 <= trade_matches s <= id_trades_trades_num s
    ∧ 0 <= id_trades_physical_num s <= 22200
    ∧ 0 <= physical_matches_eq2 s <= id_trades_physical_num s
    ∧ 0 <= physical_matches_eq3 s <= id_trades_physical_num s
    ∧ 22200 - id_trades_physical_num s <= zeros_eq2 s <= 22200
    ∧ 22200 - id_trades_physical_num s <= zeros_eq3 s <= 22200.
Proof.
  intros Htimes Hvol Hprices. unfold main_day.
  destruct (TickRuleRun.eq1_runs trade_signs price_signs Hprices)
    as (identified & -> & Hid & _).
  cbn [mbind result_bind].
  rewrite eq2_code by done. cbn [mbind result_bind].
  rewrite eq3_code by done. cbn [mbind result_bind].
  set (emp2 := map _ full_time). set (exp2 := map _ full_time).
  set (exp3 := map _ full_time).
  assert (Hl : Z.of_nat (length emp2) = 22200)
    by (subst emp2; by rewrite length_map, full_time_length).
  destruct (main_scores_counts trade_signs identified emp2 exp2 exp3)
    as (s & Hs & Hrest).
  - subst emp2 exp2. by rewrite !length_map.
  - subst emp2 exp3. by rewrite !length_map.
  - exists s. split; [done|]. by rewrite <- Hl.
Qed.

Lemma day_counts_witness :
  exists s,
    main_day Sample.times_signs Sample.trade_signs Sample.volume_signs
             Sample.price_signs = Ok s
    ∧ id_trades_trades_num s
      = Z.of_nat (length (filter (fun x => x ≠ 0) Sample.trade_signs))
    ∧ 0 <= trade_matches s <= id_trades_trades_num s
    ∧ 0 <= id_trades_physical_num s <= 22200
    ∧ 0 <= physical_matches_eq2 s <= id_trades_physical_num s
    ∧ 0 <= physical_matches_eq3 s <= id_trades_physical_num s
    ∧ 22200 - id_trades_physical_num s <= zeros_eq2 s <= 22200
    ∧ 22200 - id_trades_physical_num s <= zeros_eq3 s <= 22200.
Proof.
  apply (day_counts Sample.times_signs Sample.trade_signs Sample.volume_signs
           Sample.price_signs).
  - reflexivity.
  - reflexivity.
  - simpl. lia.
Defined.

End DayCounts.
